(** * nvidia_stats.c: NVAPI telemetry reader

    A shallow embedding of [nvidia_stats.c].  The program talks to two
    things it does not own: the dynamic loader ([dlopen], [dlsym],
    [dlclose]) and the NVIDIA driver behind [nvapi_QueryInterface].  Both are
    parameters of the development.  The driver is an arbitrary state machine
    (its answers may depend on everything it was asked before), and every
    call that leaves the program is appended to a log, so that statements
    such as "each probe carries mask [1 << bit]" can be made about the calls
    themselves.

    Integers are [Z] with the 32-bit wrap-around written out.  The shifts
    and subtractions the C standard leaves undefined on [int] overflow
    ([1 << 31], [INT_MIN - 1]) are given their two's-complement result, which
    is what gcc produces on the platforms the driver library exists for. *)

From Stdlib Require Import ZArith List String Ascii Bool Lia.
From Stdlib Require DecimalString HexadecimalString DecimalN.
From Stdlib Require Import Floats.SpecFloat.
Import ListNotations.

Open Scope string_scope.
Open Scope list_scope.
Open Scope Z_scope.

(** String concatenation, kept apart from the [++] of lists. *)
Notation "a +++ b" := (String.append a b) (at level 60, right associativity).

(** ** Machine integers *)

(** Value of a 32-bit pattern read as [uint32_t]. *)
Definition wrap_u32 (z : Z) : Z := z mod 2 ^ 32.

(** Value of a 32-bit pattern read as [int32_t]. *)
Definition wrap_i32 (z : Z) : Z := (z + 2 ^ 31) mod 2 ^ 32 - 2 ^ 31.

(** ** Constants of the source *)

Definition NVAPI_LIBRARY : string := "libnvidia-api.so.1".
Definition NVAPI_MAX_PHYSICAL_GPUS : Z := 64.

Definition QUERY_NVAPI_INITIALIZE : Z := 0x0150e828.
Definition QUERY_NVAPI_UNLOAD : Z := 0xd22bdd7e.
Definition QUERY_NVAPI_ENUM_PHYSICAL_GPUS : Z := 0xe5ac921f.
Definition QUERY_NVAPI_THERMALS : Z := 0x65fe3aad.
Definition QUERY_NVAPI_VOLTAGE : Z := 0x465f9bcf.

(** The null pointer.  Pointers (library handle, function pointers, device
    handles) are opaque addresses. *)
Definition NULL : Z := 0.

(** ** Versioned query structures *)

Module NvApiThermals.
Record t : Type := Build
  { version : Z;          (* uint32_t *)
    mask : Z;             (* int32_t *)
    values : list Z }.    (* int32_t values[40] *)

(** [sizeof(NvApiThermals)]: two 4-byte scalars and forty 4-byte slots. *)
Definition sizeof : Z := 4 + 4 + 4 * 40.

(** [memset(&thermals, 0, sizeof(thermals))]. *)
Definition zeroed : t :=
  {| version := 0; mask := 0; values := repeat 0 40 |}.

Definition set_version (v : Z) (s : t) : t :=
  {| version := v; mask := mask s; values := values s |}.
Definition set_mask (m : Z) (s : t) : t :=
  {| version := version s; mask := m; values := values s |}.

(** [s.values[i]]; every index the program reads is a constant below 40. *)
Definition value_at (s : t) (i : nat) : Z := nth i (values s) 0.
End NvApiThermals.

Module NvApiVoltage.
Record t : Type := Build
  { version : Z;            (* uint32_t *)
    flags : Z;              (* uint32_t *)
    padding_1 : list Z;     (* uint32_t padding_1[8] *)
    value_uv : Z;           (* uint32_t *)
    padding_2 : list Z }.   (* uint32_t padding_2[8] *)

(** [sizeof(NvApiVoltage)]. *)
Definition sizeof : Z := 4 + 4 + 4 * 8 + 4 + 4 * 8.

Definition zeroed : t :=
  {| version := 0; flags := 0; padding_1 := repeat 0 8;
     value_uv := 0; padding_2 := repeat 0 8 |}.

Definition set_version (v : Z) (s : t) : t :=
  {| version := v; flags := flags s; padding_1 := padding_1 s;
     value_uv := value_uv s; padding_2 := padding_2 s |}.
End NvApiVoltage.

(** The stamp written in the first field:
    [sizeof(struct) | (version_number << 16)]. *)
Definition version_stamp (size ver : Z) : Z := Z.lor size (Z.shiftl ver 16).

Definition thermals_stamp : Z := version_stamp NvApiThermals.sizeof 2.
Definition voltage_stamp : Z := version_stamp NvApiVoltage.sizeof 1.

(** ** The outside world *)

(** What the dynamic loader answers. *)
Record Loader : Type :=
  { dlopen : string -> Z;         (* handle, [NULL] on failure *)
    dlsym : Z -> string -> Z;     (* address, [NULL] when the symbol is missing *)
    dlerror : string }.

(** The driver behind the library, with private state [D].  A function
    pointer obtained from the query interface is an address; what a call
    through it does is decided by the driver and by the C type the program
    casts the address to, hence one entry per function-pointer type.  A
    structure passed by pointer comes back as the driver left it. *)
Record Driver (D : Type) : Type :=
  { (* NvAPI_QueryInterface_t *)
    query_interface : Z -> D -> Z * D;
    (* NvAPI_Initialize_t and NvAPI_Unload_t: no argument, a status back *)
    call_void : Z -> D -> Z * D;
    (* NvAPI_EnumPhysicalGPUs_t: status, handles[] and *count afterwards *)
    call_enum : Z -> list Z -> Z -> D -> (Z * list Z * Z) * D;
    (* NvAPI_GetThermals_t *)
    call_thermals : Z -> Z -> NvApiThermals.t -> D -> (Z * NvApiThermals.t) * D;
    (* NvAPI_GetVoltage_t *)
    call_voltage : Z -> Z -> NvApiVoltage.t -> D -> (Z * NvApiVoltage.t) * D }.

Arguments query_interface {D}.
Arguments call_void {D}.
Arguments call_enum {D}.
Arguments call_thermals {D}.
Arguments call_voltage {D}.

(** One entry of the log of calls leaving the program.  Driver calls record
    the function pointer, the arguments as passed and the status returned. *)
Inductive Event : Type :=
  | EvDlopen (handle : Z)
  | EvDlsym (handle addr : Z)
  | EvDlclose (handle : Z)
  | EvQuery (id fn : Z)
  | EvVoid (fn status : Z)
  | EvEnum (fn status : Z)
  | EvThermals (fn handle : Z) (arg : NvApiThermals.t) (status : Z)
  | EvVoltage (fn handle : Z) (arg : NvApiVoltage.t) (status : Z).

(** ** Text produced by [printf] *)

Definition nl : string := String (ascii_of_nat 10) EmptyString.

(** [width] characters at least, filled with the digit zero on the left. *)
Definition zero_pad (width : nat) (s : string) : string :=
  concat EmptyString (repeat "0" (width - String.length s)) +++ s.

(** [%u] of a 32-bit argument. *)
Definition fmt_u (z : Z) : string :=
  DecimalString.NilZero.string_of_uint (N.to_uint (Z.to_N (wrap_u32 z))).

(** [%d] of a 32-bit argument. *)
Definition fmt_d (z : Z) : string :=
  DecimalString.NilZero.string_of_int (Z.to_int (wrap_i32 z)).

(** [%08x]: the argument is read as unsigned, whatever its declared type. *)
Definition fmt_08x (z : Z) : string :=
  zero_pad 8
    (HexadecimalString.NilZero.string_of_uint (N.to_hex_uint (Z.to_N (wrap_u32 z)))).

(** *** Single precision

    [float] is IEEE binary32: 24 bits of precision, exponents below 128. *)
Definition f32_of_Z (z : Z) : spec_float := binary_normalize 24 128 z 0 false.
Definition f32_div (x y : spec_float) : spec_float := SFdiv 24 128 x y.

(** [num / den] rounded to the nearest integer, ties to even
    ([0 <= num], [0 < den]). *)
Definition round_half_even (num den : Z) : Z :=
  let q := num / den in
  match 2 * (num mod den) ?= den with
  | Lt => q
  | Gt => q + 1
  | Eq => if Z.even q then q else q + 1
  end.

(** The magnitude [m * 2^e] in thousandths, correctly rounded. *)
Definition thousandths (m : positive) (e : Z) : Z :=
  if 0 <=? e then Z.pos m * 2 ^ e * 1000
  else round_half_even (Z.pos m * 1000) (2 ^ (- e)).

Definition fmt_sign (s : bool) : string := if s then "-" else EmptyString.

(** [%.3f]: the value printed exactly, rounded to three decimals. *)
Definition fmt_3f (x : spec_float) : string :=
  match x with
  | S754_zero s => fmt_sign s +++ "0.000"
  | S754_infinity s => fmt_sign s +++ "inf"
  | S754_nan => "nan"
  | S754_finite s m e =>
      let n := thousandths m e in
      fmt_sign s
        +++ DecimalString.NilZero.string_of_uint (N.to_uint (Z.to_N (n / 1000)))
        +++ "."
        +++ zero_pad 3 (DecimalString.NilZero.string_of_uint (N.to_uint (Z.to_N (n mod 1000))))
  end.

Definition rule_eq : string := "=================================================".
Definition rule_dash : string := "-------------------------------------------------".

(** ** Worlds and computations *)

(** Everything a run can change: the driver, the two globals of the source,
    both output streams and the log of outside calls. *)
Record World (D : Type) : Type :=
  { driver_state : D;
    nvapi_lib : Z;
    nvapi_QueryInterface : Z;
    stdout : list string;
    stderr : list string;
    calls : list Event }.

Arguments driver_state {D}.
Arguments nvapi_lib {D}.
Arguments nvapi_QueryInterface {D}.
Arguments stdout {D}.
Arguments stderr {D}.
Arguments calls {D}.

Section Worlds.

Context {D : Type}.

Definition set_driver_state (d : D) (w : World D) : World D :=
  {| driver_state := d; nvapi_lib := nvapi_lib w;
     nvapi_QueryInterface := nvapi_QueryInterface w;
     stdout := stdout w; stderr := stderr w; calls := calls w |}.
Definition set_nvapi_lib (p : Z) (w : World D) : World D :=
  {| driver_state := driver_state w; nvapi_lib := p;
     nvapi_QueryInterface := nvapi_QueryInterface w;
     stdout := stdout w; stderr := stderr w; calls := calls w |}.
Definition set_nvapi_QueryInterface (p : Z) (w : World D) : World D :=
  {| driver_state := driver_state w; nvapi_lib := nvapi_lib w;
     nvapi_QueryInterface := p;
     stdout := stdout w; stderr := stderr w; calls := calls w |}.
Definition put_stdout (s : string) (w : World D) : World D :=
  {| driver_state := driver_state w; nvapi_lib := nvapi_lib w;
     nvapi_QueryInterface := nvapi_QueryInterface w;
     stdout := stdout w ++ [s]; stderr := stderr w; calls := calls w |}.
Definition put_stderr (s : string) (w : World D) : World D :=
  {| driver_state := driver_state w; nvapi_lib := nvapi_lib w;
     nvapi_QueryInterface := nvapi_QueryInterface w;
     stdout := stdout w; stderr := stderr w ++ [s]; calls := calls w |}.
Definition record_call (e : Event) (w : World D) : World D :=
  {| driver_state := driver_state w; nvapi_lib := nvapi_lib w;
     nvapi_QueryInterface := nvapi_QueryInterface w;
     stdout := stdout w; stderr := stderr w; calls := calls w ++ [e] |}.

(** The state of a process that has just started: globals are [NULL],
    nothing printed, nothing called. *)
Definition initial_world (d : D) : World D :=
  {| driver_state := d; nvapi_lib := NULL; nvapi_QueryInterface := NULL;
     stdout := []; stderr := []; calls := [] |}.

(** A computation either returns, or faults by calling through a null
    function pointer. *)
Inductive Outcome (A : Type) : Type :=
  | Returns (a : A) (w : World D)
  | Faults (w : World D).

Definition M (A : Type) : Type := World D -> Outcome A.

Definition ret {A} (a : A) : M A := fun w => Returns A a w.
Definition bind {A B} (c : M A) (k : A -> M B) : M B :=
  fun w => match c w with
           | Returns _ a w' => k a w'
           | Faults _ w' => Faults B w'
           end.

Definition modify (f : World D -> World D) : M unit :=
  fun w => Returns unit tt (f w).
Definition read {A} (f : World D -> A) : M A := fun w => Returns A (f w) w.
Definition printf (s : string) : M unit := modify (put_stdout s).
Definition eprintf (s : string) : M unit := modify (put_stderr s).

(** A call through a function pointer faults when the pointer is null.
    Whether the library behind a pointer that is not null is still mapped
    is not part of the world: the statements below are about worlds in
    which it is, and say nothing of a call through a pointer into a library
    that was closed. *)
Definition through {A} (fn : Z) (c : M A) : M A :=
  fun w => if fn =? NULL then Faults A w else c w.

End Worlds.

Arguments Outcome D A : clear implicits.
Arguments M D A : clear implicits.
Arguments Returns {D A}.
Arguments Faults {D A}.

(** The world a computation stopped in. *)
Definition world_of {D A} (o : Outcome D A) : World D :=
  match o with
  | Returns _ w => w
  | Faults w => w
  end.

Notation "x <- c ;; k" := (bind c (fun x => k))
  (at level 61, c at next level, right associativity).
Notation "' pat <- c ;; k" := (bind c (fun x => match x with pat => k end))
  (at level 61, pat pattern, c at next level, right associativity).
Notation "c ;;; k" := (bind c (fun _ => k))
  (at level 61, right associativity).

(** ** The program *)

Section Program.

Context {D : Type}.
Variable ld : Loader.
Variable drv : Driver D.

(** *** Calls that leave the program *)

Definition do_dlopen (name : string) : M D Z :=
  let h := dlopen ld name in
  modify (record_call (EvDlopen h)) ;;; ret h.

Definition do_dlsym (h : Z) (name : string) : M D Z :=
  let a := dlsym ld h name in
  modify (record_call (EvDlsym h a)) ;;; ret a.

Definition do_dlclose (h : Z) : M D unit :=
  modify (record_call (EvDlclose h)).

(** [nvapi_QueryInterface(id)], through the global pointer. *)
Definition invoke_QueryInterface (id : Z) : M D Z :=
  qi <- read nvapi_QueryInterface ;;
  through qi (fun w =>
    let '(fn, d) := query_interface drv id (driver_state w) in
    Returns fn (record_call (EvQuery id fn) (set_driver_state d w))).

Definition invoke_void (fn : Z) : M D Z :=
  through fn (fun w =>
    let '(status, d) := call_void drv fn (driver_state w) in
    Returns status (record_call (EvVoid fn status) (set_driver_state d w))).

Definition invoke_enum (fn : Z) (handles : list Z) (count : Z)
  : M D (Z * list Z * Z) :=
  through fn (fun w =>
    let '(r, d) := call_enum drv fn handles count (driver_state w) in
    Returns r (record_call (EvEnum fn (fst (fst r))) (set_driver_state d w))).

Definition invoke_thermals (fn handle : Z) (thermals : NvApiThermals.t)
  : M D (Z * NvApiThermals.t) :=
  through fn (fun w =>
    let '(r, d) := call_thermals drv fn handle thermals (driver_state w) in
    Returns r (record_call (EvThermals fn handle thermals (fst r))
                 (set_driver_state d w))).

Definition invoke_voltage (fn handle : Z) (voltage : NvApiVoltage.t)
  : M D (Z * NvApiVoltage.t) :=
  through fn (fun w =>
    let '(r, d) := call_voltage drv fn handle voltage (driver_state w) in
    Returns r (record_call (EvVoltage fn handle voltage (fst r))
                 (set_driver_state d w))).

(** *** [load_nvapi] *)
Definition load_nvapi : M D Z :=
  lib <- do_dlopen NVAPI_LIBRARY ;;
  modify (set_nvapi_lib lib) ;;;
  if lib =? NULL then
    eprintf ("Error: Could not load " +++ NVAPI_LIBRARY +++ ": "
               +++ dlerror ld +++ nl) ;;;
    eprintf ("Make sure NVIDIA drivers are installed." +++ nl) ;;;
    ret (-1)
  else
    qi <- do_dlsym lib "nvapi_QueryInterface" ;;
    modify (set_nvapi_QueryInterface qi) ;;;
    if qi =? NULL then
      eprintf ("Error: Could not find nvapi_QueryInterface: "
                 +++ dlerror ld +++ nl) ;;;
      do_dlclose lib ;;;
      ret (-1)
    else ret 0.

(** *** [get_nvapi_function] *)
Definition get_nvapi_function (id : Z) : M D Z :=
  func <- invoke_QueryInterface id ;;
  (if func =? NULL then
     eprintf ("Error: Could not get function for ID 0x" +++ fmt_08x id +++ nl)
   else ret tt) ;;;
  ret func.

(** *** [init_nvapi] *)
Definition init_nvapi : M D Z :=
  initialize <- get_nvapi_function QUERY_NVAPI_INITIALIZE ;;
  if initialize =? NULL then ret (-1)
  else
    status <- invoke_void initialize ;;
    if negb (status =? 0) then
      eprintf ("Error: NvAPI_Initialize failed with status 0x"
                 +++ fmt_08x status +++ nl) ;;;
      ret (-1)
    else
      printf ("NVAPI initialized successfully." +++ nl +++ nl) ;;;
      ret 0.

(** *** [unload_nvapi] *)
Definition unload_nvapi : M D unit :=
  qi <- read nvapi_QueryInterface ;;
  (if negb (qi =? NULL) then
     unload <- get_nvapi_function QUERY_NVAPI_UNLOAD ;;
     if negb (unload =? NULL) then
       _ <- invoke_void unload ;; ret tt
     else ret tt
   else ret tt) ;;;
  lib <- read nvapi_lib ;;
  if negb (lib =? NULL) then do_dlclose lib else ret tt.

(** *** [enum_physical_gpus]

    [handles] and [count] are passed by pointer: the result carries their
    contents after the call next to the status returned. *)
Definition enum_physical_gpus (handles : list Z) (count : Z)
  : M D (Z * list Z * Z) :=
  enum_gpus <- get_nvapi_function QUERY_NVAPI_ENUM_PHYSICAL_GPUS ;;
  if enum_gpus =? NULL then ret (-1, handles, count)
  else
    '(status, handles', count') <- invoke_enum enum_gpus handles count ;;
    if negb (status =? 0) then
      eprintf ("Error: EnumPhysicalGPUs failed with status 0x"
                 +++ fmt_08x status +++ nl) ;;;
      ret (-1, handles', count')
    else ret (0, handles', count').

(** *** [calculate_thermals_mask] *)

(** The values [bit] takes in [for (int bit = 0; bit < 32; bit++)]. *)
Definition probe_bits : list Z := map Z.of_nat (seq 0 32).

(** The probing loop.  [Some m] is a [return m] from inside the loop,
    [None] is the loop running to its end.  The structure is the one
    the baseline call left behind; only its mask is rewritten. *)
Fixpoint probe_loop (get_thermals handle : Z) (thermals : NvApiThermals.t)
    (bits : list Z) : M D (option Z) :=
  match bits with
  | [] => ret None
  | bit :: rest =>
      let thermals :=
        NvApiThermals.set_mask (wrap_i32 (Z.shiftl 1 bit)) thermals in
      '(status, thermals) <- invoke_thermals get_thermals handle thermals ;;
      if negb (status =? 0) then
        ret (Some (wrap_i32 (NvApiThermals.mask thermals - 1)))
      else probe_loop get_thermals handle thermals rest
  end.

Definition calculate_thermals_mask (handle : Z) : M D Z :=
  get_thermals <- get_nvapi_function QUERY_NVAPI_THERMALS ;;
  if get_thermals =? NULL then ret 1
  else
    let thermals := NvApiThermals.zeroed in
    let thermals :=
      NvApiThermals.set_version (wrap_u32 thermals_stamp) thermals in
    let thermals := NvApiThermals.set_mask 1 thermals in
    '(status, thermals) <- invoke_thermals get_thermals handle thermals ;;
    if negb (status =? 0) then
      eprintf ("Warning: Initial thermals query failed" +++ nl) ;;;
      ret 1
    else
      found <- probe_loop get_thermals handle thermals probe_bits ;;
      match found with
      | Some m => ret m
      | None => ret (wrap_i32 0xFFFFFFFF)
      end.

(** *** [get_thermals]

    [hotspot] and [vram] are the contents of the two out-parameters
    before the call; the result carries them after it. *)
Definition get_thermals (handle mask hotspot vram : Z) : M D (Z * Z * Z) :=
  get_thermals <- get_nvapi_function QUERY_NVAPI_THERMALS ;;
  if get_thermals =? NULL then ret (-1, hotspot, vram)
  else
    let thermals := NvApiThermals.zeroed in
    let thermals :=
      NvApiThermals.set_version (wrap_u32 thermals_stamp) thermals in
    let thermals := NvApiThermals.set_mask mask thermals in
    '(status, thermals) <- invoke_thermals get_thermals handle thermals ;;
    if negb (status =? 0) then
      eprintf ("Error: GetThermals failed with status 0x"
                 +++ fmt_08x status +++ nl) ;;;
      ret (-1, hotspot, vram)
    else
      let hotspot_raw := Z.quot (NvApiThermals.value_at thermals 9) 256 in
      let hotspot :=
        if (hotspot_raw >? 0) && (hotspot_raw <? 255) then hotspot_raw
        else -1 in
      let vram_raw := Z.quot (NvApiThermals.value_at thermals 15) 256 in
      let vram :=
        if (vram_raw >? 0) && (vram_raw <? 255) then vram_raw else -1 in
      ret (0, hotspot, vram).

(** *** [get_voltage] *)
Definition get_voltage (handle voltage_uv : Z) : M D (Z * Z) :=
  get_voltage <- get_nvapi_function QUERY_NVAPI_VOLTAGE ;;
  if get_voltage =? NULL then ret (-1, voltage_uv)
  else
    let voltage := NvApiVoltage.zeroed in
    let voltage :=
      NvApiVoltage.set_version (wrap_u32 voltage_stamp) voltage in
    '(status, voltage) <- invoke_voltage get_voltage handle voltage ;;
    if negb (status =? 0) then
      eprintf ("Error: GetVoltage failed with status 0x"
                 +++ fmt_08x status +++ nl) ;;;
      ret (-1, voltage_uv)
    else ret (0, NvApiVoltage.value_uv voltage).

(** *** [main] *)

(** The lines of the report. *)
Definition line_voltage (voltage_uv : Z) : string :=
  let voltage_v := f32_div (f32_of_Z (wrap_u32 voltage_uv)) (f32_of_Z 1000000) in
  "Core Voltage: " +++ fmt_3f voltage_v +++ " V (" +++ fmt_u voltage_uv
    +++ " µV)" +++ nl.
Definition line_voltage_na : string := "Core Voltage: Not available" +++ nl.
Definition line_hotspot (t : Z) : string :=
  "Hotspot Temperature: " +++ fmt_d t +++ " °C" +++ nl.
Definition line_hotspot_na : string :=
  "Hotspot Temperature: Not available" +++ nl.
Definition line_hotspot_err : string :=
  "Hotspot Temperature: Error reading" +++ nl.
Definition line_memory (t : Z) : string :=
  "Memory Temperature: " +++ fmt_d t +++ " °C" +++ nl.
Definition line_memory_na : string :=
  "Memory Temperature: Not available" +++ nl.
Definition line_memory_err : string :=
  "Memory Temperature: Error reading" +++ nl.
Definition line_mask (mask : Z) : string :=
  "Thermals mask: 0x" +++ fmt_08x mask +++ nl +++ nl.
Definition line_gpu (i : Z) : string := "GPU " +++ fmt_u i +++ ":" +++ nl.

(** [handles[i]].  The buffer has [NVAPI_MAX_PHYSICAL_GPUS] entries and the
    driver reports no more; a read past what the buffer holds is outside the
    C standard and yields the null handle here. *)
Definition handle_at (handles : list Z) (i : Z) : Z :=
  nth (Z.to_nat i) handles NULL.

(** The branch of the loop body that prints the voltage, on the status
    [r] of [get_voltage]. *)
Definition report_voltage (r voltage_uv : Z) : M D unit :=
  if r =? 0 then printf (line_voltage voltage_uv)
  else printf line_voltage_na.

(** The branch of the loop body that prints both temperatures, on the
    status [r] of [get_thermals]. *)
Definition report_thermals (r hotspot vram : Z) : M D unit :=
  if r =? 0 then
    (if hotspot >=? 0 then printf (line_hotspot hotspot)
     else printf line_hotspot_na) ;;;
    (if vram >=? 0 then printf (line_memory vram)
     else printf line_memory_na)
  else
    printf line_hotspot_err ;;;
    printf line_memory_err.

(** The body of the loop over the GPUs. *)
Definition main_gpu (handles : list Z) (i : Z) : M D unit :=
  printf (rule_dash +++ nl) ;;;
  printf (line_gpu i) ;;;
  printf (rule_dash +++ nl) ;;;
  let handle := handle_at handles i in
  mask <- calculate_thermals_mask handle ;;
  printf (line_mask mask) ;;;
  '(r, voltage_uv) <- get_voltage handle 0 ;;
  report_voltage r voltage_uv ;;;
  '(r, hotspot, vram) <- get_thermals handle mask 0 0 ;;
  report_thermals r hotspot vram ;;;
  printf nl.

(** [for (uint32_t i = 0; i < gpu_count; i++)], over the values of [i]. *)
Fixpoint main_loop (handles : list Z) (indices : list Z) : M D unit :=
  match indices with
  | [] => ret tt
  | i :: rest => main_gpu handles i ;;; main_loop handles rest
  end.

Definition gpu_indices (gpu_count : Z) : list Z :=
  map Z.of_nat (seq 0 (Z.to_nat gpu_count)).

(** The [handles] array of [main] before enumeration: not initialised in
    the source, taken as zeroes. *)
Definition handles_uninit : list Z :=
  repeat NULL (Z.to_nat NVAPI_MAX_PHYSICAL_GPUS).

(** The result is the exit code of the process. *)
Definition main : M D Z :=
  printf (rule_eq +++ nl) ;;;
  printf ("NVIDIA GPU Stats Reader" +++ nl) ;;;
  printf ("Using undocumented NVAPI calls from libnvidia-api.so.1" +++ nl) ;;;
  printf (rule_eq +++ nl +++ nl) ;;;
  loaded <- load_nvapi ;;
  if negb (loaded =? 0) then ret 1
  else
    inited <- init_nvapi ;;
    if negb (inited =? 0) then
      lib <- read nvapi_lib ;;
      do_dlclose lib ;;;
      ret 1
    else
      '(r, handles, gpu_count) <- enum_physical_gpus handles_uninit 0 ;;
      if negb (r =? 0) then
        unload_nvapi ;;;
        ret 1
      else
        printf ("Found " +++ fmt_u gpu_count +++ " NVIDIA GPU(s)" +++ nl +++ nl) ;;;
        main_loop handles (gpu_indices gpu_count) ;;;
        unload_nvapi ;;;
        printf ("Done." +++ nl) ;;;
        ret 0.

End Program.

(** ** A simulated driver

    A small driver to run the program against.  It checks the version stamp
    of every structure it is handed, as the real one does, writes only the
    output fields, and counts the calls it has served. *)

Definition NVAPI_ERROR : Z := -1.
Definition NVAPI_INVALID_ARGUMENT : Z := -5.
Definition NVAPI_INCOMPATIBLE_STRUCT_VERSION : Z := -9.

Record Sim : Type :=
  { sim_ids : list Z;                 (* interface ids it recognises *)
    sim_init : Z;                     (* status of NvAPI_Initialize *)
    sim_enum : Z;                     (* status of NvAPI_EnumPhysicalGPUs *)
    sim_gpus : list Z;                (* the handles it enumerates *)
    (* raw values 9 and 15 for a handle and a mask, [None] to refuse *)
    sim_thermals : Z -> Z -> option (Z * Z);
    (* microvolts for a handle, [None] to refuse *)
    sim_voltage : Z -> option Z }.

(** The function pointer the simulated driver hands out for an id. *)
Definition sim_addr (id : Z) : Z := 0x7f0000000000 + id.

Definition sim_values (raw9 raw15 : Z) : list Z :=
  repeat 0 9 ++ [raw9] ++ repeat 0 5 ++ [raw15] ++ repeat 0 24.

Definition sim_driver (c : Sim) : Driver nat :=
  {| query_interface := fun id n =>
       (if existsb (Z.eqb id) (sim_ids c) then sim_addr id else NULL, S n);
     call_void := fun fn n =>
       (if fn =? sim_addr QUERY_NVAPI_INITIALIZE then sim_init c
        else if fn =? sim_addr QUERY_NVAPI_UNLOAD then 0
        else NVAPI_ERROR, S n);
     call_enum := fun fn handles count n =>
       (if negb (fn =? sim_addr QUERY_NVAPI_ENUM_PHYSICAL_GPUS) then
          (NVAPI_ERROR, handles, count)
        else if negb (sim_enum c =? 0) then (sim_enum c, handles, count)
        else (0, sim_gpus c ++ skipn (List.length (sim_gpus c)) handles,
              Z.of_nat (List.length (sim_gpus c))), S n);
     call_thermals := fun fn handle t n =>
       (if negb (fn =? sim_addr QUERY_NVAPI_THERMALS) then (NVAPI_ERROR, t)
        else if negb (NvApiThermals.version t =? thermals_stamp) then
          (NVAPI_INCOMPATIBLE_STRUCT_VERSION, t)
        else match sim_thermals c handle (wrap_u32 (NvApiThermals.mask t)) with
             | None => (NVAPI_INVALID_ARGUMENT, t)
             | Some (raw9, raw15) =>
                 (0, {| NvApiThermals.version := NvApiThermals.version t;
                        NvApiThermals.mask := NvApiThermals.mask t;
                        NvApiThermals.values := sim_values raw9 raw15 |})
             end, S n);
     call_voltage := fun fn handle v n =>
       (if negb (fn =? sim_addr QUERY_NVAPI_VOLTAGE) then (NVAPI_ERROR, v)
        else if negb (NvApiVoltage.version v =? voltage_stamp) then
          (NVAPI_INCOMPATIBLE_STRUCT_VERSION, v)
        else match sim_voltage c handle with
             | None => (NVAPI_ERROR, v)
             | Some uv =>
                 (0, {| NvApiVoltage.version := NvApiVoltage.version v;
                        NvApiVoltage.flags := NvApiVoltage.flags v;
                        NvApiVoltage.padding_1 := NvApiVoltage.padding_1 v;
                        NvApiVoltage.value_uv := uv;
                        NvApiVoltage.padding_2 := NvApiVoltage.padding_2 v |})
             end, S n) |}.

(** A loader that finds the library and its entry symbol. *)
Definition sim_loader : Loader :=
  {| dlopen := fun _ => 0x55d0c0de;
     dlsym := fun _ _ => 0x7f00deadbeef;
     dlerror := "libnvidia-api.so.1: cannot open shared object file" |}.

Definition all_ids : list Z :=
  [QUERY_NVAPI_INITIALIZE; QUERY_NVAPI_UNLOAD; QUERY_NVAPI_ENUM_PHYSICAL_GPUS;
   QUERY_NVAPI_THERMALS; QUERY_NVAPI_VOLTAGE].

(** Two GPUs: the first answers every query, with 0.85 V, a hotspot at
    25 degrees and memory at 30; the second refuses every thermal query. *)
Definition sim_two_gpus : Sim :=
  {| sim_ids := all_ids;
     sim_init := 0;
     sim_enum := 0;
     sim_gpus := [0x1000; 0x2000];
     sim_thermals := fun h _ => if h =? 0x1000 then Some (6400, 7680) else None;
     sim_voltage := fun h => if h =? 0x1000 then Some 850000 else Some 900000 |}.

(** One GPU whose thermal query accepts the masks with a bit up to
    [top] only. *)
Definition sim_mask_limit (top : Z) : Sim :=
  {| sim_ids := all_ids;
     sim_init := 0;
     sim_enum := 0;
     sim_gpus := [0x1000];
     sim_thermals := fun _ m => if m <? 2 ^ (top + 1) then Some (6400, 0) else None;
     sim_voltage := fun _ => Some 850000 |}.

(** A driver of a generation that knows neither the thermal nor the
    voltage query. *)
Definition sim_no_telemetry : Sim :=
  {| sim_ids := [QUERY_NVAPI_INITIALIZE; QUERY_NVAPI_UNLOAD;
                 QUERY_NVAPI_ENUM_PHYSICAL_GPUS];
     sim_init := 0;
     sim_enum := 0;
     sim_gpus := [0x1000];
     sim_thermals := fun _ _ => None;
     sim_voltage := fun _ => None |}.

(** A driver that enumerates no device at all. *)
Definition sim_no_gpus : Sim :=
  {| sim_ids := all_ids;
     sim_init := 0;
     sim_enum := 0;
     sim_gpus := [];
     sim_thermals := fun _ _ => None;
     sim_voltage := fun _ => None |}.

(** A world in which the library has been loaded. *)
Definition loaded_world (n : nat) : World nat :=
  let lib := dlopen sim_loader NVAPI_LIBRARY in
  set_nvapi_QueryInterface (dlsym sim_loader lib "nvapi_QueryInterface")
    (set_nvapi_lib lib (initial_world n)).

(** ** Properties of runs *)

(** The thermal queries of a log, each as the mask passed (read as a 32-bit
    pattern) and the status returned. *)
Definition thermal_queries (log : list Event) : list (Z * Z) :=
  flat_map (fun e => match e with
                     | EvThermals _ _ arg status =>
                         [(wrap_u32 (NvApiThermals.mask arg), status)]
                     | _ => []
                     end) log.

(** The bit positions below [b], in increasing order. *)
Definition bits_below (b : Z) : list Z := map Z.of_nat (seq 0 (Z.to_nat b)).

(** A probe of bit [i] that the driver accepted. *)
Definition accepted_probe (i : Z) : Z * Z := (Z.shiftl 1 i, 0).

(** A structure handed to the driver carries the stamp of its own type. *)
Definition stamped (e : Event) : Prop :=
  match e with
  | EvThermals _ _ arg _ => NvApiThermals.version arg = thermals_stamp
  | EvVoltage _ _ arg _ => NvApiVoltage.version arg = voltage_stamp
  | _ => True
  end.

(** No constraint on a call. *)
Definition any_call (e : Event) : Prop := True.

(** A thermal call made through [fn], for [handle]. *)
Definition thermal_call_of (fn handle : Z) (e : Event) : Prop :=
  exists arg status, e = EvThermals fn handle arg status.

(** The structure [calculate_thermals_mask] and [get_thermals] hand to the
    driver first, and the one [get_voltage] hands over. *)
Definition thermals_request (mask : Z) : NvApiThermals.t :=
  NvApiThermals.set_mask mask
    (NvApiThermals.set_version (wrap_u32 thermals_stamp) NvApiThermals.zeroed).
Definition voltage_request : NvApiVoltage.t :=
  NvApiVoltage.set_version (wrap_u32 voltage_stamp) NvApiVoltage.zeroed.

(** What a decoded temperature may be for a raw slot: the quotient by 256
    when that lies strictly between 0 and 255, the marker -1 otherwise. *)
Definition reading_of (raw reading : Z) : Prop :=
  let celsius := Z.quot raw 256 in
  (0 < celsius < 255 -> reading = celsius) /\
  (~ 0 < celsius < 255 -> reading = -1).

(** The number a decimal string denotes. *)
Definition read_u (s : string) : option Z :=
  option_map (fun d => Z.of_N (N.of_uint d))
    (DecimalString.NilZero.uint_of_string s).

(** The line of the report for a temperature slot whose raw value is [raw],
    after a successful read. *)
Definition decoded_line (numeric : Z -> string) (na : string) (raw : Z)
  : string :=
  let celsius := Z.quot raw 256 in
  if (0 <? celsius) && (celsius <? 255) then numeric celsius else na.

(** The report, piece by piece. *)
Definition report_header : list string :=
  [rule_eq +++ nl;
   "NVIDIA GPU Stats Reader" +++ nl;
   "Using undocumented NVAPI calls from libnvidia-api.so.1" +++ nl;
   rule_eq +++ nl +++ nl;
   "NVAPI initialized successfully." +++ nl +++ nl].

Definition line_found (gpu_count : Z) : string :=
  "Found " +++ fmt_u gpu_count +++ " NVIDIA GPU(s)" +++ nl +++ nl.

Definition gpu_heading (i mask : Z) : list string :=
  [rule_dash +++ nl; line_gpu i; rule_dash +++ nl; line_mask mask].

(** The report of a session with two devices: full readings for the
    first, and for the second the default mask, some voltage line and
    "Error reading" for both temperatures. *)
Definition two_gpu_report (uv0 celsius9 celsius15 : Z) (voltage_line_1 : string)
  : list string :=
  report_header
    ++ [line_found 2]
    ++ gpu_heading 0 (-1)
    ++ [line_voltage uv0; line_hotspot celsius9; line_memory celsius15; nl]
    ++ gpu_heading 1 1
    ++ [voltage_line_1; line_hotspot_err; line_memory_err; nl]
    ++ ["Done." +++ nl].

Section Properties.

Context {D : Type}.
Variable drv : Driver D.

(** The driver treats the first two fields of the thermal structure as
    input: it leaves the stamp and the mask as it found them. *)
Definition preserves_header : Prop :=
  forall fn handle t d,
    let t' := snd (fst (call_thermals drv fn handle t d)) in
    NvApiThermals.version t' = NvApiThermals.version t /\
    NvApiThermals.mask t' = NvApiThermals.mask t.

(** [w'] comes after [w]: same globals, and the log grew by calls that
    all satisfy [P]. *)
Definition grows (P : Event -> Prop) (w w' : World D) : Prop :=
  nvapi_lib w' = nvapi_lib w /\
  nvapi_QueryInterface w' = nvapi_QueryInterface w /\
  exists news, calls w' = calls w ++ news /\ Forall P news.

(** Once the query interface is bound, [c] returns, and the world grows. *)
Definition completes (P : Event -> Prop) {A} (c : M D A) : Prop :=
  forall w, nvapi_QueryInterface w <> NULL ->
            exists a w', c w = Returns a w' /\ grows P w w'.

(** The world [get_nvapi_function id] leaves behind. *)
Definition resolved (id : Z) (w : World D) : World D :=
  let '(fn, d) := query_interface drv id (driver_state w) in
  let w1 := record_call (EvQuery id fn) (set_driver_state d w) in
  if fn =? NULL then
    put_stderr ("Error: Could not get function for ID 0x" +++ fmt_08x id +++ nl) w1
  else w1.

(** The function pointer the resolver returns for [id] in world [w]. *)
Definition resolves_to (id : Z) (w : World D) : Z :=
  fst (query_interface drv id (driver_state w)).

(** The driver's answer, status and structure, to the thermal query that
    [get_thermals] (or the baseline of [calculate_thermals_mask]) makes
    when started in [w]. *)
Definition thermals_answer (handle mask : Z) (w : World D)
  : Z * NvApiThermals.t :=
  fst (call_thermals drv (resolves_to QUERY_NVAPI_THERMALS w) handle
         (thermals_request mask)
         (driver_state (resolved QUERY_NVAPI_THERMALS w))).

(** The driver's answer to the voltage query of [get_voltage] started
    in [w]. *)
Definition voltage_answer (handle : Z) (w : World D) : Z * NvApiVoltage.t :=
  fst (call_voltage drv (resolves_to QUERY_NVAPI_VOLTAGE w) handle
         voltage_request
         (driver_state (resolved QUERY_NVAPI_VOLTAGE w))).

(** The world after the banner [main] prints first. *)
Definition banner_printed (w : World D) : World D :=
  put_stdout (rule_eq +++ nl +++ nl)
    (put_stdout ("Using undocumented NVAPI calls from libnvidia-api.so.1" +++ nl)
       (put_stdout ("NVIDIA GPU Stats Reader" +++ nl)
          (put_stdout (rule_eq +++ nl) w))).

(** The run gets past load, initialisation and enumeration: the library
    opens and has the entry symbol, the initialize entry resolves and
    reports status 0, and so does the enumeration entry after it.  [d] is
    the state of the driver when the process starts. *)
Definition startup_succeeds (ld : Loader) (d : D) : Prop :=
  let lib := dlopen ld NVAPI_LIBRARY in
  let qi := dlsym ld lib "nvapi_QueryInterface" in
  let '(init_fn, d1) := query_interface drv QUERY_NVAPI_INITIALIZE d in
  let '(init_status, d2) := call_void drv init_fn d1 in
  let '(enum_fn, d3) := query_interface drv QUERY_NVAPI_ENUM_PHYSICAL_GPUS d2 in
  let '(enum_result, d4) := call_enum drv enum_fn handles_uninit 0 d3 in
  lib <> NULL /\ qi <> NULL /\
  init_fn <> NULL /\ init_status = 0 /\
  enum_fn <> NULL /\ fst (fst enum_result) = 0.

(** Cleanup at exit: either no library was ever opened, or the last call
    that left the program closed it. *)
Definition released_at_exit (ld : Loader) (w' : World D) : Prop :=
  let lib := dlopen ld NVAPI_LIBRARY in
  (lib = NULL /\ calls w' = [EvDlopen NULL]) \/
  (lib <> NULL /\ exists before, calls w' = before ++ [EvDlclose lib]).

(** *** A session with one healthy device and one whose thermal query fails *)

(** The driver resolves [id] whenever it is asked. *)
Definition always_resolves (id : Z) : Prop :=
  forall d, fst (query_interface drv id d) <> NULL.

(** [fn] is a pointer the driver hands out for the thermal query. *)
Definition thermal_entry (fn : Z) : Prop :=
  exists d, fn = fst (query_interface drv QUERY_NVAPI_THERMALS d).

(** Every stamped thermal query for [handle] succeeds, with these raw
    values in slots 9 and 15. *)
Definition accepts_thermals (handle raw9 raw15 : Z) : Prop :=
  forall fn t d,
    thermal_entry fn ->
    NvApiThermals.version t = thermals_stamp ->
    let answer := fst (call_thermals drv fn handle t d) in
    fst answer = 0 /\
    NvApiThermals.value_at (snd answer) 9 = raw9 /\
    NvApiThermals.value_at (snd answer) 15 = raw15.

(** Every stamped thermal query for [handle] fails. *)
Definition refuses_thermals (handle : Z) : Prop :=
  forall fn t d,
    thermal_entry fn ->
    NvApiThermals.version t = thermals_stamp ->
    fst (fst (call_thermals drv fn handle t d)) <> 0.

(** The voltage query for [handle] succeeds with [uv] microvolts. *)
Definition accepts_voltage (handle uv : Z) : Prop :=
  forall fn d,
    (exists d0, fn = fst (query_interface drv QUERY_NVAPI_VOLTAGE d0)) ->
    let answer := fst (call_voltage drv fn handle voltage_request d) in
    fst answer = 0 /\ NvApiVoltage.value_uv (snd answer) = uv.

(** Initialisation resolves and succeeds. *)
Definition initializes : Prop :=
  forall d,
    let '(fn, d1) := query_interface drv QUERY_NVAPI_INITIALIZE d in
    fn <> NULL /\ fst (call_void drv fn d1) = 0.

(** Enumeration resolves and succeeds, with these handles and this count. *)
Definition enumerates (handles : list Z) (count : Z) : Prop :=
  forall d,
    let '(fn, d1) := query_interface drv QUERY_NVAPI_ENUM_PHYSICAL_GPUS d in
    fn <> NULL /\
    fst (call_enum drv fn handles_uninit 0 d1) = (0, handles, count).

End Properties.

(** ** Properties of the remaining code *)

(** A query for sensor data. *)
Definition telemetry (e : Event) : Prop :=
  match e with
  | EvThermals _ _ _ _ | EvVoltage _ _ _ _ => True
  | _ => False
  end.

(** What a reader working on [handle] may call: the resolver, and the
    thermal or voltage query for that handle. *)
Definition reader_call (handle : Z) (e : Event) : Prop :=
  match e with
  | EvQuery _ _ => True
  | EvThermals _ h _ _ | EvVoltage _ h _ _ => h = handle
  | _ => False
  end.

(** The voltage line of a device: a value, or "Not available". *)
Definition voltage_line (s : string) : Prop :=
  s = line_voltage_na \/ exists uv, s = line_voltage uv.

(** A temperature line: a number of degrees strictly between 0 and 255,
    or the text [na]. *)
Definition temperature_line (numeric : Z -> string) (na s : string) : Prop :=
  s = na \/ exists celsius, 0 < celsius < 255 /\ s = numeric celsius.

(** The two temperature lines of a device: "Error reading" twice, or one
    line each for hotspot and memory. *)
Definition temperature_lines (l : list string) : Prop :=
  l = [line_hotspot_err; line_memory_err] \/
  exists h m,
    l = [h; m] /\
    temperature_line line_hotspot line_hotspot_na h /\
    temperature_line line_memory line_memory_na m.

(** The eight lines [main] prints for device [i]. *)
Definition device_block (i : Z) (block : list string) : Prop :=
  exists mask v t,
    block = gpu_heading i mask ++ [v] ++ t ++ [nl] /\
    voltage_line v /\ temperature_lines t.

(** The 32-bit patterns with all bits below some position set. *)
Definition prefix_mask (m : Z) : Prop :=
  exists k, 0 <= k <= 32 /\ wrap_u32 m = 2 ^ k - 1.

Section MoreProperties.

Context {D : Type}.
Variable drv : Driver D.

(** Whenever [c] returns, the worlds before and after are related by [R]. *)
Definition returning (R : World D -> World D -> Prop) {A} (c : M D A) : Prop :=
  forall w a w', c w = Returns a w' -> R w w'.

(** What a reader working on [handle] leaves behind: stdout and both
    globals untouched, and only calls a reader may make. *)
Definition reader_frame (handle : Z) (w w' : World D) : Prop :=
  stdout w' = stdout w /\
  nvapi_lib w' = nvapi_lib w /\
  nvapi_QueryInterface w' = nvapi_QueryInterface w /\
  exists news, calls w' = calls w ++ news /\ Forall (reader_call handle) news.

(** The thermal query for [handle] accepts a stamped structure exactly
    when its mask, as a 32-bit pattern, is below [2 ^ (top + 1)]: the bits
    up to [top] are the valid ones. *)
Definition mask_limit (handle top : Z) : Prop :=
  forall fn t d,
    thermal_entry drv fn ->
    NvApiThermals.version t = thermals_stamp ->
    (fst (fst (call_thermals drv fn handle t d)) = 0 <->
     wrap_u32 (NvApiThermals.mask t) < 2 ^ (top + 1)).

(** The stderr line of the resolver for an id it could not resolve. *)
Definition unresolved_message (id : Z) : string :=
  "Error: Could not get function for ID 0x" +++ fmt_08x id +++ nl.

End MoreProperties.

(** ** Properties of the stamp, the exit code and the unresolved queries *)

(** A driver that takes the version field for an output: it accepts every
    call and writes 7 where the stamp was. *)
Definition overwriting_driver : Driver nat :=
  {| query_interface := fun id n => (sim_addr id, S n);
     call_void := fun _ n => (0, S n);
     call_enum := fun _ handles count n => ((0, handles, count), S n);
     call_thermals := fun _ _ t n => ((0, NvApiThermals.set_version 7 t), S n);
     call_voltage := fun _ _ v n => ((0, v), S n) |}.

(** One GPU, on a driver that answers the thermal query and does not know
    the voltage query. *)
Definition sim_no_voltage : Sim :=
  {| sim_ids := [QUERY_NVAPI_INITIALIZE; QUERY_NVAPI_UNLOAD;
                 QUERY_NVAPI_ENUM_PHYSICAL_GPUS; QUERY_NVAPI_THERMALS];
     sim_init := 0;
     sim_enum := 0;
     sim_gpus := [0x1000];
     sim_thermals := fun _ _ => Some (6400, 7680);
     sim_voltage := fun _ => None |}.

(** One GPU, on a driver that answers the voltage query and does not know
    the thermal query. *)
Definition sim_no_thermals : Sim :=
  {| sim_ids := [QUERY_NVAPI_INITIALIZE; QUERY_NVAPI_UNLOAD;
                 QUERY_NVAPI_ENUM_PHYSICAL_GPUS; QUERY_NVAPI_VOLTAGE];
     sim_init := 0;
     sim_enum := 0;
     sim_gpus := [0x1000];
     sim_thermals := fun _ _ => None;
     sim_voltage := fun _ => Some 850000 |}.

(** The line [report_voltage] prints, and the two [report_thermals]
    prints, for the results of the readers. *)
Definition voltage_text (r voltage_uv : Z) : string :=
  if r =? 0 then line_voltage voltage_uv else line_voltage_na.
Definition thermal_text (r hotspot vram : Z) : list string :=
  if r =? 0 then
    [if hotspot >=? 0 then line_hotspot hotspot else line_hotspot_na;
     if vram >=? 0 then line_memory vram else line_memory_na]
  else [line_hotspot_err; line_memory_err].

(** The block of a device whose voltage could not be read: the heading,
    "Not available" for the voltage, and its two temperature lines. *)
Definition block_without_voltage (i : Z) (block : list string) : Prop :=
  exists mask t,
    block = gpu_heading i mask ++ [line_voltage_na] ++ t ++ [nl] /\
    temperature_lines t.

(** The block of a device whose thermal query does not resolve: the
    default mask, its voltage line, and "Error reading" twice. *)
Definition block_without_thermals (i : Z) (block : list string) : Prop :=
  exists v,
    block = gpu_heading i 1 ++ [v; line_hotspot_err; line_memory_err; nl] /\
    voltage_line v.

(** The block of a device on a driver that knows neither query. *)
Definition block_without_telemetry (i : Z) : list string :=
  gpu_heading i 1 ++ [line_voltage_na; line_hotspot_err; line_memory_err; nl].

Section RunProperties.

Context {D : Type}.
Variable drv : Driver D.

(** The driver leaves the version field of the thermal structure as it
    found it. *)
Definition preserves_version : Prop :=
  forall fn handle t d,
    NvApiThermals.version (snd (fst (call_thermals drv fn handle t d)))
      = NvApiThermals.version t.

(** The driver does not know [id]: it never resolves it. *)
Definition never_resolves (id : Z) : Prop :=
  forall d, fst (query_interface drv id d) = NULL.

(** The run gets past load and initialisation, from the state [d] of the
    driver at the start of the process. *)
Definition init_succeeds (ld : Loader) (d : D) : Prop :=
  let lib := dlopen ld NVAPI_LIBRARY in
  let qi := dlsym ld lib "nvapi_QueryInterface" in
  let '(init_fn, d1) := query_interface drv QUERY_NVAPI_INITIALIZE d in
  lib <> NULL /\ qi <> NULL /\
  init_fn <> NULL /\ fst (call_void drv init_fn d1) = 0.

(** The count the driver writes when [main] enumerates the devices, in a
    run that started with the driver in state [d]. *)
Definition enumerated_count (d : D) : Z :=
  let '(init_fn, d1) := query_interface drv QUERY_NVAPI_INITIALIZE d in
  let '(_, d2) := call_void drv init_fn d1 in
  let '(enum_fn, d3) := query_interface drv QUERY_NVAPI_ENUM_PHYSICAL_GPUS d2 in
  snd (fst (call_enum drv enum_fn handles_uninit 0 d3)).

End RunProperties.

(** ** Arithmetic of the 32-bit views *)

Lemma In_probe_bits (b : Z) : 0 <= b < 32 -> In b probe_bits.
Proof.
  intros H. unfold probe_bits.
  replace b with (Z.of_nat (Z.to_nat b)) by lia.
  apply in_map, in_seq. lia.
Qed.

(** For each bit the loop visits: the mask stored is the pattern [1 << bit],
    and one less than it, as [int32_t], is the integer [(1 << bit) - 1]. *)
Lemma probe_mask_arith (b : Z) :
  0 <= b < 32 ->
  wrap_u32 (wrap_i32 (Z.shiftl 1 b)) = Z.shiftl 1 b /\
  wrap_i32 (wrap_i32 (Z.shiftl 1 b) - 1) = Z.shiftl 1 b - 1.
Proof.
  intros H.
  assert (G : forallb (fun b =>
                 (wrap_u32 (wrap_i32 (Z.shiftl 1 b)) =? Z.shiftl 1 b)
                 && (wrap_i32 (wrap_i32 (Z.shiftl 1 b) - 1) =? Z.shiftl 1 b - 1))
                probe_bits = true) by (vm_compute; reflexivity).
  rewrite forallb_forall in G.
  specialize (G b (In_probe_bits b H)).
  apply andb_true_iff in G. destruct G as [G1 G2].
  split; apply Z.eqb_eq; assumption.
Qed.

Lemma thermals_stamp_value : wrap_u32 thermals_stamp = thermals_stamp.
Proof. reflexivity. Qed.

Lemma voltage_stamp_value : wrap_u32 voltage_stamp = voltage_stamp.
Proof. reflexivity. Qed.

Lemma thermal_queries_app (l1 l2 : list Event) :
  thermal_queries (l1 ++ l2) = thermal_queries l1 ++ thermal_queries l2.
Proof. unfold thermal_queries. apply flat_map_app. Qed.

(** ** Running the pieces *)

Section Runs.

Context {D : Type}.
Variable drv : Driver D.

Lemma get_nvapi_function_run (id : Z) (w : World D) :
  nvapi_QueryInterface w <> NULL ->
  get_nvapi_function drv id w =
    Returns (fst (query_interface drv id (driver_state w))) (resolved drv id w).
Proof.
  intros H. apply Z.eqb_neq in H.
  unfold get_nvapi_function, invoke_QueryInterface, resolved, bind, read, through.
  rewrite H.
  destruct (query_interface drv id (driver_state w)) as [fn d].
  simpl. destruct (fn =? NULL); reflexivity.
Qed.

(** *** Growth of the world *)

Lemma grows_refl (P : Event -> Prop) (w : World D) : grows P w w.
Proof.
  repeat split. exists []. split; [now rewrite app_nil_r | constructor].
Qed.

Lemma grows_trans (P : Event -> Prop) (w1 w2 w3 : World D) :
  grows P w1 w2 -> grows P w2 w3 -> grows P w1 w3.
Proof.
  intros (L1 & Q1 & n1 & C1 & F1) (L2 & Q2 & n2 & C2 & F2).
  split; [congruence | split; [congruence |]].
  exists (n1 ++ n2). split.
  - rewrite C2, C1, app_assoc. reflexivity.
  - apply Forall_app. split; assumption.
Qed.

Lemma grows_record (P : Event -> Prop) (e : Event) (w : World D) :
  P e -> grows P w (record_call e w).
Proof.
  intros H. repeat split. exists [e]. split; [reflexivity | now constructor].
Qed.

Lemma grows_quiet (P : Event -> Prop) (f : World D -> World D) (w : World D) :
  nvapi_lib (f w) = nvapi_lib w ->
  nvapi_QueryInterface (f w) = nvapi_QueryInterface w ->
  calls (f w) = calls w ->
  grows P w (f w).
Proof.
  intros H1 H2 H3. split; [assumption | split; [assumption |]].
  exists []. split; [now rewrite app_nil_r | constructor].
Qed.

Lemma completes_ret (P : Event -> Prop) {A} (a : A) : completes (D:=D) P (ret a).
Proof. intros w _. exists a, w. split; [reflexivity | apply grows_refl]. Qed.

Lemma completes_bind (P : Event -> Prop) {A B} (c : M D A) (k : A -> M D B) :
  completes P c -> (forall a, completes (D:=D) P (k a)) -> completes (D:=D) P (bind c k).
Proof.
  intros Hc Hk w Hw.
  destruct (Hc w Hw) as (a & w1 & E1 & G1).
  assert (Hw1 : nvapi_QueryInterface w1 <> NULL).
  { destruct G1 as (_ & Q & _). now rewrite Q. }
  destruct (Hk a w1 Hw1) as (b & w2 & E2 & G2).
  exists b, w2. split.
  - unfold bind. rewrite E1. exact E2.
  - eapply grows_trans; eassumption.
Qed.

Lemma completes_printf (P : Event -> Prop) (s : string) : completes (D:=D) P (printf s).
Proof.
  intros w _. exists tt, (put_stdout s w). split; [reflexivity |].
  apply grows_quiet; reflexivity.
Qed.

Lemma completes_eprintf (P : Event -> Prop) (s : string) : completes (D:=D) P (eprintf s).
Proof.
  intros w _. exists tt, (put_stderr s w). split; [reflexivity |].
  apply grows_quiet; reflexivity.
Qed.

Lemma completes_read (P : Event -> Prop) {A} (f : World D -> A) :
  completes (D:=D) P (read f).
Proof. intros w _. exists (f w), w. split; [reflexivity | apply grows_refl]. Qed.

Section Invariant.

(** [P] holds of every call that carries its stamp, and of the thermal
    calls whose structure satisfies [J]; [J] holds of the structures
    the program builds and survives the driver. *)
Variable P : Event -> Prop.
Variable J : NvApiThermals.t -> Prop.
Hypothesis P_stamped : forall e, stamped e -> P e.
Hypothesis J_request : forall m, J (thermals_request m).
Hypothesis J_mask : forall m t, J t -> J (NvApiThermals.set_mask m t).
Hypothesis J_driver : forall fn h t d,
    J t -> J (snd (fst (call_thermals drv fn h t d))).
Hypothesis J_P : forall fn h t st, J t -> P (EvThermals fn h t st).

Lemma completes_dlclose (h : Z) : completes (D:=D) P (do_dlclose h).
Proof.
  intros w _. exists tt, (record_call (EvDlclose h) w).
  split; [reflexivity |]. apply grows_record, P_stamped. exact I.
Qed.

Lemma completes_QueryInterface (id : Z) :
  completes (D:=D) P (invoke_QueryInterface drv id).
Proof.
  intros w Hw. apply Z.eqb_neq in Hw.
  unfold invoke_QueryInterface, bind, read, through. rewrite Hw.
  destruct (query_interface drv id (driver_state w)) as [fn d].
  eexists _, _. split; [reflexivity |].
  eapply grows_trans; [| apply grows_record, P_stamped; exact I].
  apply (grows_quiet P (set_driver_state d)); reflexivity.
Qed.

Lemma completes_get_nvapi_function (id : Z) :
  completes (D:=D) P (get_nvapi_function drv id).
Proof.
  unfold get_nvapi_function.
  apply completes_bind; [apply completes_QueryInterface | intros fn].
  apply completes_bind; [| intros _; apply completes_ret].
  destruct (fn =? NULL); [apply completes_eprintf | apply completes_ret].
Qed.

Lemma completes_void (fn : Z) :
  fn <> NULL -> completes (D:=D) P (invoke_void drv fn).
Proof.
  intros Hfn w _. apply Z.eqb_neq in Hfn.
  unfold invoke_void, through. rewrite Hfn.
  destruct (call_void drv fn (driver_state w)) as [st d].
  eexists _, _. split; [reflexivity |].
  eapply grows_trans; [| apply grows_record, P_stamped; exact I].
  apply (grows_quiet P (set_driver_state d)); reflexivity.
Qed.

Lemma completes_enum (fn : Z) (handles : list Z) (count : Z) :
  fn <> NULL -> completes (D:=D) P (invoke_enum drv fn handles count).
Proof.
  intros Hfn w _. apply Z.eqb_neq in Hfn.
  unfold invoke_enum, through. rewrite Hfn.
  destruct (call_enum drv fn handles count (driver_state w)) as [r d].
  eexists _, _. split; [reflexivity |].
  eapply grows_trans; [| apply grows_record, P_stamped; exact I].
  apply (grows_quiet P (set_driver_state d)); reflexivity.
Qed.

Lemma completes_voltage (fn handle : Z) :
  fn <> NULL -> completes (D:=D) P (invoke_voltage drv fn handle voltage_request).
Proof.
  intros Hfn w _. apply Z.eqb_neq in Hfn.
  unfold invoke_voltage, through. rewrite Hfn.
  destruct (call_voltage drv fn handle voltage_request (driver_state w))
    as [r d].
  eexists _, _. split; [reflexivity |].
  eapply grows_trans; [| apply grows_record, P_stamped; reflexivity].
  apply (grows_quiet P (set_driver_state d)); reflexivity.
Qed.

(** A thermal call on a structure satisfying [J] returns one that
    satisfies [J]. *)
Lemma thermals_step (fn handle : Z) (t : NvApiThermals.t) (w : World D) :
  fn <> NULL -> J t ->
  exists st t' w',
    invoke_thermals drv fn handle t w = Returns (st, t') w' /\
    J t' /\ grows P w w'.
Proof.
  intros Hfn Ht. apply Z.eqb_neq in Hfn.
  unfold invoke_thermals, through. rewrite Hfn.
  pose proof (J_driver fn handle t (driver_state w) Ht) as Ht'.
  destruct (call_thermals drv fn handle t (driver_state w)) as [[st t'] d].
  exists st, t', (record_call (EvThermals fn handle t st) (set_driver_state d w)).
  split; [reflexivity | split; [exact Ht' |]].
  eapply grows_trans; [| apply grows_record, J_P; exact Ht].
  apply (grows_quiet P (set_driver_state d)); reflexivity.
Qed.

Lemma completes_probe_loop (fn handle : Z) (bits : list Z) :
  fn <> NULL ->
  forall t, J t -> completes (D:=D) P (probe_loop drv fn handle t bits).
Proof.
  intros Hfn. induction bits as [| bit rest IH]; intros t Ht.
  - apply completes_ret.
  - intros w Hw. simpl. unfold bind.
    destruct (thermals_step fn handle
                (NvApiThermals.set_mask (wrap_i32 (Z.shiftl 1 bit)) t) w Hfn
                (J_mask _ _ Ht)) as (st & t' & w1 & E & Ht' & G1).
    rewrite E.
    assert (Hw1 : nvapi_QueryInterface w1 <> NULL).
    { destruct G1 as (_ & Q & _). now rewrite Q. }
    destruct (negb (st =? 0)).
    + eexists _, _. split; [reflexivity | exact G1].
    + destruct (IH t' Ht' w1 Hw1) as (r & w2 & E2 & G2).
      exists r, w2. split; [exact E2 | eapply grows_trans; eassumption].
Qed.

Lemma completes_calculate_thermals_mask (handle : Z) :
  completes (D:=D) P (calculate_thermals_mask drv handle).
Proof.
  unfold calculate_thermals_mask.
  apply completes_bind; [apply completes_get_nvapi_function | intros fn].
  destruct (fn =? NULL) eqn:Hfn; [apply completes_ret |].
  apply Z.eqb_neq in Hfn.
  intros w Hw. unfold bind.
  destruct (thermals_step fn handle (thermals_request 1) w Hfn (J_request 1))
    as (st & t' & w1 & E & Ht' & G1).
  change (NvApiThermals.set_mask 1 _) with (thermals_request 1).
  rewrite E.
  assert (Hw1 : nvapi_QueryInterface w1 <> NULL).
  { destruct G1 as (_ & Q & _). now rewrite Q. }
  destruct (negb (st =? 0)).
  - eexists _, _. split; [reflexivity |].
    eapply grows_trans; [exact G1 |].
    apply (grows_quiet P (put_stderr _)); reflexivity.
  - destruct (completes_probe_loop fn handle probe_bits Hfn t' Ht' w1 Hw1)
      as (r & w2 & E2 & G2).
    rewrite E2. destruct r; eexists _, _;
      (split; [reflexivity | eapply grows_trans; eassumption]).
Qed.

Lemma completes_get_thermals (handle mask hotspot vram : Z) :
  completes (D:=D) P (get_thermals drv handle mask hotspot vram).
Proof.
  unfold get_thermals.
  apply completes_bind; [apply completes_get_nvapi_function | intros fn].
  destruct (fn =? NULL) eqn:Hfn; [apply completes_ret |].
  apply Z.eqb_neq in Hfn.
  intros w Hw. unfold bind.
  destruct (thermals_step fn handle (thermals_request mask) w Hfn
              (J_request mask)) as (st & t' & w1 & E & Ht' & G1).
  change (NvApiThermals.set_mask mask _) with (thermals_request mask).
  rewrite E.
  destruct (negb (st =? 0)).
  - eexists _, _. split; [reflexivity |].
    eapply grows_trans; [exact G1 |].
    apply (grows_quiet P (put_stderr _)); reflexivity.
  - eexists _, _. split; [reflexivity | exact G1].
Qed.

Lemma completes_get_voltage (handle voltage_uv : Z) :
  completes (D:=D) P (get_voltage drv handle voltage_uv).
Proof.
  unfold get_voltage.
  apply completes_bind; [apply completes_get_nvapi_function | intros fn].
  destruct (fn =? NULL) eqn:Hfn; [apply completes_ret |].
  apply Z.eqb_neq in Hfn.
  apply completes_bind; [apply (completes_voltage fn handle Hfn) |].
  intros [st v]. destruct (negb (st =? 0)).
  - apply completes_bind; [apply completes_eprintf | intros _; apply completes_ret].
  - apply completes_ret.
Qed.

Lemma completes_report_voltage (r voltage_uv : Z) :
  completes (D:=D) P (report_voltage r voltage_uv).
Proof. unfold report_voltage. destruct (r =? 0); apply completes_printf. Qed.

Lemma completes_report_thermals (r hotspot vram : Z) :
  completes (D:=D) P (report_thermals r hotspot vram).
Proof.
  unfold report_thermals. destruct (r =? 0).
  - apply completes_bind; [| intros _].
    + destruct (hotspot >=? 0); apply completes_printf.
    + destruct (vram >=? 0); apply completes_printf.
  - apply completes_bind; [| intros _]; apply completes_printf.
Qed.

Lemma completes_main_gpu (handles : list Z) (i : Z) :
  completes (D:=D) P (main_gpu drv handles i).
Proof.
  unfold main_gpu.
  do 3 (apply completes_bind; [apply completes_printf | intros _]).
  apply completes_bind; [apply completes_calculate_thermals_mask | intros mask].
  apply completes_bind; [apply completes_printf | intros _].
  apply completes_bind; [apply completes_get_voltage | intros [r uv]].
  apply completes_bind; [apply completes_report_voltage | intros _].
  apply completes_bind; [apply completes_get_thermals | intros [[r' hs] vr]].
  apply completes_bind; [apply completes_report_thermals | intros _].
  apply completes_printf.
Qed.

Lemma completes_main_loop (handles indices : list Z) :
  completes (D:=D) P (main_loop drv handles indices).
Proof.
  induction indices as [| i rest IH]; simpl.
  - apply completes_ret.
  - apply completes_bind; [apply completes_main_gpu | intros _; exact IH].
Qed.

Lemma completes_unload_nvapi : completes (D:=D) P (unload_nvapi drv).
Proof.
  unfold unload_nvapi.
  apply completes_bind; [apply completes_read | intros qi].
  apply completes_bind.
  - destruct (negb (qi =? NULL)); [| apply completes_ret].
    apply completes_bind; [apply completes_get_nvapi_function | intros fn].
    destruct (fn =? NULL) eqn:Hfn; simpl; [apply completes_ret |].
    apply Z.eqb_neq in Hfn.
    apply completes_bind; [apply completes_void; exact Hfn |].
    intros _. apply completes_ret.
  - intros _. apply completes_bind; [apply completes_read | intros lib].
    destruct (negb (lib =? NULL)); [apply completes_dlclose | apply completes_ret].
Qed.

Lemma completes_init_nvapi : completes (D:=D) P (init_nvapi drv).
Proof.
  unfold init_nvapi.
  apply completes_bind; [apply completes_get_nvapi_function | intros fn].
  destruct (fn =? NULL) eqn:Hfn; [apply completes_ret |].
  apply Z.eqb_neq in Hfn.
  apply completes_bind; [apply completes_void; exact Hfn | intros st].
  destruct (negb (st =? 0)).
  - apply completes_bind; [apply completes_eprintf | intros _; apply completes_ret].
  - apply completes_bind; [apply completes_printf | intros _; apply completes_ret].
Qed.

Lemma completes_enum_physical_gpus (handles : list Z) (count : Z) :
  completes (D:=D) P (enum_physical_gpus drv handles count).
Proof.
  unfold enum_physical_gpus.
  apply completes_bind; [apply completes_get_nvapi_function | intros fn].
  destruct (fn =? NULL) eqn:Hfn; [apply completes_ret |].
  apply Z.eqb_neq in Hfn.
  apply completes_bind; [apply completes_enum; exact Hfn |].
  intros [[st hs] n]. destruct (negb (st =? 0)).
  - apply completes_bind; [apply completes_eprintf | intros _; apply completes_ret].
  - apply completes_ret.
Qed.

End Invariant.

(** *** Nothing faults once the library is loaded *)

Lemma returns_main_loop (handles indices : list Z) :
  completes (D:=D) any_call (main_loop drv handles indices).
Proof.
  apply completes_main_loop with (J := fun _ => True); unfold any_call; auto.
Qed.

Lemma returns_unload_nvapi : completes (D:=D) any_call (unload_nvapi drv).
Proof.
  apply completes_unload_nvapi; unfold any_call; auto.
Qed.

(** *** The thermal call, step by step *)

Lemma invoke_thermals_run (fn handle : Z) (t : NvApiThermals.t) (w : World D) :
  fn <> NULL ->
  invoke_thermals drv fn handle t w =
    Returns (fst (call_thermals drv fn handle t (driver_state w)))
      (record_call
         (EvThermals fn handle t
            (fst (fst (call_thermals drv fn handle t (driver_state w)))))
         (set_driver_state
            (snd (call_thermals drv fn handle t (driver_state w))) w)).
Proof.
  intros Hfn. apply Z.eqb_neq in Hfn.
  unfold invoke_thermals, through. rewrite Hfn.
  destruct (call_thermals drv fn handle t (driver_state w)) as [r d].
  reflexivity.
Qed.

Lemma invoke_voltage_run (fn handle : Z) (v : NvApiVoltage.t) (w : World D) :
  fn <> NULL ->
  invoke_voltage drv fn handle v w =
    Returns (fst (call_voltage drv fn handle v (driver_state w)))
      (record_call
         (EvVoltage fn handle v
            (fst (fst (call_voltage drv fn handle v (driver_state w)))))
         (set_driver_state
            (snd (call_voltage drv fn handle v (driver_state w))) w)).
Proof.
  intros Hfn. apply Z.eqb_neq in Hfn.
  unfold invoke_voltage, through. rewrite Hfn.
  destruct (call_voltage drv fn handle v (driver_state w)) as [r d].
  reflexivity.
Qed.

(** The probing loop from bit [k] on, against a driver that leaves the
    header alone: either every probe is accepted, or the probes stop at
    the first refusal, at some bit [j], with [(1 << j) - 1]. *)
Lemma probe_loop_run (fn handle : Z) :
  preserves_header drv -> fn <> NULL ->
  forall (n k : nat) (t : NvApiThermals.t) (w : World D),
    (k + n = 32)%nat ->
    exists r w' news,
      probe_loop drv fn handle t (map Z.of_nat (seq k n)) w = Returns r w' /\
      calls w' = calls w ++ news /\
      stdout w' = stdout w /\ stderr w' = stderr w /\
      Forall (thermal_call_of fn handle) news /\
      ((r = None /\
        thermal_queries news = map accepted_probe (map Z.of_nat (seq k n)))
       \/
       (exists (j : nat) (st : Z),
           (k <= j < k + n)%nat /\ st <> 0 /\
           thermal_queries news =
             map accepted_probe (map Z.of_nat (seq k (j - k)))
               ++ [(Z.shiftl 1 (Z.of_nat j), st)] /\
           r = Some (Z.shiftl 1 (Z.of_nat j) - 1))).
Proof.
  intros Hdrv Hfn. induction n as [| n IH]; intros k t w Hk.
  - exists None, w, []. simpl. rewrite app_nil_r.
    repeat split; auto.
  - simpl. unfold bind. rewrite invoke_thermals_run by exact Hfn.
    set (req := NvApiThermals.set_mask (wrap_i32 (Z.shiftl 1 (Z.of_nat k))) t).
    pose proof (Hdrv fn handle req (driver_state w)) as [_ Hmask].
    destruct (call_thermals drv fn handle req (driver_state w))
      as [[st t'] d] eqn:Ecall.
    simpl in Hmask. simpl.
    destruct (probe_mask_arith (Z.of_nat k)) as [Hu Hi]; [lia |].
    assert (Hq : thermal_queries [EvThermals fn handle req st]
                 = [(Z.shiftl 1 (Z.of_nat k), st)]).
    { unfold thermal_queries, req. simpl. rewrite Hu. reflexivity. }
    destruct (st =? 0) eqn:Est; simpl.
    + apply Z.eqb_eq in Est. subst st.
      destruct (IH (S k) t'
                  (record_call (EvThermals fn handle req 0)
                     (set_driver_state d w)))
        as (r & w' & news & E & C & O & Er & F & Shape); [lia |].
      exists r, w', (EvThermals fn handle req 0 :: news).
      split; [exact E |].
      split; [rewrite C; simpl; rewrite <- app_assoc; reflexivity |].
      split; [exact O | split; [exact Er |]].
      split; [constructor; [eexists _, _; reflexivity | exact F] |].
      change (EvThermals fn handle req 0 :: news)
        with ([EvThermals fn handle req 0] ++ news).
      rewrite thermal_queries_app, Hq.
      destruct Shape as [[Hr Hs] | (j & st & Hj & Hst & Hs & Hr)].
      * left. split; [exact Hr |]. rewrite Hs. reflexivity.
      * right. exists j, st.
        split; [lia | split; [exact Hst | split; [| exact Hr]]].
        rewrite Hs. replace (j - k)%nat with (S (j - S k)) by lia.
        reflexivity.
    + apply Z.eqb_neq in Est.
      eexists _, _, [EvThermals fn handle req st].
      split; [reflexivity |].
      split; [reflexivity |].
      split; [reflexivity | split; [reflexivity |]].
      split; [constructor; [eexists _, _; reflexivity | constructor] |].
      right. exists k, st.
      split; [lia | split; [exact Est | split]].
      * rewrite Hq, Nat.sub_diag. reflexivity.
      * rewrite Hmask. unfold req. simpl. rewrite Hi. reflexivity.
Qed.

End Runs.


(** ** The sensor mask prober *)

Section MaskProber.

Context {D : Type}.
Variable drv : Driver D.

(** The whole of [calculate_thermals_mask] when the thermal interface
    resolves: the calls it makes, in order, and the mask it returns. *)
Lemma calculate_thermals_mask_run (handle : Z) (w : World D) (fn : Z) :
  preserves_header drv ->
  nvapi_QueryInterface w <> NULL ->
  fst (query_interface drv QUERY_NVAPI_THERMALS (driver_state w)) = fn ->
  fn <> NULL ->
  exists m w' news st0 probes,
    calculate_thermals_mask drv handle w = Returns m w' /\
    calls w' = calls w ++ EvQuery QUERY_NVAPI_THERMALS fn :: news /\
    Forall (thermal_call_of fn handle) news /\
    thermal_queries news = (1, st0) :: probes /\
    (st0 <> 0 -> probes = [] /\ m = 1) /\
    (st0 = 0 ->
     (exists b st,
         0 <= b < 32 /\ st <> 0 /\
         probes = map accepted_probe (bits_below b) ++ [(Z.shiftl 1 b, st)] /\
         m = Z.shiftl 1 b - 1)
     \/ (probes = map accepted_probe probe_bits /\ wrap_u32 m = 0xFFFFFFFF)).
Proof.
  intros Hdrv Hqi Hfn Hnn.
  unfold calculate_thermals_mask, bind.
  rewrite get_nvapi_function_run by exact Hqi.
  unfold resolved. rewrite Hfn.
  destruct (query_interface drv QUERY_NVAPI_THERMALS (driver_state w))
    as [fn' d] eqn:Eq.
  simpl in Hfn. subst fn'.
  assert (Hnb : (fn =? NULL) = false) by (apply Z.eqb_neq; exact Hnn).
  rewrite Hnb.
  change (NvApiThermals.set_mask 1 _) with (thermals_request 1).
  rewrite invoke_thermals_run by exact Hnn.
  set (w0 := record_call (EvQuery QUERY_NVAPI_THERMALS fn) (set_driver_state d w)).
  destruct (call_thermals drv fn handle (thermals_request 1) (driver_state w0))
    as [[st0 t'] d'] eqn:Ecall.
  cbn [fst snd].
  set (base := EvThermals fn handle (thermals_request 1) st0).
  assert (Hbase : thermal_call_of fn handle base) by (eexists _, _; reflexivity).
  destruct (st0 =? 0) eqn:Est; cbn [negb].
  - apply Z.eqb_eq in Est.
    destruct (probe_loop_run drv fn handle Hdrv Hnn 32 0 t'
                (record_call base (set_driver_state d' w0)) eq_refl)
      as (r & w' & news & E & C & _ & _ & F & Shape).
    change (map Z.of_nat (seq 0 32)) with probe_bits in E, Shape.
    rewrite E.
    exists (match r with Some m => m | None => wrap_i32 0xFFFFFFFF end),
      w', (base :: news), st0, (thermal_queries news).
    split; [destruct r; reflexivity |].
    split; [rewrite C; unfold w0; simpl; rewrite <- !app_assoc; reflexivity |].
    split; [constructor; assumption |].
    split; [reflexivity |].
    split; [intros Hst; contradiction |].
    intros _.
    destruct Shape as [[Hr Hs] | (j & st & Hj & Hst & Hs & Hr)].
    + right. subst r. split; [exact Hs | reflexivity].
    + left. subst r. exists (Z.of_nat j), st.
      split; [lia | split; [exact Hst | split; [| reflexivity]]].
      rewrite Hs. unfold bits_below.
      rewrite Nat2Z.id, Nat.sub_0_r. reflexivity.
  - apply Z.eqb_neq in Est.
    eexists 1, _, [base], st0, [].
    split; [reflexivity |].
    split; [unfold w0; simpl; rewrite <- !app_assoc; reflexivity |].
    split; [constructor; [assumption | constructor] |].
    split; [reflexivity |].
    split; [intros _; split; reflexivity |].
    intros Hst; contradiction.
Qed.


End MaskProber.


(** ** The telemetry readers *)

Lemma read_u_fmt_u (v : Z) : read_u (fmt_u v) = Some (wrap_u32 v).
Proof.
  unfold read_u, fmt_u.
  assert (Hr : 0 <= wrap_u32 v) by (apply Z.mod_pos_bound; reflexivity).
  rewrite <- (Z2N.id (wrap_u32 v)) at 2 by exact Hr.
  generalize (Z.to_N (wrap_u32 v)). intros n.
  pose proof (DecimalN.Unsigned.of_to n) as Hn.
  destruct (N.to_uint n) eqn:En;
    try (rewrite DecimalString.NilZero.usu by discriminate;
         cbn [option_map]; rewrite Hn; reflexivity).
  rewrite DecimalString.NilZero.usu_nil. cbn [option_map]. rewrite <- Hn.
  reflexivity.
Qed.

Lemma reading_of_decode (raw : Z) :
  reading_of raw
    (if (Z.quot raw 256 >? 0) && (Z.quot raw 256 <? 255) then Z.quot raw 256
     else -1).
Proof.
  unfold reading_of. cbv zeta.
  destruct (Z.gtb_spec (Z.quot raw 256) 0), (Z.ltb_spec (Z.quot raw 256) 255);
    simpl; split; intros; try reflexivity; lia.
Qed.

Section Readers.

Context {D : Type}.
Variable drv : Driver D.

Lemma get_thermals_run (handle mask hotspot vram : Z) (w : World D) :
  nvapi_QueryInterface w <> NULL ->
  resolves_to drv QUERY_NVAPI_THERMALS w <> NULL ->
  exists w',
    get_thermals drv handle mask hotspot vram w =
      Returns
        (let '(status, t') := thermals_answer drv handle mask w in
         if status =? 0 then
           let h := Z.quot (NvApiThermals.value_at t' 9) 256 in
           let v := Z.quot (NvApiThermals.value_at t' 15) 256 in
           (0, if (h >? 0) && (h <? 255) then h else -1,
            if (v >? 0) && (v <? 255) then v else -1)
         else (-1, hotspot, vram)) w' /\
    stdout w' = stdout w /\
    nvapi_QueryInterface w' = nvapi_QueryInterface w /\
    nvapi_lib w' = nvapi_lib w.
Proof.
  intros Hqi Hfn.
  unfold get_thermals, bind.
  rewrite get_nvapi_function_run by exact Hqi.
  fold (resolves_to drv QUERY_NVAPI_THERMALS w).
  apply Z.eqb_neq in Hfn. rewrite Hfn. apply Z.eqb_neq in Hfn.
  change (NvApiThermals.set_mask mask _) with (thermals_request mask).
  rewrite invoke_thermals_run by exact Hfn.
  fold (thermals_answer drv handle mask w).
  assert (G : forall x, stdout (resolved drv x w) = stdout w
                        /\ nvapi_QueryInterface (resolved drv x w)
                           = nvapi_QueryInterface w
                        /\ nvapi_lib (resolved drv x w) = nvapi_lib w).
  { intros x. unfold resolved.
    destruct (query_interface drv x (driver_state w)) as [f d].
    destruct (f =? NULL); repeat split. }
  destruct (thermals_answer drv handle mask w) as [st t'].
  cbn [fst snd]. destruct (st =? 0); cbn [negb];
    eexists; (split; [reflexivity | apply G]).
Qed.

Lemma get_voltage_run (handle voltage_uv : Z) (w : World D) :
  nvapi_QueryInterface w <> NULL ->
  resolves_to drv QUERY_NVAPI_VOLTAGE w <> NULL ->
  exists w',
    get_voltage drv handle voltage_uv w =
      Returns
        (let '(status, v') := voltage_answer drv handle w in
         if status =? 0 then (0, NvApiVoltage.value_uv v')
         else (-1, voltage_uv)) w' /\
    stdout w' = stdout w /\
    nvapi_QueryInterface w' = nvapi_QueryInterface w /\
    nvapi_lib w' = nvapi_lib w.
Proof.
  intros Hqi Hfn.
  unfold get_voltage, bind.
  rewrite get_nvapi_function_run by exact Hqi.
  fold (resolves_to drv QUERY_NVAPI_VOLTAGE w).
  apply Z.eqb_neq in Hfn. rewrite Hfn. apply Z.eqb_neq in Hfn.
  change (NvApiVoltage.set_version _ _) with voltage_request.
  rewrite invoke_voltage_run by exact Hfn.
  fold (voltage_answer drv handle w).
  assert (G : forall x, stdout (resolved drv x w) = stdout w
                        /\ nvapi_QueryInterface (resolved drv x w)
                           = nvapi_QueryInterface w
                        /\ nvapi_lib (resolved drv x w) = nvapi_lib w).
  { intros x. unfold resolved.
    destruct (query_interface drv x (driver_state w)) as [f d].
    destruct (f =? NULL); repeat split. }
  destruct (voltage_answer drv handle w) as [st v'].
  cbn [fst snd]. destruct (st =? 0); cbn [negb];
    eexists; (split; [reflexivity | apply G]).
Qed.

Lemma kept_sign (c : Z) :
  ((if (0 <? c) && (c <? 255) then c else -1) >=? 0) = (0 <? c) && (c <? 255).
Proof.
  destruct (Z.ltb_spec 0 c), (Z.ltb_spec c 255); simpl; try reflexivity;
    apply Z.geb_le; lia.
Qed.

Lemma report_thermals_decoded (raw9 raw15 : Z) (w0 : World D) :
  let h := Z.quot raw9 256 in
  let v := Z.quot raw15 256 in
  report_thermals 0
    (if (h >? 0) && (h <? 255) then h else -1)
    (if (v >? 0) && (v <? 255) then v else -1) w0 =
  Returns tt
    (put_stdout (decoded_line line_memory line_memory_na raw15)
       (put_stdout (decoded_line line_hotspot line_hotspot_na raw9) w0)).
Proof.
  intros h v. unfold report_thermals, decoded_line, bind, printf, modify.
  fold h v. cbn [Z.eqb].
  rewrite !Z.gtb_ltb, !kept_sign.
  destruct ((0 <? h) && (h <? 255)), ((0 <? v) && (v <? 255)); reflexivity.
Qed.

(** C2.  When the thermal query succeeds, [get_thermals] returns as hotspot
    the raw slot 9 divided by 256 and as memory temperature the raw slot 15
    divided by 256, each kept only when strictly between 0 and 255 and
    replaced by the marker -1 otherwise; the report then prints the number
    for a kept value and "Not available" for the marker.  Raw 6400 reads
    as 25; raw 0 and every raw value from 65280 on read as unavailable. *)
Theorem get_thermals_decodes (handle mask hotspot0 vram0 : Z) (w : World D)
    (t' : NvApiThermals.t) :
  nvapi_QueryInterface w <> NULL ->
  resolves_to drv QUERY_NVAPI_THERMALS w <> NULL ->
  thermals_answer drv handle mask w = (0, t') ->
  exists hotspot vram w',
    get_thermals drv handle mask hotspot0 vram0 w
      = Returns (0, hotspot, vram) w' /\
    reading_of (NvApiThermals.value_at t' 9) hotspot /\
    reading_of (NvApiThermals.value_at t' 15) vram /\
    (forall w0 : World D,
        report_thermals 0 hotspot vram w0 =
          Returns tt
            (put_stdout
               (decoded_line line_memory line_memory_na
                  (NvApiThermals.value_at t' 15))
               (put_stdout
                  (decoded_line line_hotspot line_hotspot_na
                     (NvApiThermals.value_at t' 9)) w0))) /\
    (forall raw reading,
        reading_of raw reading ->
        (raw = 6400 -> reading = 25) /\
        (raw = 0 \/ 65280 <= raw -> reading = -1)).
Proof.
  intros Hqi Hfn Hans.
  destruct (get_thermals_run handle mask hotspot0 vram0 w Hqi Hfn)
    as (w' & E & _).
  rewrite Hans in E. cbn [Z.eqb] in E. cbv zeta in E.
  eexists _, _, w'. split; [exact E |].
  split; [apply reading_of_decode |].
  split; [apply reading_of_decode |].
  split; [intros w0; apply report_thermals_decoded |].
  intros raw reading [Hin Hout]. split.
  - intros ->. apply Hin. vm_compute. split; reflexivity.
  - intros Hraw. apply Hout. intros [Hlo Hhi]. destruct Hraw as [-> | Hraw].
    + vm_compute in Hlo. discriminate.
    + pose proof (Z.quot_le_mono 65280 raw 256 eq_refl Hraw) as Hq.
      change (Z.quot 65280 256) with 255 in Hq. lia.
Qed.

(** C10.  Two successful thermal reads, with any two masks (on any devices,
    in any states of the driver), return the same hotspot and the same
    memory temperature whenever the driver wrote the same raw values in
    slots 9 and 15: the reading is decided by those two slots alone. *)
Theorem get_thermals_ignores_mask (handle1 handle2 mask1 mask2 : Z)
    (hotspot1 vram1 hotspot2 vram2 : Z)
    (w1 w2 : World D) (t1 t2 : NvApiThermals.t) :
  nvapi_QueryInterface w1 <> NULL ->
  nvapi_QueryInterface w2 <> NULL ->
  resolves_to drv QUERY_NVAPI_THERMALS w1 <> NULL ->
  resolves_to drv QUERY_NVAPI_THERMALS w2 <> NULL ->
  thermals_answer drv handle1 mask1 w1 = (0, t1) ->
  thermals_answer drv handle2 mask2 w2 = (0, t2) ->
  NvApiThermals.value_at t1 9 = NvApiThermals.value_at t2 9 ->
  NvApiThermals.value_at t1 15 = NvApiThermals.value_at t2 15 ->
  exists hotspot vram w1' w2',
    get_thermals drv handle1 mask1 hotspot1 vram1 w1
      = Returns (0, hotspot, vram) w1' /\
    get_thermals drv handle2 mask2 hotspot2 vram2 w2
      = Returns (0, hotspot, vram) w2' /\
    reading_of (NvApiThermals.value_at t1 9) hotspot /\
    reading_of (NvApiThermals.value_at t1 15) vram.
Proof.
  intros Hq1 Hq2 Hf1 Hf2 Ha1 Ha2 E9 E15.
  destruct (get_thermals_run handle1 mask1 hotspot1 vram1 w1 Hq1 Hf1)
    as (w1' & R1 & _).
  destruct (get_thermals_run handle2 mask2 hotspot2 vram2 w2 Hq2 Hf2)
    as (w2' & R2 & _).
  rewrite Ha1 in R1. rewrite Ha2 in R2.
  cbn [Z.eqb] in R1, R2. cbv zeta in R1, R2.
  rewrite <- E9, <- E15 in R2.
  eexists _, _, w1', w2'.
  split; [exact R1 | split; [exact R2 |]].
  split; apply reading_of_decode.
Qed.

(** C5.  When the voltage query succeeds, [get_voltage] returns the
    [value_uv] field exactly as the driver left it, whatever its value; the
    report prints it in volts and, in decimal, in microvolts, and the
    decimal read back is the field.  For 850000 the line is
    "Core Voltage: 0.850 V (850000 µV)". *)
Theorem get_voltage_verbatim (handle voltage_uv0 : Z) (w : World D)
    (v' : NvApiVoltage.t) :
  nvapi_QueryInterface w <> NULL ->
  resolves_to drv QUERY_NVAPI_VOLTAGE w <> NULL ->
  voltage_answer drv handle w = (0, v') ->
  exists w',
    get_voltage drv handle voltage_uv0 w
      = Returns (0, NvApiVoltage.value_uv v') w' /\
    (forall w0 : World D,
        report_voltage 0 (NvApiVoltage.value_uv v') w0 =
          Returns tt (put_stdout (line_voltage (NvApiVoltage.value_uv v')) w0)) /\
    line_voltage (NvApiVoltage.value_uv v') =
      "Core Voltage: "
        +++ fmt_3f (f32_div (f32_of_Z (wrap_u32 (NvApiVoltage.value_uv v')))
                      (f32_of_Z 1000000))
        +++ " V (" +++ fmt_u (NvApiVoltage.value_uv v') +++ " µV)" +++ nl /\
    read_u (fmt_u (NvApiVoltage.value_uv v'))
      = Some (wrap_u32 (NvApiVoltage.value_uv v')) /\
    line_voltage 850000 = "Core Voltage: 0.850 V (850000 µV)" +++ nl.
Proof.
  intros Hqi Hfn Hans.
  destruct (get_voltage_run handle voltage_uv0 w Hqi Hfn) as (w' & E & _).
  rewrite Hans in E. cbn [Z.eqb] in E.
  exists w'. split; [exact E |].
  split; [intros w0; reflexivity |].
  split; [reflexivity |].
  split; [apply read_u_fmt_u | vm_compute; reflexivity].
Qed.

End Readers.


(** ** Unresolved interfaces *)

Section Resolver.

Context {D : Type}.
Variable drv : Driver D.

Lemma calculate_thermals_mask_unresolved (handle : Z) (w : World D) :
  nvapi_QueryInterface w <> NULL ->
  resolves_to drv QUERY_NVAPI_THERMALS w = NULL ->
  calculate_thermals_mask drv handle w
    = Returns 1 (resolved drv QUERY_NVAPI_THERMALS w).
Proof.
  intros Hqi Hfn. unfold calculate_thermals_mask, bind.
  rewrite get_nvapi_function_run by exact Hqi.
  fold (resolves_to drv QUERY_NVAPI_THERMALS w). rewrite Hfn. reflexivity.
Qed.

Lemma resolved_unresolved (id : Z) (w : World D) :
  resolves_to drv id w = NULL ->
  stdout (resolved drv id w) = stdout w /\
  exists fn, calls (resolved drv id w) = calls w ++ [EvQuery id fn].
Proof.
  unfold resolves_to, resolved. intros H.
  destruct (query_interface drv id (driver_state w)) as [fn d].
  destruct (fn =? NULL); split; try reflexivity; exists fn; reflexivity.
Qed.

(** [unload_nvapi] in full: the result, what it leaves alone, and the
    calls it makes, by the state of the two globals.  As everywhere, a
    pointer that is not null is taken to be live. *)
Lemma unload_nvapi_run (w : World D) :
  exists w',
    unload_nvapi drv w = Returns tt w' /\
    nvapi_QueryInterface w' = nvapi_QueryInterface w /\
    nvapi_lib w' = nvapi_lib w /\
    stdout w' = stdout w /\
    calls w' =
      calls w
        ++ (if nvapi_QueryInterface w =? NULL then []
            else
              let fn := resolves_to drv QUERY_NVAPI_UNLOAD w in
              EvQuery QUERY_NVAPI_UNLOAD fn
                :: (if fn =? NULL then []
                    else [EvVoid fn
                            (fst (call_void drv fn
                                    (driver_state
                                       (resolved drv QUERY_NVAPI_UNLOAD w))))]))
        ++ (if nvapi_lib w =? NULL then [] else [EvDlclose (nvapi_lib w)]).
Proof.
  unfold unload_nvapi, bind, read.
  destruct (nvapi_QueryInterface w =? NULL) eqn:Hqi; cbn [negb].
  - unfold ret, do_dlclose, modify.
    destruct (nvapi_lib w =? NULL) eqn:Hlib; cbn [negb];
      eexists; repeat split; simpl; rewrite ?app_nil_r; reflexivity.
  - apply Z.eqb_neq in Hqi.
    rewrite get_nvapi_function_run by exact Hqi.
    fold (resolves_to drv QUERY_NVAPI_UNLOAD w).
    assert (G : stdout (resolved drv QUERY_NVAPI_UNLOAD w) = stdout w
                /\ nvapi_QueryInterface (resolved drv QUERY_NVAPI_UNLOAD w)
                   = nvapi_QueryInterface w
                /\ nvapi_lib (resolved drv QUERY_NVAPI_UNLOAD w) = nvapi_lib w
                /\ calls (resolved drv QUERY_NVAPI_UNLOAD w)
                   = calls w ++ [EvQuery QUERY_NVAPI_UNLOAD
                                   (resolves_to drv QUERY_NVAPI_UNLOAD w)]).
    { unfold resolved, resolves_to.
      destruct (query_interface drv QUERY_NVAPI_UNLOAD (driver_state w))
        as [f d].
      destruct (f =? NULL); repeat split. }
    destruct G as (Go & Gq & Gl & Gc).
    set (fn := resolves_to drv QUERY_NVAPI_UNLOAD w) in *.
    set (w1 := resolved drv QUERY_NVAPI_UNLOAD w) in *.
    destruct (fn =? NULL) eqn:Hfn; cbn [negb].
    + unfold ret, do_dlclose, modify. rewrite Gl.
      destruct (nvapi_lib w =? NULL); cbn [negb];
        eexists; (split; [reflexivity |]); simpl;
        rewrite ?Gc, ?app_nil_r, <- ?app_assoc; auto.
    + unfold invoke_void, through. rewrite Hfn.
      destruct (call_void drv fn (driver_state w1)) as [st d].
      unfold ret, do_dlclose, modify. simpl. rewrite Gl.
      destruct (nvapi_lib w =? NULL); cbn [negb];
        eexists; (split; [reflexivity |]); simpl;
        rewrite ?Gc, ?app_nil_r, <- ?app_assoc; auto.
Qed.

End Resolver.


(** ** What the caller of the mask prober can tell *)

Section DefaultMask.

Context {D1 D2 : Type}.
Variable drv1 : Driver D1.
Variable drv2 : Driver D2.

(** C9.  Started where the thermal interface does not resolve,
    [calculate_thermals_mask] returns 1 after the resolver's query and no
    thermal call; started where it resolves but the baseline query is
    refused, it returns 1 as well.  Both come back as plain results and
    neither prints anything on stdout: the caller receives the same value
    either way. *)
Theorem calculate_thermals_mask_default (handle1 handle2 : Z)
    (w1 : World D1) (w2 : World D2) (status : Z) (t' : NvApiThermals.t) :
  nvapi_QueryInterface w1 <> NULL ->
  resolves_to drv1 QUERY_NVAPI_THERMALS w1 = NULL ->
  nvapi_QueryInterface w2 <> NULL ->
  resolves_to drv2 QUERY_NVAPI_THERMALS w2 <> NULL ->
  thermals_answer drv2 handle2 1 w2 = (status, t') ->
  status <> 0 ->
  exists w1' w2',
    calculate_thermals_mask drv1 handle1 w1 = Returns 1 w1' /\
    calculate_thermals_mask drv2 handle2 w2 = Returns 1 w2' /\
    calls w1' = calls w1 ++ [EvQuery QUERY_NVAPI_THERMALS NULL] /\
    stdout w1' = stdout w1 /\
    stdout w2' = stdout w2.
Proof.
  intros Hq1 Hu Hq2 Hr Hans Hst.
  exists (resolved drv1 QUERY_NVAPI_THERMALS w1).
  destruct (resolved_unresolved drv1 QUERY_NVAPI_THERMALS w1 Hu) as (So & fn & Sc).
  assert (Hfn : fn = NULL).
  { unfold resolves_to, resolved in *.
    destruct (query_interface drv1 QUERY_NVAPI_THERMALS (driver_state w1))
      as [f d]. simpl in Hu. subst f. simpl in Sc.
    apply app_inv_head in Sc. congruence. }
  subst fn.
  unfold calculate_thermals_mask at 2. unfold bind.
  rewrite get_nvapi_function_run by exact Hq2.
  fold (resolves_to drv2 QUERY_NVAPI_THERMALS w2).
  apply Z.eqb_neq in Hr. rewrite Hr. apply Z.eqb_neq in Hr.
  change (NvApiThermals.set_mask 1 _) with (thermals_request 1).
  rewrite invoke_thermals_run by exact Hr.
  fold (thermals_answer drv2 handle2 1 w2). rewrite Hans. cbn [fst snd].
  apply Z.eqb_neq in Hst. rewrite Hst. cbn [negb].
  eexists. split; [apply calculate_thermals_mask_unresolved; assumption |].
  split; [reflexivity |].
  split; [exact Sc | split; [exact So |]].
  unfold resolved.
  destruct (query_interface drv2 QUERY_NVAPI_THERMALS (driver_state w2)) as [f d].
  destruct (f =? NULL); reflexivity.
Qed.

End DefaultMask.

(** ** The whole run *)

Section MainRun.

Context {D : Type}.
Variable ld : Loader.
Variable drv : Driver D.

Lemma load_nvapi_run (w : World D) :
  let lib := dlopen ld NVAPI_LIBRARY in
  let qi := dlsym ld lib "nvapi_QueryInterface" in
  exists w',
    load_nvapi ld w
      = Returns (if (lib =? NULL) || (qi =? NULL) then -1 else 0) w' /\
    stdout w' = stdout w /\
    driver_state w' = driver_state w /\
    nvapi_lib w' = lib /\
    (lib <> NULL -> nvapi_QueryInterface w' = qi) /\
    calls w' =
      calls w
        ++ EvDlopen lib
        :: (if lib =? NULL then []
            else EvDlsym lib qi :: (if qi =? NULL then [EvDlclose lib] else [])).
Proof.
  intros lib qi.
  unfold load_nvapi, do_dlopen, do_dlsym, do_dlclose, bind, modify, eprintf, ret.
  fold lib. destruct (lib =? NULL) eqn:Hlib.
  - eexists. split; [reflexivity |]. simpl.
    repeat split. intros H. apply Z.eqb_eq in Hlib. contradiction.
  - fold qi. destruct (qi =? NULL) eqn:Hqi.
    + eexists. split; [reflexivity |]. simpl.
      repeat split. rewrite <- !app_assoc. reflexivity.
    + eexists. split; [reflexivity |]. simpl.
      repeat split. rewrite <- !app_assoc. reflexivity.
Qed.

Variable P : Event -> Prop.
Hypothesis P_stamped : forall e, stamped e -> P e.

Lemma init_nvapi_run (w : World D) :
  nvapi_QueryInterface w <> NULL ->
  let '(fn, d1) := query_interface drv QUERY_NVAPI_INITIALIZE (driver_state w) in
  let '(status, d2) := call_void drv fn d1 in
  exists w',
    init_nvapi drv w
      = Returns (if negb (fn =? NULL) && (status =? 0) then 0 else -1) w' /\
    grows P w w' /\
    driver_state w' = (if fn =? NULL then d1 else d2) /\
    stdout w' =
      (if negb (fn =? NULL) && (status =? 0)
       then stdout w ++ ["NVAPI initialized successfully." +++ nl +++ nl]
       else stdout w).
Proof.
  intros Hqi.
  destruct (completes_init_nvapi drv P P_stamped w Hqi) as (a & w' & E & G).
  pose proof E as E0.
  unfold init_nvapi, bind in E0.
  rewrite get_nvapi_function_run in E0 by exact Hqi.
  unfold resolved in E0.
  destruct (query_interface drv QUERY_NVAPI_INITIALIZE (driver_state w))
    as [fn d1].
  cbn [fst] in E0.
  destruct (call_void drv fn d1) as [status d2] eqn:Ecall.
  destruct (fn =? NULL) eqn:Hfn.
  - injection E0 as <- <-. eexists.
    split; [exact E | split; [exact G | split; reflexivity]].
  - unfold invoke_void, through in E0. rewrite Hfn in E0.
    cbn [driver_state record_call set_driver_state] in E0.
    rewrite Ecall in E0.
    destruct (status =? 0); cbn [negb andb] in *;
      injection E0 as <- <-; eexists;
      (split; [exact E | split; [exact G | split; reflexivity]]).
Qed.

Lemma enum_physical_gpus_run (w : World D) (handles : list Z) (count : Z) :
  nvapi_QueryInterface w <> NULL ->
  let '(fn, d1) :=
    query_interface drv QUERY_NVAPI_ENUM_PHYSICAL_GPUS (driver_state w) in
  let '(result, d2) := call_enum drv fn handles count d1 in
  exists w',
    enum_physical_gpus drv handles count w
      = Returns (if fn =? NULL then (-1, handles, count)
                 else (if fst (fst result) =? 0 then 0 else -1,
                       snd (fst result), snd result)) w' /\
    grows P w w' /\
    stdout w' = stdout w.
Proof.
  intros Hqi.
  destruct (completes_enum_physical_gpus drv P P_stamped handles count w Hqi)
    as (a & w' & E & G).
  pose proof E as E0.
  unfold enum_physical_gpus, bind in E0.
  rewrite get_nvapi_function_run in E0 by exact Hqi.
  unfold resolved in E0.
  destruct (query_interface drv QUERY_NVAPI_ENUM_PHYSICAL_GPUS (driver_state w))
    as [fn d1].
  cbn [fst] in E0.
  destruct (call_enum drv fn handles count d1) as [result d2] eqn:Ecall.
  destruct (fn =? NULL) eqn:Hfn.
  - injection E0 as <- <-. eexists.
    split; [exact E | split; [exact G | reflexivity]].
  - unfold invoke_enum, through in E0. rewrite Hfn in E0.
    cbn [driver_state record_call set_driver_state] in E0.
    rewrite Ecall in E0. destruct result as [[st hs] n].
    cbn [fst snd] in *.
    destruct (st =? 0); cbn [negb] in *;
      injection E0 as <- <-; eexists;
      (split; [exact E | split; [exact G | reflexivity]]).
Qed.

Hypothesis loop_completes :
  forall handles indices, completes (D:=D) P (main_loop drv handles indices).

Lemma grows_Forall (w w' : World D) :
  Forall P (calls w) -> grows P w w' -> Forall P (calls w').
Proof.
  intros F (_ & _ & news & C & Fn). rewrite C. apply Forall_app. now split.
Qed.

(** [unload_nvapi] with the library loaded: the last call closes it. *)
Lemma unload_nvapi_last (w : World D) :
  nvapi_lib w <> NULL ->
  exists w',
    unload_nvapi drv w = Returns tt w' /\
    grows P w w' /\
    exists before, calls w' = before ++ [EvDlclose (nvapi_lib w)].
Proof.
  intros Hlib.
  destruct (unload_nvapi_run drv w) as (w' & E & Q & L & _ & C).
  apply Z.eqb_neq in Hlib. rewrite Hlib in C.
  exists w'. split; [exact E |]. split.
  - split; [exact L | split; [exact Q |]].
    eexists. split; [exact C |].
    apply Forall_app. split.
    + destruct (nvapi_QueryInterface w =? NULL); [constructor |].
      cbv zeta. constructor; [apply P_stamped; exact I |].
      destruct (resolves_to drv QUERY_NVAPI_UNLOAD w =? NULL); [constructor |].
      constructor; [apply P_stamped; exact I | constructor].
    + constructor; [apply P_stamped; exact I | constructor].
  - eexists. rewrite C, app_assoc. reflexivity.
Qed.

Lemma main_run (d : D) :
  exists code w',
    main ld drv (initial_world d) = Returns code w' /\
    Forall P (calls w') /\
    (code = 0 \/ code = 1) /\
    (code = 0 <-> startup_succeeds drv ld d) /\
    released_at_exit ld w'.
Proof.
  set (w0 := banner_printed (initial_world d)).
  destruct (load_nvapi_run w0) as (w1 & E1 & O1 & S1 & L1 & Q1 & C1).
  unfold main. unfold bind at 1 2 3 4. unfold printf at 1 2 3 4. unfold modify.
  unfold bind at 1.
  change (put_stdout (rule_eq +++ nl +++ nl) _) with w0.
  rewrite E1. clear E1.
  unfold startup_succeeds, released_at_exit.
  change (calls w0) with (@nil Event) in C1.
  change (driver_state w0) with d in S1.
  set (lib := dlopen ld NVAPI_LIBRARY) in *.
  set (qi := dlsym ld lib "nvapi_QueryInterface") in *.
  assert (F1 : Forall P (calls w1)).
  { rewrite C1. repeat (constructor; [apply P_stamped; exact I |]).
    destruct (lib =? NULL); [constructor |].
    constructor; [apply P_stamped; exact I |].
    destruct (qi =? NULL); repeat constructor. apply P_stamped; exact I. }
  pose proof (init_nvapi_run w1) as HI. rewrite S1 in HI.
  destruct (query_interface drv QUERY_NVAPI_INITIALIZE d) as [ifn d1].
  destruct (call_void drv ifn d1) as [ist d2].
  destruct (lib =? NULL) eqn:Hlib.
  { (* the library does not open *)
    apply Z.eqb_eq in Hlib.
    exists 1, w1. split; [reflexivity |]. split; [exact F1 |].
    split; [right; reflexivity |]. split.
    - split; [discriminate |].
      destruct (query_interface drv _ d2), (call_enum drv _ _ _ _).
      intros (H & _). contradiction.
    - left. split; [exact Hlib |]. rewrite C1, Hlib. reflexivity. }
  apply Z.eqb_neq in Hlib. specialize (Q1 Hlib).
  destruct (qi =? NULL) eqn:Hqi.
  { (* the entry symbol is missing *)
    apply Z.eqb_eq in Hqi.
    exists 1, w1. split; [reflexivity |]. split; [exact F1 |].
    split; [right; reflexivity |]. split.
    - split; [discriminate |].
      destruct (query_interface drv _ d2), (call_enum drv _ _ _ _).
      intros (_ & H & _). contradiction.
    - right. split; [exact Hlib |].
      exists [EvDlopen lib; EvDlsym lib qi]. rewrite C1. reflexivity. }
  apply Z.eqb_neq in Hqi. rewrite <- Q1 in Hqi.
  cbn [orb negb Z.eqb].
  destruct (HI Hqi) as (w2 & E2 & G2 & S2 & _). clear HI.
  unfold bind at 1. rewrite E2. clear E2.
  pose proof (grows_Forall w1 w2 F1 G2) as F2.
  assert (L2 : nvapi_lib w2 = lib) by (destruct G2 as (L & _); congruence).
  assert (Q2 : nvapi_QueryInterface w2 <> NULL)
    by (destruct G2 as (_ & Q & _); congruence).
  assert (Fail2 :
            exists code w',
              (lib0 <- read nvapi_lib;; do_dlclose lib0;;; ret 1) w2
                = Returns code w' /\
              Forall P (calls w') /\ (code = 0 \/ code = 1) /\ code <> 0 /\
              exists before, calls w' = before ++ [EvDlclose lib]).
  { exists 1, (record_call (EvDlclose (nvapi_lib w2)) w2).
    split; [reflexivity |]. split.
    - simpl. apply Forall_app. split; [exact F2 |].
      constructor; [apply P_stamped; exact I | constructor].
    - split; [right; reflexivity |]. split; [discriminate |].
      exists (calls w2). simpl. rewrite L2. reflexivity. }
  destruct (ifn =? NULL) eqn:Hifn; cbn [negb andb] in *.
  { (* the initialize entry does not resolve *)
    destruct Fail2 as (code & w' & E & F & B & N & R).
    exists code, w'. split; [exact E |]. split; [exact F |].
    split; [exact B |]. split.
    - split; [intros; contradiction |].
      destruct (query_interface drv _ d2), (call_enum drv _ _ _ _).
      intros (_ & _ & H & _). apply Z.eqb_eq in Hifn. contradiction.
    - right. split; assumption. }
  destruct (ist =? 0) eqn:Hist; cbn [negb Z.eqb] in *.
  2:{ (* initialisation is refused *)
    destruct Fail2 as (code & w' & E & F & B & N & R).
    exists code, w'. split; [exact E |]. split; [exact F |].
    split; [exact B |]. split.
    - split; [intros; contradiction |].
      destruct (query_interface drv _ d2), (call_enum drv _ _ _ _).
      intros (_ & _ & _ & H & _). apply Z.eqb_neq in Hist. contradiction.
    - right. split; assumption. }
  clear Fail2.
  pose proof (enum_physical_gpus_run w2 handles_uninit 0 Q2) as HE.
  rewrite S2 in HE.
  destruct (query_interface drv QUERY_NVAPI_ENUM_PHYSICAL_GPUS d2) as [efn d3].
  destruct (call_enum drv efn handles_uninit 0 d3) as [eres d4].
  destruct HE as (w3 & E3 & G3 & _).
  unfold bind at 1. rewrite E3. clear E3.
  pose proof (grows_Forall w2 w3 F2 G3) as F3.
  assert (L3 : nvapi_lib w3 = lib) by (destruct G3 as (L & _); congruence).
  assert (Q3 : nvapi_QueryInterface w3 <> NULL)
    by (destruct G3 as (_ & Q & _); congruence).
  assert (Fail3 :
            exists code w',
              (unload_nvapi drv;;; ret 1) w3 = Returns code w' /\
              Forall P (calls w') /\ (code = 0 \/ code = 1) /\ code <> 0 /\
              exists before, calls w' = before ++ [EvDlclose lib]).
  { destruct (unload_nvapi_last w3) as (w4 & E4 & G4 & R4);
      [rewrite L3; exact Hlib |].
    exists 1, w4. split; [unfold bind; rewrite E4; reflexivity |].
    split; [exact (grows_Forall w3 w4 F3 G4) |].
    split; [right; reflexivity |]. split; [discriminate |].
    rewrite L3 in R4. exact R4. }
  apply Z.eqb_neq in Hifn. apply Z.eqb_eq in Hist.
  destruct (efn =? NULL) eqn:Hefn.
  { (* the enumeration entry does not resolve *)
    cbn [negb Z.eqb].
    destruct Fail3 as (code & w' & E & F & B & N & R).
    exists code, w'. split; [exact E |]. split; [exact F |].
    split; [exact B |]. split.
    - split; [intros; contradiction |].
      intros (_ & _ & _ & _ & H & _). apply Z.eqb_eq in Hefn. contradiction.
    - right. split; assumption. }
  destruct eres as [[est hs] n]. cbn [fst snd].
  destruct (est =? 0) eqn:Hest; cbn [negb Z.eqb].
  2:{ (* enumeration is refused *)
    destruct Fail3 as (code & w' & E & F & B & N & R).
    exists code, w'. split; [exact E |]. split; [exact F |].
    split; [exact B |]. split.
    - split; [intros; contradiction |].
      intros (_ & _ & _ & _ & _ & H). apply Z.eqb_neq in Hest. contradiction.
    - right. split; assumption. }
  clear Fail3.
  (* past enumeration: the devices, then cleanup *)
  unfold bind at 1. unfold printf at 1. unfold modify at 1.
  set (w3' := put_stdout _ w3).
  destruct (loop_completes hs (gpu_indices n) w3' Q3) as ([] & w4 & E4 & G4).
  unfold bind at 1. rewrite E4. clear E4.
  assert (L4 : nvapi_lib w4 = lib) by (destruct G4 as (L & _); exact (eq_trans L L3)).
  destruct (unload_nvapi_last w4) as (w5 & E5 & G5 & R5);
    [rewrite L4; exact Hlib |].
  unfold bind at 1. rewrite E5. clear E5.
  exists 0, (put_stdout ("Done." +++ nl) w5).
  split; [reflexivity |]. split.
  - apply (grows_Forall w4 w5); [| exact G5].
    apply (grows_Forall w3' w4); [exact F3 | exact G4].
  - split; [left; reflexivity |]. split.
    + split; [intros _ | reflexivity].
      apply Z.eqb_neq in Hefn. apply Z.eqb_eq in Hest.
      rewrite <- Q1. repeat split; assumption.
    + right. split; [exact Hlib |]. rewrite L4 in R5. exact R5.
Qed.

End MainRun.

Section Process.

Context {D : Type}.
Variable ld : Loader.
Variable drv : Driver D.

(** *** Two devices, the second without thermal readings *)

Lemma resolved_frame (id : Z) (w : World D) :
  stdout (resolved drv id w) = stdout w /\
  nvapi_QueryInterface (resolved drv id w) = nvapi_QueryInterface w /\
  nvapi_lib (resolved drv id w) = nvapi_lib w.
Proof.
  unfold resolved.
  destruct (query_interface drv id (driver_state w)) as [f d0].
  destruct (f =? NULL); repeat split.
Qed.

Lemma probe_loop_accepted (fn handle raw9 raw15 : Z) :
  preserves_header drv ->
  accepts_thermals drv handle raw9 raw15 ->
  thermal_entry drv fn -> fn <> NULL ->
  forall (bits : list Z) (t : NvApiThermals.t) (w : World D),
    NvApiThermals.version t = thermals_stamp ->
    exists w',
      probe_loop drv fn handle t bits w = Returns None w' /\
      stdout w' = stdout w /\
      nvapi_QueryInterface w' = nvapi_QueryInterface w /\
      nvapi_lib w' = nvapi_lib w.
Proof.
  intros Hdrv Hacc Hentry Hfn.
  induction bits as [| bit rest IH]; intros t w Ht.
  - exists w. repeat split.
  - simpl. unfold bind. rewrite invoke_thermals_run by exact Hfn.
    set (req := NvApiThermals.set_mask (wrap_i32 (Z.shiftl 1 bit)) t).
    destruct (Hacc fn req (driver_state w) Hentry Ht) as (Hst & _).
    destruct (Hdrv fn handle req (driver_state w)) as [Hver _].
    destruct (call_thermals drv fn handle req (driver_state w))
      as [[st t'] d'].
    cbn [fst snd] in *. subst st. cbn [Z.eqb negb].
    destruct (IH t' (record_call (EvThermals fn handle req 0)
                       (set_driver_state d' w)))
      as (w' & E & O & Q & L); [rewrite Hver; exact Ht |].
    exists w'. split; [exact E | repeat split; assumption].
Qed.

Lemma calculate_thermals_mask_accepted (handle raw9 raw15 : Z) (w : World D) :
  nvapi_QueryInterface w <> NULL ->
  preserves_header drv ->
  always_resolves drv QUERY_NVAPI_THERMALS ->
  accepts_thermals drv handle raw9 raw15 ->
  exists w',
    calculate_thermals_mask drv handle w = Returns (-1) w' /\
    stdout w' = stdout w /\
    nvapi_QueryInterface w' = nvapi_QueryInterface w /\
    nvapi_lib w' = nvapi_lib w.
Proof.
  intros Hqi Hdrv Hres Hacc.
  unfold calculate_thermals_mask, bind.
  rewrite get_nvapi_function_run by exact Hqi.
  set (fn := fst (query_interface drv QUERY_NVAPI_THERMALS (driver_state w))).
  assert (Hfn : fn <> NULL) by apply Hres.
  assert (Hentry : thermal_entry drv fn) by (eexists; reflexivity).
  apply Z.eqb_neq in Hfn. rewrite Hfn. apply Z.eqb_neq in Hfn.
  change (NvApiThermals.set_mask 1 _) with (thermals_request 1).
  rewrite invoke_thermals_run by exact Hfn.
  set (w0 := resolved drv QUERY_NVAPI_THERMALS w).
  destruct (Hacc fn (thermals_request 1) (driver_state w0) Hentry eq_refl)
    as (Hst & _).
  destruct (Hdrv fn handle (thermals_request 1) (driver_state w0)) as [Hver _].
  destruct (call_thermals drv fn handle (thermals_request 1) (driver_state w0))
    as [[st t'] d'].
  cbn [fst snd] in *. subst st. cbn [Z.eqb negb].
  destruct (probe_loop_accepted fn handle raw9 raw15 Hdrv Hacc Hentry Hfn
              probe_bits t'
              (record_call (EvThermals fn handle (thermals_request 1) 0)
                 (set_driver_state d' w0)))
    as (w' & E & O & Q & L); [exact Hver |].
  rewrite E. exists w'. split; [reflexivity |].
  destruct (resolved_frame QUERY_NVAPI_THERMALS w) as (O0 & Q0 & L0).
  fold w0 in O0, Q0, L0.
  split; [exact (eq_trans O O0) |].
  split; [exact (eq_trans Q Q0) | exact (eq_trans L L0)].
Qed.

Lemma calculate_thermals_mask_refused (handle : Z) (w : World D) :
  nvapi_QueryInterface w <> NULL ->
  always_resolves drv QUERY_NVAPI_THERMALS ->
  refuses_thermals drv handle ->
  exists w',
    calculate_thermals_mask drv handle w = Returns 1 w' /\
    stdout w' = stdout w /\
    nvapi_QueryInterface w' = nvapi_QueryInterface w /\
    nvapi_lib w' = nvapi_lib w.
Proof.
  intros Hqi Hres Href.
  unfold calculate_thermals_mask, bind.
  rewrite get_nvapi_function_run by exact Hqi.
  set (fn := fst (query_interface drv QUERY_NVAPI_THERMALS (driver_state w))).
  assert (Hfn : fn <> NULL) by apply Hres.
  assert (Hentry : thermal_entry drv fn) by (eexists; reflexivity).
  apply Z.eqb_neq in Hfn. rewrite Hfn. apply Z.eqb_neq in Hfn.
  change (NvApiThermals.set_mask 1 _) with (thermals_request 1).
  rewrite invoke_thermals_run by exact Hfn.
  set (w0 := resolved drv QUERY_NVAPI_THERMALS w).
  pose proof (Href fn (thermals_request 1) (driver_state w0) Hentry eq_refl)
    as Hst.
  destruct (call_thermals drv fn handle (thermals_request 1) (driver_state w0))
    as [[st t'] d'].
  cbn [fst snd] in *. apply Z.eqb_neq in Hst. rewrite Hst. cbn [negb].
  eexists. split; [reflexivity |].
  destruct (resolved_frame QUERY_NVAPI_THERMALS w) as (O0 & Q0 & L0).
  repeat split; assumption.
Qed.

Lemma decoded_line_in_range (numeric : Z -> string) (na : string) (raw : Z) :
  0 < Z.quot raw 256 < 255 ->
  decoded_line numeric na raw = numeric (Z.quot raw 256).
Proof.
  intros [Hlo Hhi]. unfold decoded_line. cbv zeta.
  apply Z.ltb_lt in Hlo, Hhi. rewrite Hlo, Hhi. reflexivity.
Qed.

Lemma main_gpu_healthy (handles : list Z) (i raw9 raw15 uv : Z) (w : World D) :
  nvapi_QueryInterface w <> NULL ->
  preserves_header drv ->
  always_resolves drv QUERY_NVAPI_THERMALS ->
  always_resolves drv QUERY_NVAPI_VOLTAGE ->
  accepts_thermals drv (handle_at handles i) raw9 raw15 ->
  accepts_voltage drv (handle_at handles i) uv ->
  0 < Z.quot raw9 256 < 255 ->
  0 < Z.quot raw15 256 < 255 ->
  exists w',
    main_gpu drv handles i w = Returns tt w' /\
    stdout w' =
      stdout w ++ gpu_heading i (-1)
        ++ [line_voltage uv; line_hotspot (Z.quot raw9 256);
            line_memory (Z.quot raw15 256); nl] /\
    nvapi_QueryInterface w' = nvapi_QueryInterface w /\
    nvapi_lib w' = nvapi_lib w.
Proof.
  intros Hqi Hdrv Hrt Hrv Hacc Hvolt H9 H15.
  unfold main_gpu. unfold bind at 1 2 3. unfold printf at 1 2 3. unfold modify.
  set (handle := handle_at handles i) in *.
  set (w1 := put_stdout (rule_dash +++ nl) _).
  destruct (calculate_thermals_mask_accepted handle raw9 raw15 w1 Hqi Hdrv Hrt Hacc)
    as (w2 & E2 & O2 & Q2 & L2).
  unfold bind at 1. rewrite E2.
  unfold bind at 1. unfold printf at 1. unfold modify.
  set (w3 := put_stdout (line_mask (-1)) w2).
  assert (Q3 : nvapi_QueryInterface w3 <> NULL)
    by (change (nvapi_QueryInterface w2 <> NULL); rewrite Q2; exact Hqi).
  destruct (get_voltage_run drv handle 0 w3 Q3 (Hrv _)) as (w4 & E4 & O4 & Q4 & L4).
  unfold voltage_answer in E4.
  destruct (Hvolt (resolves_to drv QUERY_NVAPI_VOLTAGE w3)
              (driver_state (resolved drv QUERY_NVAPI_VOLTAGE w3)))
    as (Vst & Vuv); [eexists; reflexivity |].
  destruct (fst (call_voltage drv _ handle voltage_request _)) as [vst v'].
  cbn [fst snd] in Vst, Vuv. subst vst uv. cbn [Z.eqb] in E4.
  unfold bind at 1. rewrite E4.
  unfold bind at 1. unfold report_voltage. cbn [Z.eqb]. unfold printf at 1.
  unfold modify.
  set (w5 := put_stdout (line_voltage _) w4).
  assert (Q5 : nvapi_QueryInterface w5 <> NULL)
    by (change (nvapi_QueryInterface w4 <> NULL); rewrite Q4; exact Q3).
  destruct (get_thermals_run drv handle (-1) 0 0 w5 Q5 (Hrt _))
    as (w6 & E6 & O6 & Q6 & L6).
  unfold thermals_answer in E6.
  destruct (Hacc (resolves_to drv QUERY_NVAPI_THERMALS w5)
              (thermals_request (-1))
              (driver_state (resolved drv QUERY_NVAPI_THERMALS w5)))
    as (Tst & T9 & T15); [eexists; reflexivity | reflexivity |].
  destruct (fst (call_thermals drv _ handle (thermals_request (-1)) _))
    as [tst t'].
  cbn [fst snd] in Tst, T9, T15. subst tst. cbn [Z.eqb] in E6. cbv zeta in E6.
  rewrite T9, T15 in E6.
  unfold bind at 1. rewrite E6.
  unfold bind at 1. rewrite report_thermals_decoded.
  rewrite !decoded_line_in_range by assumption.
  eexists. split; [reflexivity |].
  subst w5 w3 w1.
  cbn [stdout nvapi_QueryInterface nvapi_lib put_stdout] in *.
  split; [| split].
  - rewrite O6, O4, O2. unfold gpu_heading. rewrite <- !app_assoc. reflexivity.
  - rewrite Q6, Q4, Q2. reflexivity.
  - rewrite L6, L4, L2. reflexivity.
Qed.

Lemma main_gpu_thermal_failure (handles : list Z) (i : Z) (w : World D) :
  nvapi_QueryInterface w <> NULL ->
  always_resolves drv QUERY_NVAPI_THERMALS ->
  always_resolves drv QUERY_NVAPI_VOLTAGE ->
  refuses_thermals drv (handle_at handles i) ->
  exists w' voltage_line,
    main_gpu drv handles i w = Returns tt w' /\
    (voltage_line = line_voltage_na \/
     exists uv, voltage_line = line_voltage uv) /\
    stdout w' =
      stdout w ++ gpu_heading i 1
        ++ [voltage_line; line_hotspot_err; line_memory_err; nl] /\
    nvapi_QueryInterface w' = nvapi_QueryInterface w /\
    nvapi_lib w' = nvapi_lib w.
Proof.
  intros Hqi Hrt Hrv Href.
  unfold main_gpu. unfold bind at 1 2 3. unfold printf at 1 2 3. unfold modify.
  set (handle := handle_at handles i) in *.
  set (w1 := put_stdout (rule_dash +++ nl) _).
  destruct (calculate_thermals_mask_refused handle w1 Hqi Hrt Href)
    as (w2 & E2 & O2 & Q2 & L2).
  unfold bind at 1. rewrite E2.
  unfold bind at 1. unfold printf at 1. unfold modify.
  set (w3 := put_stdout (line_mask 1) w2).
  assert (Q3 : nvapi_QueryInterface w3 <> NULL)
    by (change (nvapi_QueryInterface w2 <> NULL); rewrite Q2; exact Hqi).
  destruct (get_voltage_run drv handle 0 w3 Q3 (Hrv _)) as (w4 & E4 & O4 & Q4 & L4).
  destruct (voltage_answer drv handle w3) as [vst v'].
  set (vline := if vst =? 0 then line_voltage (NvApiVoltage.value_uv v')
                else line_voltage_na).
  assert (Hvline : vline = line_voltage_na \/ exists uv, vline = line_voltage uv).
  { unfold vline. destruct (vst =? 0); [right; eexists; reflexivity | now left]. }
  set (w5 := put_stdout vline w4).
  assert (Q5 : nvapi_QueryInterface w5 <> NULL)
    by (change (nvapi_QueryInterface w4 <> NULL); rewrite Q4; exact Q3).
  destruct (get_thermals_run drv handle 1 0 0 w5 Q5 (Hrt _))
    as (w6 & E6 & O6 & Q6 & L6).
  unfold thermals_answer in E6.
  pose proof (Href (resolves_to drv QUERY_NVAPI_THERMALS w5)
                (thermals_request 1)
                (driver_state (resolved drv QUERY_NVAPI_THERMALS w5))) as Tst.
  destruct (fst (call_thermals drv _ handle (thermals_request 1) _))
    as [tst t'].
  cbn [fst] in Tst.
  assert (Tst' : (tst =? 0) = false)
    by (apply Z.eqb_neq, Tst; [eexists; reflexivity | reflexivity]).
  rewrite Tst' in E6. clear Tst Tst'.
  exists (put_stdout nl
            (put_stdout line_memory_err (put_stdout line_hotspot_err w6))),
    vline.
  split.
  - unfold bind at 1. rewrite E4.
    unfold vline in w5. subst w5.
    destruct (vst =? 0); unfold bind at 1; unfold report_voltage; cbn [Z.eqb];
      unfold printf at 1; unfold modify at 1;
      unfold bind at 1; rewrite E6; reflexivity.
  - split; [exact Hvline |].
    subst w5 w3 w1.
    cbn [stdout nvapi_QueryInterface nvapi_lib put_stdout] in *.
    split; [| split].
    + rewrite O6, O4, O2. unfold gpu_heading. rewrite <- !app_assoc.
      reflexivity.
    + rewrite Q6, Q4, Q2. reflexivity.
    + rewrite L6, L4, L2. reflexivity.
Qed.


End Process.

(** ** The simulated driver at work *)

Lemma sim_preserves_header (c : Sim) : preserves_header (sim_driver c).
Proof.
  intros fn handle t n. simpl.
  destruct (negb (fn =? sim_addr QUERY_NVAPI_THERMALS)); [split; reflexivity |].
  destruct (negb (NvApiThermals.version t =? thermals_stamp));
    [split; reflexivity |].
  destruct (sim_thermals c handle (wrap_u32 (NvApiThermals.mask t)))
    as [[raw9 raw15] |]; split; reflexivity.
Qed.

Lemma sim_two_gpus_resolves (id : Z) :
  In id all_ids -> always_resolves (sim_driver sim_two_gpus) id.
Proof.
  intros H n.
  repeat (destruct H as [<- | H]; [vm_compute; discriminate |]).
  destruct H.
Qed.

Lemma sim_two_gpus_initializes : initializes (sim_driver sim_two_gpus).
Proof. intros n. split; [vm_compute; discriminate | reflexivity]. Qed.

Lemma sim_two_gpus_enumerates :
  enumerates (sim_driver sim_two_gpus)
    ([0x1000; 0x2000] ++ skipn 2 handles_uninit) 2.
Proof. intros n. split; [vm_compute; discriminate | reflexivity]. Qed.

Lemma sim_thermal_entry (c : Sim) (fn : Z) :
  existsb (Z.eqb QUERY_NVAPI_THERMALS) (sim_ids c) = true ->
  thermal_entry (sim_driver c) fn -> fn = sim_addr QUERY_NVAPI_THERMALS.
Proof.
  intros H [n ->]. simpl. rewrite H. reflexivity.
Qed.

Lemma sim_two_gpus_accepts_thermals :
  accepts_thermals (sim_driver sim_two_gpus) 0x1000 6400 7680.
Proof.
  intros fn t n Hfn Hver.
  rewrite (sim_thermal_entry sim_two_gpus fn eq_refl Hfn).
  simpl. rewrite Hver. repeat split.
Qed.

Lemma sim_two_gpus_refuses_thermals :
  refuses_thermals (sim_driver sim_two_gpus) 0x2000.
Proof.
  intros fn t n Hfn Hver.
  rewrite (sim_thermal_entry sim_two_gpus fn eq_refl Hfn).
  simpl. rewrite Hver. discriminate.
Qed.

Lemma sim_two_gpus_accepts_voltage :
  accepts_voltage (sim_driver sim_two_gpus) 0x1000 850000.
Proof.
  intros fn n [n0 ->]. split; reflexivity.
Qed.

(** *** The claims on the simulated driver *)


(** A driver that refuses every probe above bit 5 yields 0x3F. *)
Example prober_stops_above_bit_5 :
  exists w',
    calculate_thermals_mask (sim_driver (sim_mask_limit 5)) 0x1000
      (loaded_world 0) = Returns 0x3F w'.
Proof. eexists. vm_compute. reflexivity. Qed.

(** A first refusal at bit 31 yields 0x7FFFFFFF. *)
Example prober_stops_at_bit_31 :
  exists w',
    calculate_thermals_mask (sim_driver (sim_mask_limit 30)) 0x1000
      (loaded_world 0) = Returns 0x7FFFFFFF w'.
Proof. eexists. vm_compute. reflexivity. Qed.

(** A driver that never refuses yields the pattern 0xFFFFFFFF, which the
    report prints as such. *)
Example prober_never_refused :
  exists w',
    calculate_thermals_mask (sim_driver sim_two_gpus) 0x1000 (loaded_world 0)
      = Returns (-1) w' /\
    wrap_u32 (-1) = 0xFFFFFFFF /\
    line_mask (-1) = "Thermals mask: 0xffffffff" +++ nl +++ nl.
Proof. eexists. vm_compute. repeat split. Qed.

(** A driver that refuses the baseline yields 1. *)
Example prober_baseline_refused :
  exists w',
    calculate_thermals_mask (sim_driver sim_two_gpus) 0x2000 (loaded_world 0)
      = Returns 1 w'.
Proof. eexists. vm_compute. reflexivity. Qed.

Lemma get_thermals_decodes_witness :
  exists hotspot vram w',
    get_thermals (sim_driver sim_two_gpus) 0x1000 (-1) 0 0 (loaded_world 0)
      = Returns (0, hotspot, vram) w' /\
    reading_of 6400 hotspot /\
    reading_of 7680 vram.
Proof.
  destruct (get_thermals_decodes (sim_driver sim_two_gpus) 0x1000 (-1) 0 0
              (loaded_world 0)
              (snd (thermals_answer (sim_driver sim_two_gpus) 0x1000 (-1)
                      (loaded_world 0))))
    as (hotspot & vram & w' & E & R9 & R15 & _).
  - vm_compute; discriminate.
  - vm_compute; discriminate.
  - reflexivity.
  - exists hotspot, vram, w'. split; [exact E | split; [exact R9 | exact R15]].
Defined.

(** Raw 6400 is printed as 25 degrees; raw 0, raw 255 and raw 65280 as not
    available. *)
Example decoded_lines :
  decoded_line line_hotspot line_hotspot_na 6400
    = "Hotspot Temperature: 25 °C" +++ nl /\
  decoded_line line_hotspot line_hotspot_na 0 = line_hotspot_na /\
  decoded_line line_hotspot line_hotspot_na 255 = line_hotspot_na /\
  decoded_line line_memory line_memory_na 65280 = line_memory_na /\
  decoded_line line_memory line_memory_na (-6400) = line_memory_na.
Proof. vm_compute. repeat split. Qed.


(** The report of that session, as printed. *)
Example two_gpu_report_text :
  exists w',
    main sim_loader (sim_driver sim_two_gpus) (initial_world 0%nat)
      = Returns 0 w' /\
    stdout w' = two_gpu_report 850000 25 30 (line_voltage 900000) /\
    skipn 10 (stdout w') =
      ["Core Voltage: 0.850 V (850000 µV)" +++ nl;
       "Hotspot Temperature: 25 °C" +++ nl;
       "Memory Temperature: 30 °C" +++ nl;
       nl;
       rule_dash +++ nl;
       "GPU 1:" +++ nl;
       rule_dash +++ nl;
       "Thermals mask: 0x00000001" +++ nl +++ nl;
       "Core Voltage: 0.900 V (900000 µV)" +++ nl;
       "Hotspot Temperature: Error reading" +++ nl;
       "Memory Temperature: Error reading" +++ nl;
       nl;
       "Done." +++ nl].
Proof. eexists. vm_compute. repeat split. Qed.

Lemma get_voltage_verbatim_witness :
  exists w',
    get_voltage (sim_driver sim_two_gpus) 0x1000 0 (loaded_world 0)
      = Returns (0, 850000) w' /\
    read_u (fmt_u 850000) = Some 850000.
Proof.
  destruct (get_voltage_verbatim (sim_driver sim_two_gpus) 0x1000 0
              (loaded_world 0)
              (snd (voltage_answer (sim_driver sim_two_gpus) 0x1000
                      (loaded_world 0))))
    as (w' & E & _ & _ & R & _).
  - vm_compute; discriminate.
  - vm_compute; discriminate.
  - reflexivity.
  - exists w'. split; [exact E | exact R].
Defined.

Lemma calculate_thermals_mask_default_witness :
  exists w1' w2',
    calculate_thermals_mask (sim_driver sim_no_telemetry) 0x1000 (loaded_world 0)
      = Returns 1 w1' /\
    calculate_thermals_mask (sim_driver sim_two_gpus) 0x2000 (loaded_world 0)
      = Returns 1 w2' /\
    calls w1' = calls (loaded_world 0) ++ [EvQuery QUERY_NVAPI_THERMALS NULL] /\
    stdout w1' = stdout (loaded_world 0) /\
    stdout w2' = stdout (loaded_world 0).
Proof.
  apply (calculate_thermals_mask_default (sim_driver sim_no_telemetry)
           (sim_driver sim_two_gpus) 0x1000 0x2000 (loaded_world 0)
           (loaded_world 0) NVAPI_INVALID_ARGUMENT
           (snd (thermals_answer (sim_driver sim_two_gpus) 0x2000 1
                   (loaded_world 0)))).
  - vm_compute; discriminate.
  - reflexivity.
  - vm_compute; discriminate.
  - vm_compute; discriminate.
  - reflexivity.
  - vm_compute; discriminate.
Defined.

Lemma get_thermals_ignores_mask_witness :
  exists hotspot vram w1' w2',
    get_thermals (sim_driver sim_two_gpus) 0x1000 0 0 0 (loaded_world 0)
      = Returns (0, hotspot, vram) w1' /\
    get_thermals (sim_driver sim_two_gpus) 0x1000 1 0 0 (loaded_world 5)
      = Returns (0, hotspot, vram) w2' /\
    reading_of 6400 hotspot /\
    reading_of 7680 vram.
Proof.
  apply (get_thermals_ignores_mask (sim_driver sim_two_gpus) 0x1000 0x1000 0 1
           0 0 0 0 (loaded_world 0) (loaded_world 5)
           (snd (thermals_answer (sim_driver sim_two_gpus) 0x1000 0
                   (loaded_world 0)))
           (snd (thermals_answer (sim_driver sim_two_gpus) 0x1000 1
                   (loaded_world 5)))).
  - vm_compute; discriminate.
  - vm_compute; discriminate.
  - vm_compute; discriminate.
  - vm_compute; discriminate.
  - reflexivity.
  - reflexivity.
  - reflexivity.
  - reflexivity.
Defined.

(** ** Startup, piece by piece *)

Section Startup.

Context {D : Type}.
Variable ld : Loader.
Variable drv : Driver D.

(** Everything about the world the resolver leaves behind. *)
Lemma resolved_exact (id : Z) (w : World D) :
  let fn := resolves_to drv id w in
  stdout (resolved drv id w) = stdout w /\
  nvapi_lib (resolved drv id w) = nvapi_lib w /\
  nvapi_QueryInterface (resolved drv id w) = nvapi_QueryInterface w /\
  stderr (resolved drv id w)
    = stderr w ++ (if fn =? NULL then [unresolved_message id] else []) /\
  calls (resolved drv id w) = calls w ++ [EvQuery id fn].
Proof.
  unfold resolves_to, resolved.
  destruct (query_interface drv id (driver_state w)) as [fn d].
  cbn [fst]. destruct (fn =? NULL); cbn; rewrite ?app_nil_r; repeat split.
Qed.

Lemma load_nvapi_exact (w : World D) :
  let lib := dlopen ld NVAPI_LIBRARY in
  let qi := dlsym ld lib "nvapi_QueryInterface" in
  exists w',
    load_nvapi ld w
      = Returns (if (lib =? NULL) || (qi =? NULL) then -1 else 0) w' /\
    nvapi_lib w' = lib /\
    nvapi_QueryInterface w'
      = (if lib =? NULL then nvapi_QueryInterface w else qi) /\
    driver_state w' = driver_state w /\
    stdout w' = stdout w /\
    stderr w' =
      stderr w
        ++ (if lib =? NULL then
              ["Error: Could not load " +++ NVAPI_LIBRARY +++ ": "
                 +++ dlerror ld +++ nl;
               "Make sure NVIDIA drivers are installed." +++ nl]
            else if qi =? NULL then
              ["Error: Could not find nvapi_QueryInterface: "
                 +++ dlerror ld +++ nl]
            else []) /\
    calls w' =
      calls w
        ++ EvDlopen lib
        :: (if lib =? NULL then []
            else EvDlsym lib qi :: (if qi =? NULL then [EvDlclose lib] else [])).
Proof.
  intros lib qi.
  unfold load_nvapi, do_dlopen, do_dlsym, do_dlclose, bind, modify, eprintf, ret.
  fold lib. destruct (lib =? NULL) eqn:Hlib.
  - eexists. split; [reflexivity |]. cbn.
    rewrite <- !app_assoc. repeat split.
  - fold qi. destruct (qi =? NULL) eqn:Hqi;
      (eexists; split; [reflexivity |]); cbn;
      rewrite <- ?app_assoc, ?app_nil_r; repeat split.
Qed.

Lemma init_nvapi_exact (w : World D) :
  nvapi_QueryInterface w <> NULL ->
  let fn := resolves_to drv QUERY_NVAPI_INITIALIZE w in
  let status :=
    fst (call_void drv fn (driver_state (resolved drv QUERY_NVAPI_INITIALIZE w))) in
  exists w',
    init_nvapi drv w
      = Returns (if negb (fn =? NULL) && (status =? 0) then 0 else -1) w' /\
    nvapi_lib w' = nvapi_lib w /\
    nvapi_QueryInterface w' = nvapi_QueryInterface w /\
    stdout w' =
      stdout w
        ++ (if negb (fn =? NULL) && (status =? 0)
            then ["NVAPI initialized successfully." +++ nl +++ nl] else []) /\
    stderr w' =
      stderr w
        ++ (if fn =? NULL then [unresolved_message QUERY_NVAPI_INITIALIZE]
            else if status =? 0 then []
            else ["Error: NvAPI_Initialize failed with status 0x"
                    +++ fmt_08x status +++ nl]) /\
    calls w' =
      calls w
        ++ EvQuery QUERY_NVAPI_INITIALIZE fn
        :: (if fn =? NULL then [] else [EvVoid fn status]).
Proof.
  intros Hqi fn status.
  unfold init_nvapi, bind.
  rewrite get_nvapi_function_run by exact Hqi.
  fold (resolves_to drv QUERY_NVAPI_INITIALIZE w). fold fn.
  destruct (resolved_exact QUERY_NVAPI_INITIALIZE w) as (O & L & Q & Er & C).
  fold fn in Er, C.
  set (w0 := resolved drv QUERY_NVAPI_INITIALIZE w) in *.
  destruct (fn =? NULL) eqn:Hfn.
  - exists w0. split; [reflexivity |]. cbn [negb andb].
    rewrite app_nil_r. repeat split; assumption.
  - unfold invoke_void, through. rewrite Hfn.
    unfold status.
    destruct (call_void drv fn (driver_state w0)) as [st d].
    cbn [fst negb andb].
    destruct (st =? 0); cbn [negb];
      (eexists; split; [reflexivity |]); cbn;
      rewrite ?O, ?L, ?Q, ?Er, ?C, <- ?app_assoc, ?app_nil_r; repeat split.
Qed.

Lemma enum_physical_gpus_exact (handles : list Z) (count : Z) (w : World D) :
  nvapi_QueryInterface w <> NULL ->
  let fn := resolves_to drv QUERY_NVAPI_ENUM_PHYSICAL_GPUS w in
  let answer :=
    fst (call_enum drv fn handles count
           (driver_state (resolved drv QUERY_NVAPI_ENUM_PHYSICAL_GPUS w))) in
  let status := fst (fst answer) in
  exists w',
    enum_physical_gpus drv handles count w
      = Returns (if fn =? NULL then (-1, handles, count)
                 else (if status =? 0 then 0 else -1,
                       snd (fst answer), snd answer)) w' /\
    nvapi_lib w' = nvapi_lib w /\
    nvapi_QueryInterface w' = nvapi_QueryInterface w /\
    stdout w' = stdout w /\
    stderr w' =
      stderr w
        ++ (if fn =? NULL then [unresolved_message QUERY_NVAPI_ENUM_PHYSICAL_GPUS]
            else if status =? 0 then []
            else ["Error: EnumPhysicalGPUs failed with status 0x"
                    +++ fmt_08x status +++ nl]) /\
    calls w' =
      calls w
        ++ EvQuery QUERY_NVAPI_ENUM_PHYSICAL_GPUS fn
        :: (if fn =? NULL then [] else [EvEnum fn status]).
Proof.
  intros Hqi fn answer status.
  unfold enum_physical_gpus, bind.
  rewrite get_nvapi_function_run by exact Hqi.
  fold (resolves_to drv QUERY_NVAPI_ENUM_PHYSICAL_GPUS w). fold fn.
  destruct (resolved_exact QUERY_NVAPI_ENUM_PHYSICAL_GPUS w)
    as (O & L & Q & Er & C).
  fold fn in Er, C.
  set (w0 := resolved drv QUERY_NVAPI_ENUM_PHYSICAL_GPUS w) in *.
  destruct (fn =? NULL) eqn:Hfn.
  - exists w0. split; [reflexivity |].
    repeat split; assumption.
  - unfold invoke_enum, through. rewrite Hfn.
    unfold status, answer.
    destruct (call_enum drv fn handles count (driver_state w0))
      as [[[st hs] n] d].
    cbn [fst snd].
    destruct (st =? 0); cbn [negb];
      (eexists; split; [reflexivity |]); cbn;
      rewrite ?O, ?L, ?Q, ?Er, ?C, <- ?app_assoc, ?app_nil_r; repeat split.
Qed.

(** X1.  [load_nvapi] returns 0 exactly when the library opens and has the
    entry symbol, and -1 otherwise.  When the library does not open it
    prints two lines on stderr and does not look the symbol up; when the
    symbol is missing it prints one line and closes the library, yet
    [nvapi_lib] keeps the closed handle.  It never touches stdout or the
    driver. *)
Theorem load_nvapi_outcome (w : World D) :
  let lib := dlopen ld NVAPI_LIBRARY in
  let qi := dlsym ld lib "nvapi_QueryInterface" in
  exists w',
    load_nvapi ld w
      = Returns (if (lib =? NULL) || (qi =? NULL) then -1 else 0) w' /\
    nvapi_lib w' = lib /\
    nvapi_QueryInterface w'
      = (if lib =? NULL then nvapi_QueryInterface w else qi) /\
    driver_state w' = driver_state w /\
    stdout w' = stdout w /\
    stderr w' =
      stderr w
        ++ (if lib =? NULL then
              ["Error: Could not load " +++ NVAPI_LIBRARY +++ ": "
                 +++ dlerror ld +++ nl;
               "Make sure NVIDIA drivers are installed." +++ nl]
            else if qi =? NULL then
              ["Error: Could not find nvapi_QueryInterface: "
                 +++ dlerror ld +++ nl]
            else []) /\
    calls w' =
      calls w
        ++ EvDlopen lib
        :: (if lib =? NULL then []
            else EvDlsym lib qi :: (if qi =? NULL then [EvDlclose lib] else [])).
Proof. exact (load_nvapi_exact w). Qed.

(** X2.  With the query interface bound, [init_nvapi] asks the resolver
    once and calls the entry it got at most once: not at all when the
    resolver returned null.  It returns 0 exactly when the entry resolved
    and reported status 0, and then prints its success line on stdout;
    otherwise it returns -1 and the reason goes to stderr, with the status
    in hexadecimal when the driver refused.  The globals are left alone. *)
Theorem init_nvapi_outcome (w : World D) :
  nvapi_QueryInterface w <> NULL ->
  let fn := resolves_to drv QUERY_NVAPI_INITIALIZE w in
  let status :=
    fst (call_void drv fn (driver_state (resolved drv QUERY_NVAPI_INITIALIZE w))) in
  exists w',
    init_nvapi drv w
      = Returns (if negb (fn =? NULL) && (status =? 0) then 0 else -1) w' /\
    nvapi_lib w' = nvapi_lib w /\
    nvapi_QueryInterface w' = nvapi_QueryInterface w /\
    stdout w' =
      stdout w
        ++ (if negb (fn =? NULL) && (status =? 0)
            then ["NVAPI initialized successfully." +++ nl +++ nl] else []) /\
    stderr w' =
      stderr w
        ++ (if fn =? NULL then [unresolved_message QUERY_NVAPI_INITIALIZE]
            else if status =? 0 then []
            else ["Error: NvAPI_Initialize failed with status 0x"
                    +++ fmt_08x status +++ nl]) /\
    calls w' =
      calls w
        ++ EvQuery QUERY_NVAPI_INITIALIZE fn
        :: (if fn =? NULL then [] else [EvVoid fn status]).
Proof. exact (init_nvapi_exact w). Qed.

(** X3.  With the query interface bound, [enum_physical_gpus] returns -1
    with the caller's buffer and count exactly as passed, and without
    calling the driver's enumeration, when the entry does not resolve.
    When it resolves the buffer and count come back as the driver left
    them, with 0 for status 0 and -1 (and the status on stderr) for any
    other.  Nothing goes to stdout and the globals are left alone. *)
Theorem enum_physical_gpus_outcome (handles : list Z) (count : Z) (w : World D) :
  nvapi_QueryInterface w <> NULL ->
  let fn := resolves_to drv QUERY_NVAPI_ENUM_PHYSICAL_GPUS w in
  let answer :=
    fst (call_enum drv fn handles count
           (driver_state (resolved drv QUERY_NVAPI_ENUM_PHYSICAL_GPUS w))) in
  let status := fst (fst answer) in
  exists w',
    enum_physical_gpus drv handles count w
      = Returns (if fn =? NULL then (-1, handles, count)
                 else (if status =? 0 then 0 else -1,
                       snd (fst answer), snd answer)) w' /\
    nvapi_lib w' = nvapi_lib w /\
    nvapi_QueryInterface w' = nvapi_QueryInterface w /\
    stdout w' = stdout w /\
    stderr w' =
      stderr w
        ++ (if fn =? NULL then [unresolved_message QUERY_NVAPI_ENUM_PHYSICAL_GPUS]
            else if status =? 0 then []
            else ["Error: EnumPhysicalGPUs failed with status 0x"
                    +++ fmt_08x status +++ nl]) /\
    calls w' =
      calls w
        ++ EvQuery QUERY_NVAPI_ENUM_PHYSICAL_GPUS fn
        :: (if fn =? NULL then [] else [EvEnum fn status]).
Proof. exact (enum_physical_gpus_exact handles count w). Qed.

Lemma unload_nvapi_no_telemetry (w w' : World D) :
  unload_nvapi drv w = Returns tt w' ->
  exists news,
    calls w' = calls w ++ news /\ Forall (fun e => ~ telemetry e) news.
Proof.
  intros E.
  destruct (unload_nvapi_run drv w) as (w'' & E' & _ & _ & _ & C).
  rewrite E in E'. injection E' as <-.
  eexists. split; [exact C |].
  apply Forall_app. split.
  - destruct (nvapi_QueryInterface w =? NULL); [constructor |].
    cbv zeta. constructor; [cbn; tauto |].
    destruct (resolves_to drv QUERY_NVAPI_UNLOAD w =? NULL);
      repeat constructor. cbn. tauto.
  - destruct (nvapi_lib w =? NULL); repeat constructor. cbn. tauto.
Qed.

(** X4.  The order of a session.  A run of [main] that exits with 1 has
    made no thermal and no voltage query at all.  A run that exits with 0
    began with exactly these calls: the library opened, the entry symbol
    looked up, the initialize entry resolved and called with status 0, the
    enumeration entry resolved and called with status 0; whatever it asked
    of the driver came after them. *)
Theorem main_session_order (d : D) :
  let lib := dlopen ld NVAPI_LIBRARY in
  let qi := dlsym ld lib "nvapi_QueryInterface" in
  exists code w',
    main ld drv (initial_world d) = Returns code w' /\
    ((code = 1 /\ Forall (fun e => ~ telemetry e) (calls w')) \/
     (code = 0 /\
      exists init_fn enum_fn rest,
        init_fn <> NULL /\ enum_fn <> NULL /\
        calls w' =
          [EvDlopen lib; EvDlsym lib qi;
           EvQuery QUERY_NVAPI_INITIALIZE init_fn; EvVoid init_fn 0;
           EvQuery QUERY_NVAPI_ENUM_PHYSICAL_GPUS enum_fn; EvEnum enum_fn 0]
            ++ rest)).
Proof.
  intros lib qi.
  set (w0 := banner_printed (initial_world d)).
  destruct (load_nvapi_exact w0) as (w1 & E1 & L1 & Q1 & _ & _ & _ & C1).
  fold lib qi in E1, L1, Q1, C1.
  unfold main. unfold bind at 1 2 3 4. unfold printf at 1 2 3 4. unfold modify.
  unfold bind at 1.
  change (put_stdout (rule_eq +++ nl +++ nl) _) with w0.
  rewrite E1. clear E1.
  change (calls w0) with (@nil Event) in C1. cbn [app] in C1.
  destruct (lib =? NULL) eqn:Hlib.
  { exists 1, w1. split; [reflexivity |]. left. split; [reflexivity |].
    rewrite C1. repeat constructor. cbn. tauto. }
  destruct (qi =? NULL) eqn:Hqi.
  { exists 1, w1. split; [reflexivity |]. left. split; [reflexivity |].
    rewrite C1. repeat constructor; cbn; tauto. }
  cbn [orb negb Z.eqb].
  assert (Hq1 : nvapi_QueryInterface w1 <> NULL)
    by (rewrite Q1; apply Z.eqb_neq; exact Hqi).
  destruct (init_nvapi_exact w1 Hq1) as (w2 & E2 & L2 & Q2 & _ & _ & C2).
  set (ifn := resolves_to drv QUERY_NVAPI_INITIALIZE w1) in *.
  set (ist := fst (call_void drv ifn _)) in *.
  unfold bind at 1. rewrite E2. clear E2.
  assert (Hq2 : nvapi_QueryInterface w2 <> NULL) by (rewrite Q2; exact Hq1).
  assert (Fail2 :
            negb (ifn =? NULL) && (ist =? 0) = false ->
            exists code w',
              (lib0 <- read nvapi_lib;; do_dlclose lib0;;; ret 1) w2
                = Returns code w' /\
              code = 1 /\ Forall (fun e => ~ telemetry e) (calls w')).
  { intros Hf.
    exists 1, (record_call (EvDlclose (nvapi_lib w2)) w2).
    split; [reflexivity |]. split; [reflexivity |].
    cbn [calls record_call]. rewrite C2, C1.
    repeat (apply Forall_app; split).
    - repeat constructor; cbn; tauto.
    - constructor; [cbn; tauto |].
      destruct (ifn =? NULL); repeat constructor. cbn. tauto.
    - repeat constructor. cbn. tauto. }
  destruct (negb (ifn =? NULL) && (ist =? 0)) eqn:Hinit; cbn [negb Z.eqb].
  2:{ destruct (Fail2 eq_refl) as (code & w' & E & -> & F).
      exists 1, w'. split; [exact E |]. left. split; [reflexivity | exact F]. }
  clear Fail2. apply andb_true_iff in Hinit. destruct Hinit as [Hifn Hist].
  apply negb_true_iff in Hifn. rewrite Hifn in C2.
  apply Z.eqb_eq in Hist. rewrite Hist in C2.
  destruct (enum_physical_gpus_exact handles_uninit 0 w2 Hq2)
    as (w3 & E3 & L3 & Q3 & _ & _ & C3).
  set (efn := resolves_to drv QUERY_NVAPI_ENUM_PHYSICAL_GPUS w2) in *.
  set (ans := fst (call_enum drv efn _ _ _)) in *.
  unfold bind at 1. rewrite E3. clear E3.
  assert (Hq3 : nvapi_QueryInterface w3 <> NULL) by (rewrite Q3; exact Hq2).
  assert (F3 : Forall (fun e => ~ telemetry e) (calls w3)).
  { rewrite C3, C2, C1.
    repeat (apply Forall_app; split); repeat constructor; try (cbn; tauto).
    destruct (efn =? NULL); repeat constructor. cbn. tauto. }
  assert (Fail3 :
            exists code w',
              (unload_nvapi drv;;; ret 1) w3 = Returns code w' /\
              code = 1 /\ Forall (fun e => ~ telemetry e) (calls w')).
  { destruct (returns_unload_nvapi drv w3 Hq3) as ([] & w4 & E4 & _).
    destruct (unload_nvapi_no_telemetry w3 w4 E4) as (news & C4 & F4).
    exists 1, w4. split; [unfold bind; rewrite E4; reflexivity |].
    split; [reflexivity |]. rewrite C4. apply Forall_app. split; assumption. }
  destruct (efn =? NULL) eqn:Hefn.
  { cbn [negb Z.eqb].
    destruct Fail3 as (code & w' & E & -> & F).
    exists 1, w'. split; [exact E |]. left. split; [reflexivity | exact F]. }
  destruct (fst (fst ans) =? 0) eqn:Hest; cbn [negb Z.eqb].
  2:{ destruct Fail3 as (code & w' & E & -> & F).
      exists 1, w'. split; [exact E |]. left. split; [reflexivity | exact F]. }
  clear Fail3 F3. apply Z.eqb_eq in Hest. rewrite Hest in C3.
  unfold bind at 1. unfold printf at 1. unfold modify at 1.
  set (w3' := put_stdout _ w3).
  destruct (returns_main_loop drv (snd (fst ans)) (gpu_indices (snd ans)) w3' Hq3)
    as ([] & w4 & E4 & _ & Q4 & news4 & C4 & _).
  unfold bind at 1. rewrite E4. clear E4.
  assert (Hq4 : nvapi_QueryInterface w4 <> NULL)
    by (rewrite Q4; exact Hq3).
  destruct (returns_unload_nvapi drv w4 Hq4)
    as ([] & w5 & E5 & _ & _ & news5 & C5 & _).
  unfold bind at 1. rewrite E5. clear E5.
  exists 0, (put_stdout ("Done." +++ nl) w5).
  split; [reflexivity |]. right. split; [reflexivity |].
  exists ifn, efn, (news4 ++ news5).
  split; [apply Z.eqb_neq; exact Hifn |].
  split; [apply Z.eqb_neq; exact Hefn |].
  cbn [calls put_stdout]. rewrite C5, C4.
  change (calls w3') with (calls w3). rewrite C3, C2, C1.
  rewrite <- !app_assoc. reflexivity.
Qed.

End Startup.

(** ** The readers, beyond their successful path *)

Section ReaderFrame.

Context {D : Type}.
Variable drv : Driver D.
Variable handle : Z.

Lemma reader_frame_refl (w : World D) : reader_frame handle w w.
Proof.
  repeat split. exists []. split; [now rewrite app_nil_r | constructor].
Qed.

Lemma reader_frame_trans (w1 w2 w3 : World D) :
  reader_frame handle w1 w2 -> reader_frame handle w2 w3 ->
  reader_frame handle w1 w3.
Proof.
  intros (O1 & L1 & Q1 & n1 & C1 & F1) (O2 & L2 & Q2 & n2 & C2 & F2).
  split; [congruence | split; [congruence | split; [congruence |]]].
  exists (n1 ++ n2). split.
  - rewrite C2, C1, app_assoc. reflexivity.
  - apply Forall_app. split; assumption.
Qed.

Lemma reader_frame_call (e : Event) (d : D) (w : World D) :
  reader_call handle e ->
  reader_frame handle w (record_call e (set_driver_state d w)).
Proof.
  intros H. repeat split. exists [e]. split; [reflexivity | now constructor].
Qed.

Lemma returning_ret {A} (a : A) :
  returning (D:=D) (reader_frame handle) (ret a).
Proof. intros w a' w' [= _ <-]. apply reader_frame_refl. Qed.

Lemma returning_bind {A B} (c : M D A) (k : A -> M D B) :
  returning (reader_frame handle) c ->
  (forall a, returning (reader_frame handle) (k a)) ->
  returning (reader_frame handle) (bind c k).
Proof.
  intros Hc Hk w b w' E. unfold bind in E.
  destruct (c w) as [a w1 | w1] eqn:E1; [| discriminate].
  eapply reader_frame_trans; [eapply Hc | eapply Hk]; eassumption.
Qed.

Lemma returning_eprintf (s : string) :
  returning (D:=D) (reader_frame handle) (eprintf s).
Proof.
  intros w a w' [= _ <-]. repeat split.
  exists []. split; [cbn; now rewrite app_nil_r | constructor].
Qed.

Lemma returning_get_nvapi_function (id : Z) :
  returning (reader_frame handle) (get_nvapi_function drv id).
Proof.
  unfold get_nvapi_function.
  apply returning_bind; [| intros fn].
  - intros w a w' E.
    unfold invoke_QueryInterface, bind, read, through in E.
    destruct (nvapi_QueryInterface w =? NULL); [discriminate |].
    destruct (query_interface drv id (driver_state w)) as [fn d].
    injection E as _ <-. apply reader_frame_call. exact I.
  - apply returning_bind; [| intros _; apply returning_ret].
    destruct (fn =? NULL); [apply returning_eprintf | apply returning_ret].
Qed.

Lemma returning_thermals (fn : Z) (t : NvApiThermals.t) :
  returning (reader_frame handle) (invoke_thermals drv fn handle t).
Proof.
  intros w a w' E. unfold invoke_thermals, through in E.
  destruct (fn =? NULL); [discriminate |].
  destruct (call_thermals drv fn handle t (driver_state w)) as [r d].
  injection E as _ <-. apply reader_frame_call. reflexivity.
Qed.

Lemma returning_voltage (fn : Z) (v : NvApiVoltage.t) :
  returning (reader_frame handle) (invoke_voltage drv fn handle v).
Proof.
  intros w a w' E. unfold invoke_voltage, through in E.
  destruct (fn =? NULL); [discriminate |].
  destruct (call_voltage drv fn handle v (driver_state w)) as [r d].
  injection E as _ <-. apply reader_frame_call. reflexivity.
Qed.

Lemma returning_probe_loop (fn : Z) (bits : list Z) :
  forall t, returning (reader_frame handle) (probe_loop drv fn handle t bits).
Proof.
  induction bits as [| bit rest IH]; intros t; cbn [probe_loop].
  - apply returning_ret.
  - apply returning_bind; [apply returning_thermals | intros [st t']].
    destruct (negb (st =? 0)); [apply returning_ret | apply IH].
Qed.

Lemma returning_calculate_thermals_mask :
  returning (reader_frame handle) (calculate_thermals_mask drv handle).
Proof.
  unfold calculate_thermals_mask.
  apply returning_bind; [apply returning_get_nvapi_function | intros fn].
  destruct (fn =? NULL); [apply returning_ret |].
  apply returning_bind; [apply returning_thermals | intros [st t']].
  destruct (negb (st =? 0)).
  - apply returning_bind; [apply returning_eprintf | intros _; apply returning_ret].
  - apply returning_bind; [apply returning_probe_loop | intros [m |]];
      apply returning_ret.
Qed.

Lemma returning_get_thermals (mask hotspot vram : Z) :
  returning (reader_frame handle) (get_thermals drv handle mask hotspot vram).
Proof.
  unfold get_thermals.
  apply returning_bind; [apply returning_get_nvapi_function | intros fn].
  destruct (fn =? NULL); [apply returning_ret |].
  apply returning_bind; [apply returning_thermals | intros [st t']].
  destruct (negb (st =? 0)).
  - apply returning_bind; [apply returning_eprintf | intros _; apply returning_ret].
  - apply returning_ret.
Qed.

Lemma returning_get_voltage (voltage_uv : Z) :
  returning (reader_frame handle) (get_voltage drv handle voltage_uv).
Proof.
  unfold get_voltage.
  apply returning_bind; [apply returning_get_nvapi_function | intros fn].
  destruct (fn =? NULL); [apply returning_ret |].
  apply returning_bind; [apply returning_voltage | intros [st v']].
  destruct (negb (st =? 0)).
  - apply returning_bind; [apply returning_eprintf | intros _; apply returning_ret].
  - apply returning_ret.
Qed.

(** What [get_thermals] can return: -1 with both out-parameters as they
    were, or 0 with each of them a temperature strictly between 0 and 255
    or the marker -1. *)
Lemma get_thermals_result (mask hotspot vram : Z) (w w' : World D)
    (r hotspot' vram' : Z) :
  get_thermals drv handle mask hotspot vram w = Returns (r, hotspot', vram') w' ->
  (r = -1 /\ hotspot' = hotspot /\ vram' = vram) \/
  (r = 0 /\ (hotspot' = -1 \/ 0 < hotspot' < 255)
         /\ (vram' = -1 \/ 0 < vram' < 255)).
Proof.
  unfold get_thermals, bind. intros E.
  destruct (get_nvapi_function drv QUERY_NVAPI_THERMALS w) as [fn w1 | w1];
    [| discriminate].
  destruct (fn =? NULL); [injection E as <- <- <- _; left; auto |].
  destruct (invoke_thermals drv fn handle _ w1) as [[st t'] w2 | w2];
    [| discriminate].
  destruct (negb (st =? 0)); [injection E as <- <- <- _; left; auto |].
  injection E as <- <- <- _. right. split; [reflexivity |].
  assert (G : forall c, (if (c >? 0) && (c <? 255) then c else -1) = -1
                        \/ 0 < (if (c >? 0) && (c <? 255) then c else -1) < 255).
  { intros c. destruct (Z.gtb_spec c 0), (Z.ltb_spec c 255); cbn; auto. }
  split; apply G.
Qed.

(** What [get_voltage] can return: -1 with the out-parameter as it was,
    or 0. *)
Lemma get_voltage_result (voltage_uv : Z) (w w' : World D) (r uv : Z) :
  get_voltage drv handle voltage_uv w = Returns (r, uv) w' ->
  (r = -1 /\ uv = voltage_uv) \/ r = 0.
Proof.
  unfold get_voltage, bind. intros E.
  destruct (get_nvapi_function drv QUERY_NVAPI_VOLTAGE w) as [fn w1 | w1];
    [| discriminate].
  destruct (fn =? NULL); [injection E as <- <- _; left; auto |].
  destruct (invoke_voltage drv fn handle _ w1) as [[st v'] w2 | w2];
    [| discriminate].
  destruct (negb (st =? 0)); injection E as <- <- _; auto.
Qed.

End ReaderFrame.

Section ReaderFacts.

Context {D : Type}.
Variable drv : Driver D.

Lemma returns_calculate_thermals_mask (handle : Z) :
  completes (D:=D) any_call (calculate_thermals_mask drv handle).
Proof.
  apply completes_calculate_thermals_mask with (J := fun _ => True);
    unfold any_call; auto.
Qed.

Lemma returns_get_thermals (handle mask hotspot vram : Z) :
  completes (D:=D) any_call (get_thermals drv handle mask hotspot vram).
Proof.
  apply completes_get_thermals with (J := fun _ => True);
    unfold any_call; auto.
Qed.

Lemma returns_get_voltage (handle voltage_uv : Z) :
  completes (D:=D) any_call (get_voltage drv handle voltage_uv).
Proof. apply completes_get_voltage; unfold any_call; auto. Qed.

(** X5.  With the query interface bound, and whatever the driver answers,
    [calculate_thermals_mask], [get_thermals] and [get_voltage] return,
    write nothing to stdout, leave both globals alone, and call nothing but
    the resolver and the thermal or voltage query for the handle they were
    given: never another device, never initialisation, enumeration, unload
    or the loader. *)
Theorem readers_keep_to_their_device (handle mask hotspot vram voltage_uv : Z)
    (w : World D) :
  nvapi_QueryInterface w <> NULL ->
  (exists m w',
      calculate_thermals_mask drv handle w = Returns m w' /\
      reader_frame handle w w') /\
  (exists r w',
      get_thermals drv handle mask hotspot vram w = Returns r w' /\
      reader_frame handle w w') /\
  (exists r w',
      get_voltage drv handle voltage_uv w = Returns r w' /\
      reader_frame handle w w').
Proof.
  intros Hqi. split; [| split].
  - destruct (returns_calculate_thermals_mask handle w Hqi) as (m & w' & E & _).
    exists m, w'. split; [exact E |].
    exact (returning_calculate_thermals_mask drv handle w m w' E).
  - destruct (returns_get_thermals handle mask hotspot vram w Hqi)
      as (r & w' & E & _).
    exists r, w'. split; [exact E |].
    exact (returning_get_thermals drv handle mask hotspot vram w r w' E).
  - destruct (returns_get_voltage handle voltage_uv w Hqi) as (r & w' & E & _).
    exists r, w'. split; [exact E |].
    exact (returning_get_voltage drv handle voltage_uv w r w' E).
Qed.

(** X6.  When the driver refuses the thermal query, [get_thermals] returns
    -1 and both out-parameters keep the values the caller put there; it has
    made one resolver query and one thermal call, and printed one line on
    stderr carrying the status in eight hexadecimal digits, nothing on
    stdout. *)
Theorem get_thermals_refused (handle mask hotspot vram : Z) (w : World D)
    (status : Z) (t' : NvApiThermals.t) :
  nvapi_QueryInterface w <> NULL ->
  resolves_to drv QUERY_NVAPI_THERMALS w <> NULL ->
  thermals_answer drv handle mask w = (status, t') ->
  status <> 0 ->
  exists w',
    get_thermals drv handle mask hotspot vram w
      = Returns (-1, hotspot, vram) w' /\
    stdout w' = stdout w /\
    stderr w' =
      stderr w
        ++ ["Error: GetThermals failed with status 0x" +++ fmt_08x status +++ nl] /\
    calls w' =
      calls w
        ++ [EvQuery QUERY_NVAPI_THERMALS (resolves_to drv QUERY_NVAPI_THERMALS w);
            EvThermals (resolves_to drv QUERY_NVAPI_THERMALS w) handle
              (thermals_request mask) status].
Proof.
  intros Hqi Hfn Hans Hst.
  unfold get_thermals, bind.
  rewrite get_nvapi_function_run by exact Hqi.
  fold (resolves_to drv QUERY_NVAPI_THERMALS w).
  destruct (resolved_exact drv QUERY_NVAPI_THERMALS w) as (O & _ & _ & Er & C).
  apply Z.eqb_neq in Hfn. rewrite Hfn in *. apply Z.eqb_neq in Hfn.
  change (NvApiThermals.set_mask mask _) with (thermals_request mask).
  rewrite invoke_thermals_run by exact Hfn.
  fold (thermals_answer drv handle mask w). rewrite Hans. cbn [fst snd].
  apply Z.eqb_neq in Hst. rewrite Hst. cbn [negb].
  eexists. split; [reflexivity |]. cbn.
  rewrite O, Er, C, app_nil_r, <- app_assoc. repeat split.
Qed.

(** X7.  When the driver refuses the voltage query, [get_voltage] returns
    -1 and the out-parameter keeps the caller's value; one resolver query,
    one voltage call with the stamped structure, one line on stderr with
    the status in hexadecimal, nothing on stdout. *)
Theorem get_voltage_refused (handle voltage_uv : Z) (w : World D)
    (status : Z) (v' : NvApiVoltage.t) :
  nvapi_QueryInterface w <> NULL ->
  resolves_to drv QUERY_NVAPI_VOLTAGE w <> NULL ->
  voltage_answer drv handle w = (status, v') ->
  status <> 0 ->
  exists w',
    get_voltage drv handle voltage_uv w = Returns (-1, voltage_uv) w' /\
    stdout w' = stdout w /\
    stderr w' =
      stderr w
        ++ ["Error: GetVoltage failed with status 0x" +++ fmt_08x status +++ nl] /\
    calls w' =
      calls w
        ++ [EvQuery QUERY_NVAPI_VOLTAGE (resolves_to drv QUERY_NVAPI_VOLTAGE w);
            EvVoltage (resolves_to drv QUERY_NVAPI_VOLTAGE w) handle
              voltage_request status].
Proof.
  intros Hqi Hfn Hans Hst.
  unfold get_voltage, bind.
  rewrite get_nvapi_function_run by exact Hqi.
  fold (resolves_to drv QUERY_NVAPI_VOLTAGE w).
  destruct (resolved_exact drv QUERY_NVAPI_VOLTAGE w) as (O & _ & _ & Er & C).
  apply Z.eqb_neq in Hfn. rewrite Hfn in *. apply Z.eqb_neq in Hfn.
  change (NvApiVoltage.set_version _ _) with voltage_request.
  rewrite invoke_voltage_run by exact Hfn.
  fold (voltage_answer drv handle w). rewrite Hans. cbn [fst snd].
  apply Z.eqb_neq in Hst. rewrite Hst. cbn [negb].
  eexists. split; [reflexivity |]. cbn.
  rewrite O, Er, C, app_nil_r, <- app_assoc. repeat split.
Qed.

(** X8.  Before [load_nvapi] has bound the query interface, every function
    that goes through [get_nvapi_function] calls a null pointer: the
    resolver itself, [init_nvapi], [enum_physical_gpus],
    [calculate_thermals_mask], [get_thermals] and [get_voltage] all fault,
    in the state they were called in.  Only [unload_nvapi] tests the
    pointer first. *)
Theorem query_interface_is_not_checked (id handle mask hotspot vram voltage_uv count : Z)
    (handles : list Z) (w : World D) :
  nvapi_QueryInterface w = NULL ->
  get_nvapi_function drv id w = Faults w /\
  init_nvapi drv w = Faults w /\
  enum_physical_gpus drv handles count w = Faults w /\
  calculate_thermals_mask drv handle w = Faults w /\
  get_thermals drv handle mask hotspot vram w = Faults w /\
  get_voltage drv handle voltage_uv w = Faults w /\
  exists w', unload_nvapi drv w = Returns tt w'.
Proof.
  intros Hqi.
  assert (G : forall id0, get_nvapi_function drv id0 w = Faults w).
  { intros id0.
    unfold get_nvapi_function, invoke_QueryInterface, bind, read, through.
    rewrite Hqi. reflexivity. }
  split; [apply G |].
  split; [unfold init_nvapi, bind; rewrite G; reflexivity |].
  split; [unfold enum_physical_gpus, bind; rewrite G; reflexivity |].
  split; [unfold calculate_thermals_mask, bind; rewrite G; reflexivity |].
  split; [unfold get_thermals, bind; rewrite G; reflexivity |].
  split; [unfold get_voltage, bind; rewrite G; reflexivity |].
  destruct (unload_nvapi_run drv w) as (w' & E & _). exists w'. exact E.
Qed.

(** X9.  Against a driver that leaves the header alone, whatever else it
    does, the mask [calculate_thermals_mask] returns is a prefix mask: as a
    32-bit pattern it is [2 ^ k - 1] for some [k] from 0 to 32, all bits
    below one position and none above.  It is never a sparse set of bits. *)
Theorem calculate_thermals_mask_is_prefix (handle : Z) (w : World D) :
  preserves_header drv ->
  nvapi_QueryInterface w <> NULL ->
  exists m w',
    calculate_thermals_mask drv handle w = Returns m w' /\ prefix_mask m.
Proof.
  intros Hdrv Hqi.
  destruct (Z.eq_dec (resolves_to drv QUERY_NVAPI_THERMALS w) NULL) as [Hu | Hr].
  - eexists 1, _.
    split; [apply calculate_thermals_mask_unresolved; assumption |].
    exists 1. split; [lia | reflexivity].
  - destruct (calculate_thermals_mask_run drv handle w _ Hdrv Hqi eq_refl Hr)
      as (m & w' & news & st0 & probes & E & _ & _ & _ & Hn & Hz).
    exists m, w'. split; [exact E |].
    destruct (Z.eq_dec st0 0) as [Hst | Hst].
    + destruct (Hz Hst) as [(b & st & Hb & _ & _ & ->) | [_ Hm]].
      * exists b. split; [lia |].
        rewrite Z.shiftl_1_l. unfold wrap_u32.
        assert (0 < 2 ^ b) by (apply Z.pow_pos_nonneg; lia).
        assert (2 ^ b <= 2 ^ 31) by (apply Z.pow_le_mono_r; lia).
        apply Z.mod_small. lia.
      * exists 32. split; [lia | exact Hm].
    + destruct (Hn Hst) as [_ ->]. exists 1. split; [lia | reflexivity].
Qed.

Lemma probe_loop_limit (fn handle top : Z) :
  preserves_header drv ->
  mask_limit drv handle top ->
  thermal_entry drv fn -> fn <> NULL -> 0 <= top ->
  forall (n k : nat) (t : NvApiThermals.t) (w : World D),
    (k + n = 32)%nat ->
    Z.of_nat k <= top + 1 ->
    NvApiThermals.version t = thermals_stamp ->
    exists w',
      probe_loop drv fn handle t (map Z.of_nat (seq k n)) w
        = Returns (if top + 1 <? 32 then Some (Z.shiftl 1 (top + 1) - 1)
                   else None) w'.
Proof.
  intros Hdrv Hlim Hentry Hfn Htop.
  induction n as [| n IH]; intros k t w Hk Hle Ht.
  - exists w. cbn [seq map probe_loop].
    assert (E : (top + 1 <? 32) = false) by (apply Z.ltb_ge; lia).
    rewrite E. reflexivity.
  - cbn [seq map probe_loop]. unfold bind.
    rewrite invoke_thermals_run by exact Hfn.
    set (req := NvApiThermals.set_mask (wrap_i32 (Z.shiftl 1 (Z.of_nat k))) t).
    destruct (probe_mask_arith (Z.of_nat k)) as [Hu Hi]; [lia |].
    pose proof (Hlim fn req (driver_state w) Hentry Ht) as Hiff.
    destruct (Hdrv fn handle req (driver_state w)) as [Hver Hmask].
    destruct (call_thermals drv fn handle req (driver_state w))
      as [[st t'] d'].
    cbn [fst snd] in *.
    change (NvApiThermals.mask req)
      with (wrap_i32 (Z.shiftl 1 (Z.of_nat k))) in Hiff, Hmask.
    rewrite Hu, Z.shiftl_1_l in Hiff.
    rewrite <- (Z.pow_lt_mono_r_iff 2 (Z.of_nat k) (top + 1)) in Hiff by lia.
    destruct (Z.eq_dec (Z.of_nat k) (top + 1)) as [Heq | Hne].
    + assert (Hst : (st =? 0) = false) by (apply Z.eqb_neq; intros H; lia).
      rewrite Hst. cbn [negb].
      assert (E : (top + 1 <? 32) = true) by (apply Z.ltb_lt; lia).
      rewrite E, Hmask, Hi, Heq. eexists. reflexivity.
    + assert (Hst : st = 0) by (apply Hiff; lia).
      subst st. cbn [Z.eqb negb].
      apply IH; [lia | lia | rewrite Hver; exact Ht].
Qed.

(** X10.  A driver that leaves the header alone and accepts a thermal mask
    for the device exactly when it lies below [2 ^ (top + 1)] makes
    [calculate_thermals_mask] return 1 when it accepts nothing
    ([top < 0]), the mask of bits 0 to [top] when [0 <= top < 31], and all
    ones when it accepts every bit. *)
Theorem calculate_thermals_mask_limit (handle top : Z) (w : World D) :
  preserves_header drv ->
  nvapi_QueryInterface w <> NULL ->
  always_resolves drv QUERY_NVAPI_THERMALS ->
  mask_limit drv handle top ->
  exists w',
    calculate_thermals_mask drv handle w
      = Returns (if top <? 0 then 1
                 else if top <? 31 then Z.shiftl 1 (top + 1) - 1
                 else -1) w'.
Proof.
  intros Hdrv Hqi Hres Hlim.
  unfold calculate_thermals_mask, bind.
  rewrite get_nvapi_function_run by exact Hqi.
  set (fn := fst (query_interface drv QUERY_NVAPI_THERMALS (driver_state w))).
  assert (Hfn : fn <> NULL) by apply Hres.
  assert (Hentry : thermal_entry drv fn) by (eexists; reflexivity).
  apply Z.eqb_neq in Hfn. rewrite Hfn. apply Z.eqb_neq in Hfn.
  change (NvApiThermals.set_mask 1 _) with (thermals_request 1).
  rewrite invoke_thermals_run by exact Hfn.
  set (w0 := resolved drv QUERY_NVAPI_THERMALS w).
  pose proof (Hlim fn (thermals_request 1) (driver_state w0) Hentry eq_refl)
    as Hiff.
  destruct (Hdrv fn handle (thermals_request 1) (driver_state w0)) as [Hver _].
  destruct (call_thermals drv fn handle (thermals_request 1) (driver_state w0))
    as [[st t'] d'].
  cbn [fst snd] in *.
  change (wrap_u32 (NvApiThermals.mask (thermals_request 1))) with (2 ^ 0) in Hiff.
  destruct (Z.ltb_spec top 0) as [Hneg | Hpos].
  - assert (Hst : (st =? 0) = false).
    { apply Z.eqb_neq. intros H. apply Hiff in H.
      destruct (Z.eq_dec (top + 1) 0) as [E0 | E0].
      - rewrite E0 in H. cbn in H. lia.
      - rewrite (Z.pow_neg_r 2 (top + 1)) in H by lia. cbn in H. lia. }
    rewrite Hst. cbn [negb]. eexists. reflexivity.
  - assert (Hst : st = 0).
    { apply Hiff. apply Z.pow_lt_mono_r; lia. }
    subst st. cbn [Z.eqb negb].
    destruct (probe_loop_limit fn handle top Hdrv Hlim Hentry Hfn Hpos 32 0 t'
                (record_call (EvThermals fn handle (thermals_request 1) 0)
                   (set_driver_state d' w0)) eq_refl)
      as (w' & E); [cbn; lia | exact Hver |].
    change (map Z.of_nat (seq 0 32)) with probe_bits in E.
    rewrite E. exists w'.
    destruct (Z.ltb_spec top 31) as [H31 | H31].
    + assert (E32 : (top + 1 <? 32) = true) by (apply Z.ltb_lt; lia).
      rewrite E32. reflexivity.
    + assert (E32 : (top + 1 <? 32) = false) by (apply Z.ltb_ge; lia).
      rewrite E32. reflexivity.
Qed.

Lemma report_voltage_line (r voltage_uv : Z) (w : World D) :
  exists v,
    report_voltage r voltage_uv w = Returns tt (put_stdout v w) /\
    voltage_line v.
Proof.
  unfold report_voltage. destruct (r =? 0); eexists; (split; [reflexivity |]).
  - right. eexists. reflexivity.
  - left. reflexivity.
Qed.

Lemma report_thermals_lines (r hotspot vram : Z) (w : World D) :
  (r = -1 \/
   (r = 0 /\ (hotspot = -1 \/ 0 < hotspot < 255)
          /\ (vram = -1 \/ 0 < vram < 255))) ->
  exists a b,
    report_thermals r hotspot vram w
      = Returns tt (put_stdout b (put_stdout a w)) /\
    temperature_lines [a; b].
Proof.
  intros [-> | (-> & Hh & Hv)]; unfold report_thermals; cbn [Z.eqb].
  - eexists _, _. split; [reflexivity |]. left. reflexivity.
  - unfold bind, printf, modify.
    exists (if hotspot >=? 0 then line_hotspot hotspot else line_hotspot_na),
      (if vram >=? 0 then line_memory vram else line_memory_na).
    split; [destruct (hotspot >=? 0), (vram >=? 0); reflexivity |].
    right. eexists _, _. split; [reflexivity |]. split.
    + destruct Hh as [-> | Hh]; [left; reflexivity |].
      right. exists hotspot. split; [exact Hh |].
      destruct (Z.geb_spec hotspot 0); [reflexivity | lia].
    + destruct Hv as [-> | Hv]; [left; reflexivity |].
      right. exists vram. split; [exact Hv |].
      destruct (Z.geb_spec vram 0); [reflexivity | lia].
Qed.

Lemma main_gpu_block_run (handles : list Z) (i : Z) (w : World D) :
  nvapi_QueryInterface w <> NULL ->
  exists w' block news,
    main_gpu drv handles i w = Returns tt w' /\
    stdout w' = stdout w ++ block /\
    device_block i block /\
    nvapi_lib w' = nvapi_lib w /\
    nvapi_QueryInterface w' = nvapi_QueryInterface w /\
    calls w' = calls w ++ news /\
    Forall (reader_call (handle_at handles i)) news.
Proof.
  intros Hqi.
  unfold main_gpu. unfold bind at 1 2 3. unfold printf at 1 2 3. unfold modify.
  set (handle := handle_at handles i).
  set (w1 := put_stdout (rule_dash +++ nl) _).
  destruct (returns_calculate_thermals_mask handle w1 Hqi) as (m & w2 & E2 & _).
  destruct (returning_calculate_thermals_mask drv handle w1 m w2 E2)
    as (O2 & L2 & Q2 & n2 & C2 & F2).
  unfold bind at 1. rewrite E2.
  unfold bind at 1. unfold printf at 1. unfold modify.
  set (w3 := put_stdout (line_mask m) w2).
  assert (Q3 : nvapi_QueryInterface w3 <> NULL)
    by (change (nvapi_QueryInterface w2 <> NULL); rewrite Q2; exact Hqi).
  destruct (returns_get_voltage handle 0 w3 Q3) as ([r uv] & w4 & E4 & _).
  destruct (returning_get_voltage drv handle 0 w3 (r, uv) w4 E4)
    as (O4 & L4 & Q4 & n4 & C4 & F4).
  unfold bind at 1. rewrite E4.
  destruct (report_voltage_line r uv w4) as (v & Ev & Hv).
  unfold bind at 1. rewrite Ev.
  set (w5 := put_stdout v w4).
  assert (Q5 : nvapi_QueryInterface w5 <> NULL)
    by (change (nvapi_QueryInterface w4 <> NULL); rewrite Q4; exact Q3).
  destruct (returns_get_thermals handle m 0 0 w5 Q5)
    as ([[r' hs] vr] & w6 & E6 & _).
  destruct (returning_get_thermals drv handle m 0 0 w5 (r', hs, vr) w6 E6)
    as (O6 & L6 & Q6 & n6 & C6 & F6).
  unfold bind at 1. rewrite E6.
  destruct (report_thermals_lines r' hs vr w6) as (a & b & Et & Ht).
  { destruct (get_thermals_result drv handle m 0 0 w5 w6 r' hs vr E6)
      as [(-> & _) | H]; [left; reflexivity | right; exact H]. }
  unfold bind at 1. rewrite Et.
  exists (put_stdout nl (put_stdout b (put_stdout a w6))),
    (gpu_heading i m ++ [v] ++ [a; b] ++ [nl]), (n2 ++ n4 ++ n6).
  split; [reflexivity |].
  subst w5 w3 w1.
  cbn [stdout nvapi_QueryInterface nvapi_lib calls put_stdout] in *.
  split; [rewrite O6, O4, O2; unfold gpu_heading; rewrite <- !app_assoc;
          reflexivity |].
  split; [exists m, v, [a; b]; split; [reflexivity | split; assumption] |].
  split; [rewrite L6, L4, L2; reflexivity |].
  split; [rewrite Q6, Q4, Q2; reflexivity |].
  split; [rewrite C6, C4, C2, <- !app_assoc; reflexivity |].
  repeat (apply Forall_app; split); assumption.
Qed.

(** X11.  With the query interface bound, and whatever the driver answers,
    the body of the device loop returns after printing exactly eight lines
    for device [i]: its heading with the mask, one voltage line (a value
    or "Not available") and two temperature lines (each a number of
    degrees strictly between 0 and 255 or "Not available", or "Error
    reading" twice), then an empty line.  All the calls it made are
    resolver queries and thermal or voltage queries for [handles[i]]. *)
Theorem main_gpu_block (handles : list Z) (i : Z) (w : World D) :
  nvapi_QueryInterface w <> NULL ->
  exists w' block news,
    main_gpu drv handles i w = Returns tt w' /\
    stdout w' = stdout w ++ block /\
    device_block i block /\
    List.length block = 8%nat /\
    calls w' = calls w ++ news /\
    Forall (reader_call (handle_at handles i)) news.
Proof.
  intros Hqi.
  destruct (main_gpu_block_run handles i w Hqi)
    as (w' & block & news & E & O & B & _ & _ & C & F).
  exists w', block, news. repeat split; try assumption.
  destruct B as (m & v & t & -> & _ & [-> | (h & m' & -> & _)]); reflexivity.
Qed.

Lemma main_loop_blocks_run (handles indices : list Z) (w : World D) :
  nvapi_QueryInterface w <> NULL ->
  exists w' blocks,
    main_loop drv handles indices w = Returns tt w' /\
    stdout w' = stdout w ++ List.concat blocks /\
    Forall2 device_block indices blocks.
Proof.
  revert w. induction indices as [| i rest IH]; intros w Hqi.
  - exists w, []. cbn. rewrite app_nil_r. repeat split. constructor.
  - cbn [main_loop]. unfold bind.
    destruct (main_gpu_block_run handles i w Hqi)
      as (w1 & block & news & E & O & B & _ & Q & _).
    rewrite E.
    destruct (IH w1) as (w' & blocks & E' & O' & B'); [rewrite Q; exact Hqi |].
    exists w', (block :: blocks). split; [exact E' |]. split.
    + rewrite O', O. cbn [List.concat]. rewrite app_assoc. reflexivity.
    + constructor; assumption.
Qed.

(** X12.  The loop over the devices prints one such block per index, in
    the order of the indices, and nothing else: a failing device never
    shortens or removes the report of the devices after it. *)
Theorem main_loop_blocks (handles indices : list Z) (w : World D) :
  nvapi_QueryInterface w <> NULL ->
  exists w' blocks,
    main_loop drv handles indices w = Returns tt w' /\
    stdout w' = stdout w ++ List.concat blocks /\
    Forall2 device_block indices blocks.
Proof. exact (main_loop_blocks_run handles indices w). Qed.

(** X13.  With the query interface bound, [get_thermals] and
    [get_voltage] each ask the resolver once and, when it answered, call
    the driver exactly once, whatever the status: there is no retry.  The
    structure they pass is freshly built: stamped, zero everywhere else,
    and for [get_thermals] carrying exactly the caller's mask. *)
Theorem readers_single_query (handle mask hotspot vram voltage_uv : Z)
    (w : World D) :
  nvapi_QueryInterface w <> NULL ->
  let tfn := resolves_to drv QUERY_NVAPI_THERMALS w in
  let vfn := resolves_to drv QUERY_NVAPI_VOLTAGE w in
  (exists r w',
      get_thermals drv handle mask hotspot vram w = Returns r w' /\
      calls w' =
        calls w
          ++ EvQuery QUERY_NVAPI_THERMALS tfn
          :: (if tfn =? NULL then []
              else [EvThermals tfn handle (thermals_request mask)
                      (fst (thermals_answer drv handle mask w))])) /\
  (exists r w',
      get_voltage drv handle voltage_uv w = Returns r w' /\
      calls w' =
        calls w
          ++ EvQuery QUERY_NVAPI_VOLTAGE vfn
          :: (if vfn =? NULL then []
              else [EvVoltage vfn handle voltage_request
                      (fst (voltage_answer drv handle w))])) /\
  thermals_request mask =
    {| NvApiThermals.version := thermals_stamp;
       NvApiThermals.mask := mask;
       NvApiThermals.values := repeat 0 40 |} /\
  voltage_request =
    {| NvApiVoltage.version := voltage_stamp;
       NvApiVoltage.flags := 0;
       NvApiVoltage.padding_1 := repeat 0 8;
       NvApiVoltage.value_uv := 0;
       NvApiVoltage.padding_2 := repeat 0 8 |}.
Proof.
  intros Hqi tfn vfn. split; [| split; [| split; reflexivity]].
  - unfold get_thermals, bind.
    rewrite get_nvapi_function_run by exact Hqi.
    fold (resolves_to drv QUERY_NVAPI_THERMALS w). fold tfn.
    destruct (resolved_exact drv QUERY_NVAPI_THERMALS w) as (_ & _ & _ & _ & C).
    fold tfn in C.
    destruct (tfn =? NULL) eqn:Hfn.
    + eexists _, _. split; [reflexivity | exact C].
    + apply Z.eqb_neq in Hfn.
      change (NvApiThermals.set_mask mask _) with (thermals_request mask).
      rewrite invoke_thermals_run by exact Hfn.
      unfold thermals_answer. fold tfn.
      destruct (fst (call_thermals drv tfn handle (thermals_request mask) _))
        as [st t'].
      cbn [fst snd].
      destruct (st =? 0); cbn [negb]; eexists _, _;
        (split; [reflexivity |]); cbn; rewrite C, <- app_assoc; reflexivity.
  - unfold get_voltage, bind.
    rewrite get_nvapi_function_run by exact Hqi.
    fold (resolves_to drv QUERY_NVAPI_VOLTAGE w). fold vfn.
    destruct (resolved_exact drv QUERY_NVAPI_VOLTAGE w) as (_ & _ & _ & _ & C).
    fold vfn in C.
    destruct (vfn =? NULL) eqn:Hfn.
    + eexists _, _. split; [reflexivity | exact C].
    + apply Z.eqb_neq in Hfn.
      change (NvApiVoltage.set_version _ _) with voltage_request.
      rewrite invoke_voltage_run by exact Hfn.
      unfold voltage_answer. fold vfn.
      destruct (fst (call_voltage drv vfn handle voltage_request _))
        as [st v'].
      cbn [fst snd].
      destruct (st =? 0); cbn [negb]; eexists _, _;
        (split; [reflexivity |]); cbn; rewrite C, <- app_assoc; reflexivity.
Qed.

End ReaderFacts.

(** ** The remaining code on the simulated driver *)

Lemma sim_mask_limit_holds (handle top : Z) :
  mask_limit (sim_driver (sim_mask_limit top)) handle top.
Proof.
  intros fn t n Hfn Hver.
  rewrite (sim_thermal_entry (sim_mask_limit top) fn eq_refl Hfn).
  simpl. rewrite Hver. cbn [Z.eqb negb].
  change (Z.pow_pos 2 32) with (2 ^ 32).
  fold (wrap_u32 (NvApiThermals.mask t)).
  destruct (Z.ltb_spec (wrap_u32 (NvApiThermals.mask t)) (2 ^ (top + 1)));
    cbn [fst]; split; intros H'; try reflexivity; try assumption;
    try discriminate; lia.
Qed.

Lemma sim_mask_limit_resolves (top : Z) :
  always_resolves (sim_driver (sim_mask_limit top)) QUERY_NVAPI_THERMALS.
Proof. intros n. vm_compute. discriminate. Qed.

Lemma init_nvapi_outcome_witness :
  exists w',
    init_nvapi (sim_driver sim_two_gpus) (loaded_world 0) = Returns 0 w' /\
    stdout w' = ["NVAPI initialized successfully." +++ nl +++ nl].
Proof.
  destruct (init_nvapi_outcome (sim_driver sim_two_gpus) (loaded_world 0))
    as (w' & E & _ & _ & O & _).
  - vm_compute; discriminate.
  - exists w'. split; [exact E | exact O].
Defined.

Lemma enum_physical_gpus_outcome_witness :
  exists w',
    enum_physical_gpus (sim_driver sim_no_telemetry) [7; 8; 9] 3 (loaded_world 0)
      = Returns (0, [0x1000; 8; 9], 1) w' /\
    stdout w' = [].
Proof.
  destruct (enum_physical_gpus_outcome (sim_driver sim_no_telemetry) [7; 8; 9] 3
              (loaded_world 0)) as (w' & E & _ & _ & O & _).
  - vm_compute; discriminate.
  - exists w'. split; [exact E | exact O].
Defined.

Lemma readers_keep_to_their_device_witness :
  exists m w',
    calculate_thermals_mask (sim_driver sim_two_gpus) 0x2000 (loaded_world 0)
      = Returns m w' /\
    reader_frame 0x2000 (loaded_world 0) w'.
Proof.
  destruct (readers_keep_to_their_device (sim_driver sim_two_gpus) 0x2000 1 0 0 0
              (loaded_world 0)) as (H & _).
  - vm_compute; discriminate.
  - exact H.
Defined.

Lemma get_thermals_refused_witness :
  exists w',
    get_thermals (sim_driver sim_two_gpus) 0x2000 1 37 41 (loaded_world 0)
      = Returns (-1, 37, 41) w' /\
    stdout w' = [] /\
    stderr w' = ["Error: GetThermals failed with status 0xfffffffb" +++ nl].
Proof.
  destruct (get_thermals_refused (sim_driver sim_two_gpus) 0x2000 1 37 41
              (loaded_world 0) NVAPI_INVALID_ARGUMENT
              (snd (thermals_answer (sim_driver sim_two_gpus) 0x2000 1
                      (loaded_world 0))))
    as (w' & E & O & Er & _).
  - vm_compute; discriminate.
  - vm_compute; discriminate.
  - reflexivity.
  - vm_compute; discriminate.
  - exists w'. split; [exact E | split; [exact O | exact Er]].
Defined.

Lemma get_voltage_refused_witness :
  exists w',
    get_voltage (sim_driver sim_no_gpus) 0x1000 12 (loaded_world 0)
      = Returns (-1, 12) w' /\
    stdout w' = [] /\
    stderr w' = ["Error: GetVoltage failed with status 0xffffffff" +++ nl].
Proof.
  destruct (get_voltage_refused (sim_driver sim_no_gpus) 0x1000 12
              (loaded_world 0) NVAPI_ERROR
              (snd (voltage_answer (sim_driver sim_no_gpus) 0x1000
                      (loaded_world 0))))
    as (w' & E & O & Er & _).
  - vm_compute; discriminate.
  - vm_compute; discriminate.
  - reflexivity.
  - vm_compute; discriminate.
  - exists w'. split; [exact E | split; [exact O | exact Er]].
Defined.

Lemma query_interface_is_not_checked_witness :
  init_nvapi (sim_driver sim_two_gpus) (initial_world 0%nat)
    = Faults (initial_world 0%nat) /\
  get_thermals (sim_driver sim_two_gpus) 0x1000 1 0 0 (initial_world 0%nat)
    = Faults (initial_world 0%nat).
Proof.
  destruct (query_interface_is_not_checked (sim_driver sim_two_gpus)
              QUERY_NVAPI_THERMALS 0x1000 1 0 0 0 0 [] (initial_world 0%nat))
    as (_ & Hi & _ & _ & Ht & _).
  - reflexivity.
  - split; [exact Hi | exact Ht].
Defined.

Lemma calculate_thermals_mask_is_prefix_witness :
  exists m w',
    calculate_thermals_mask (sim_driver (sim_mask_limit 5)) 0x1000 (loaded_world 0)
      = Returns m w' /\
    prefix_mask m.
Proof.
  apply (calculate_thermals_mask_is_prefix (sim_driver (sim_mask_limit 5))
           0x1000 (loaded_world 0)).
  - apply sim_preserves_header.
  - vm_compute; discriminate.
Defined.

Lemma calculate_thermals_mask_limit_witness :
  exists w',
    calculate_thermals_mask (sim_driver (sim_mask_limit 5)) 0x1000 (loaded_world 0)
      = Returns 0x3F w'.
Proof.
  apply (calculate_thermals_mask_limit (sim_driver (sim_mask_limit 5)) 0x1000 5
           (loaded_world 0)).
  - apply sim_preserves_header.
  - vm_compute; discriminate.
  - apply sim_mask_limit_resolves.
  - apply sim_mask_limit_holds.
Defined.

Lemma main_gpu_block_witness :
  exists w' block news,
    main_gpu (sim_driver sim_two_gpus) [0x1000; 0x2000] 1 (loaded_world 0)
      = Returns tt w' /\
    stdout w' = stdout (loaded_world 0) ++ block /\
    device_block 1 block /\
    List.length block = 8%nat /\
    calls w' = calls (loaded_world 0) ++ news /\
    Forall (reader_call 0x2000) news.
Proof.
  apply (main_gpu_block (sim_driver sim_two_gpus) [0x1000; 0x2000] 1
           (loaded_world 0)).
  vm_compute; discriminate.
Defined.

Lemma main_loop_blocks_witness :
  exists w' blocks,
    main_loop (sim_driver sim_two_gpus) [0x1000; 0x2000] [0; 1] (loaded_world 0)
      = Returns tt w' /\
    stdout w' = stdout (loaded_world 0) ++ List.concat blocks /\
    Forall2 device_block [0; 1] blocks.
Proof.
  apply (main_loop_blocks (sim_driver sim_two_gpus) [0x1000; 0x2000] [0; 1]
           (loaded_world 0)).
  vm_compute; discriminate.
Defined.

Lemma readers_single_query_witness :
  exists r w',
    get_thermals (sim_driver sim_two_gpus) 0x1000 0x3F 0 0 (loaded_world 0)
      = Returns r w' /\
    calls w' =
      [EvQuery QUERY_NVAPI_THERMALS (sim_addr QUERY_NVAPI_THERMALS);
       EvThermals (sim_addr QUERY_NVAPI_THERMALS) 0x1000 (thermals_request 0x3F) 0].
Proof.
  destruct (readers_single_query (sim_driver sim_two_gpus) 0x1000 0x3F 0 0 0
              (loaded_world 0)) as (H & _).
  - vm_compute; discriminate.
  - exact H.
Defined.

(** ** The stamp on every call *)

Section Stamps.

Context {D : Type}.
Variable ld : Loader.
Variable drv : Driver D.

(** The calls of the probing loop, for any driver: at most one per bit, the
    first with the version field of the structure it was handed. *)
Lemma probe_loop_log (fn handle : Z) :
  fn <> NULL ->
  forall (bits : list Z) (t : NvApiThermals.t) (w : World D),
    exists r w' news,
      probe_loop drv fn handle t bits w = Returns r w' /\
      calls w' = calls w ++ news /\
      Forall (thermal_call_of fn handle) news /\
      (List.length news <= List.length bits)%nat /\
      (forall e rest, news = e :: rest ->
         exists arg st, e = EvThermals fn handle arg st /\
                        NvApiThermals.version arg = NvApiThermals.version t) /\
      (preserves_version drv ->
       NvApiThermals.version t = thermals_stamp -> Forall stamped news).
Proof.
  intros Hfn. induction bits as [| bit rest IH]; intros t w.
  - exists None, w, []. cbn. rewrite app_nil_r.
    repeat split; auto. intros e rest H. discriminate.
  - cbn [probe_loop]. unfold bind. rewrite invoke_thermals_run by exact Hfn.
    set (req := NvApiThermals.set_mask (wrap_i32 (Z.shiftl 1 bit)) t).
    destruct (call_thermals drv fn handle req (driver_state w))
      as [[st t'] d] eqn:Ecall.
    cbn [fst snd].
    destruct (st =? 0) eqn:Est; cbn [negb].
    + destruct (IH t' (record_call (EvThermals fn handle req st)
                         (set_driver_state d w)))
        as (r & w' & news & E & C & F & Len & _ & S).
      exists r, w', (EvThermals fn handle req st :: news).
      split; [exact E |].
      split; [rewrite C; cbn; rewrite <- app_assoc; reflexivity |].
      split; [constructor; [eexists _, _; reflexivity | exact F] |].
      split; [cbn [List.length]; lia |].
      split.
      * intros e rest' H. injection H as <- _. exists req, st.
        split; reflexivity.
      * intros Hdrv Ht. constructor; [exact Ht |].
        apply S; [exact Hdrv |].
        pose proof (Hdrv fn handle req (driver_state w)) as Hv.
        rewrite Ecall in Hv. cbn [fst snd] in Hv. rewrite Hv. exact Ht.
    + eexists _, _, [EvThermals fn handle req st].
      split; [reflexivity |].
      split; [reflexivity |].
      split; [constructor; [eexists _, _; reflexivity | constructor] |].
      split; [cbn [List.length]; lia |].
      split.
      * intros e rest' H. injection H as <- _. exists req, st.
        split; reflexivity.
      * intros _ Ht. constructor; [exact Ht | constructor].
Qed.

(** The calls of [calculate_thermals_mask], for any driver. *)
Lemma calculate_thermals_mask_log (handle : Z) (w : World D) :
  nvapi_QueryInterface w <> NULL ->
  let tfn := resolves_to drv QUERY_NVAPI_THERMALS w in
  let answer := thermals_answer drv handle 1 w in
  exists m w' probes,
    calculate_thermals_mask drv handle w = Returns m w' /\
    calls w' =
      calls w
        ++ EvQuery QUERY_NVAPI_THERMALS tfn
        :: (if tfn =? NULL then []
            else EvThermals tfn handle (thermals_request 1) (fst answer)
                   :: probes) /\
    Forall (thermal_call_of tfn handle) probes /\
    (List.length probes <= 32)%nat /\
    (forall e rest, probes = e :: rest ->
       exists arg st, e = EvThermals tfn handle arg st /\
                      NvApiThermals.version arg
                        = NvApiThermals.version (snd answer)) /\
    (preserves_version drv -> Forall stamped probes).
Proof.
  intros Hqi tfn answer.
  unfold calculate_thermals_mask, bind.
  rewrite get_nvapi_function_run by exact Hqi.
  fold (resolves_to drv QUERY_NVAPI_THERMALS w). fold tfn.
  destruct (resolved_exact drv QUERY_NVAPI_THERMALS w) as (_ & _ & _ & _ & C).
  fold tfn in C.
  destruct (tfn =? NULL) eqn:Hfn.
  - exists 1, (resolved drv QUERY_NVAPI_THERMALS w), [].
    split; [reflexivity |]. split; [exact C |].
    split; [constructor |]. split; [cbn; lia |].
    split; [intros e rest H; discriminate | intros _; constructor].
  - apply Z.eqb_neq in Hfn.
    change (NvApiThermals.set_mask 1 _) with (thermals_request 1).
    rewrite invoke_thermals_run by exact Hfn.
    set (w0 := resolved drv QUERY_NVAPI_THERMALS w) in *.
    assert (Eans : answer
                   = fst (call_thermals drv tfn handle (thermals_request 1)
                            (driver_state w0))) by reflexivity.
    clearbody answer.
    pose proof (fun Hdrv : preserves_version drv =>
                  Hdrv tfn handle (thermals_request 1) (driver_state w0))
      as Hver.
    destruct (call_thermals drv tfn handle (thermals_request 1)
                (driver_state w0)) as [[st t'] d'].
    cbn [fst snd] in *. subst answer. cbn [fst snd].
    set (w1 := record_call _ _).
    assert (C1 : calls w1 =
                 calls w ++ [EvQuery QUERY_NVAPI_THERMALS tfn;
                             EvThermals tfn handle (thermals_request 1) st]).
    { unfold w1. cbn [calls record_call set_driver_state]. rewrite C.
      rewrite <- app_assoc. reflexivity. }
    destruct (st =? 0); cbn [negb].
    + destruct (probe_loop_log tfn handle Hfn probe_bits t' w1)
        as (r & w' & news & E & C' & F & Len & Hd & S).
      rewrite E.
      assert (G : exists m, (match r with
                             | Some m => ret m
                             | None => ret (wrap_i32 0xFFFFFFFF)
                             end) w' = Returns (D:=D) m w').
      { destruct r; eexists; reflexivity. }
      destruct G as (m & G). rewrite G.
      exists m, w', news. split; [reflexivity |].
      split; [rewrite C', C1, <- app_assoc; reflexivity |].
      split; [exact F |]. split; [exact Len |].
      split; [exact Hd |].
      intros Hdrv. apply S; [exact Hdrv |]. rewrite (Hver Hdrv). reflexivity.
    + eexists 1, _, []. split; [reflexivity |].
      split; [cbn [calls put_stderr]; exact C1 |].
      split; [constructor |]. split; [cbn; lia |].
      split; [intros e rest H; discriminate | intros _; constructor].
Qed.

(** The calls of the two readers, for any driver. *)
Lemma get_thermals_log (handle mask hotspot vram : Z) (w : World D) :
  nvapi_QueryInterface w <> NULL ->
  let tfn := resolves_to drv QUERY_NVAPI_THERMALS w in
  exists r w',
    get_thermals drv handle mask hotspot vram w = Returns r w' /\
    calls w' =
      calls w
        ++ EvQuery QUERY_NVAPI_THERMALS tfn
        :: (if tfn =? NULL then []
            else [EvThermals tfn handle (thermals_request mask)
                    (fst (thermals_answer drv handle mask w))]).
Proof.
  intros Hqi tfn.
  unfold get_thermals, bind.
  rewrite get_nvapi_function_run by exact Hqi.
  fold (resolves_to drv QUERY_NVAPI_THERMALS w). fold tfn.
  destruct (resolved_exact drv QUERY_NVAPI_THERMALS w) as (_ & _ & _ & _ & C).
  fold tfn in C.
  destruct (tfn =? NULL) eqn:Hfn.
  - eexists _, _. split; [reflexivity | exact C].
  - apply Z.eqb_neq in Hfn.
    change (NvApiThermals.set_mask mask _) with (thermals_request mask).
    rewrite invoke_thermals_run by exact Hfn.
    unfold thermals_answer. fold tfn.
    destruct (fst (call_thermals drv tfn handle (thermals_request mask) _))
      as [st t'].
    cbn [fst snd].
    destruct (st =? 0); cbn [negb]; eexists _, _;
      (split; [reflexivity |]); cbn; rewrite C, <- app_assoc; reflexivity.
Qed.

Lemma get_voltage_log (handle voltage_uv : Z) (w : World D) :
  nvapi_QueryInterface w <> NULL ->
  let vfn := resolves_to drv QUERY_NVAPI_VOLTAGE w in
  exists r w',
    get_voltage drv handle voltage_uv w = Returns r w' /\
    calls w' =
      calls w
        ++ EvQuery QUERY_NVAPI_VOLTAGE vfn
        :: (if vfn =? NULL then []
            else [EvVoltage vfn handle voltage_request
                    (fst (voltage_answer drv handle w))]).
Proof.
  intros Hqi vfn.
  unfold get_voltage, bind.
  rewrite get_nvapi_function_run by exact Hqi.
  fold (resolves_to drv QUERY_NVAPI_VOLTAGE w). fold vfn.
  destruct (resolved_exact drv QUERY_NVAPI_VOLTAGE w) as (_ & _ & _ & _ & C).
  fold vfn in C.
  destruct (vfn =? NULL) eqn:Hfn.
  - eexists _, _. split; [reflexivity | exact C].
  - apply Z.eqb_neq in Hfn.
    change (NvApiVoltage.set_version _ _) with voltage_request.
    rewrite invoke_voltage_run by exact Hfn.
    unfold voltage_answer. fold vfn.
    destruct (fst (call_voltage drv vfn handle voltage_request _))
      as [st v'].
    cbn [fst snd].
    destruct (st =? 0); cbn [negb]; eexists _, _;
      (split; [reflexivity |]); cbn; rewrite C, <- app_assoc; reflexivity.
Qed.

Lemma stamped_completes_main_loop (handles indices : list Z) :
  preserves_version drv ->
  completes (D:=D) stamped (main_loop drv handles indices).
Proof.
  intros Hdrv.
  apply completes_main_loop
    with (J := fun t => NvApiThermals.version t = thermals_stamp).
  - auto.
  - reflexivity.
  - intros m t H. exact H.
  - intros fn h t d H. rewrite (Hdrv fn h t d). exact H.
  - intros fn h t st H. exact H.
Qed.


End Stamps.

Lemma sim_preserves_version (c : Sim) : preserves_version (sim_driver c).
Proof. intros fn handle t n. apply (sim_preserves_header c fn handle t n). Qed.



(** ** The exit code and the report of a run *)

Section OutcomeOf.

Context {D : Type}.
Variable ld : Loader.
Variable drv : Driver D.

(** What is known of the blocks the device loop prints. *)
Variable B : Z -> list string -> Prop.
Hypothesis loop_blocks :
  forall handles indices (w : World D),
    nvapi_QueryInterface w <> NULL ->
    exists w' blocks,
      main_loop drv handles indices w = Returns tt w' /\
      stdout w' = stdout w ++ List.concat blocks /\
      Forall2 B indices blocks.

(** [unload_nvapi] with the library loaded prints nothing, and the last
    call it makes closes the library. *)
Lemma unload_nvapi_closes (w : World D) :
  nvapi_lib w <> NULL ->
  exists w',
    unload_nvapi drv w = Returns tt w' /\
    stdout w' = stdout w /\
    exists before, calls w' = before ++ [EvDlclose (nvapi_lib w)].
Proof.
  intros Hlib.
  destruct (unload_nvapi_run drv w) as (w' & E & _ & _ & O & C).
  apply Z.eqb_neq in Hlib. rewrite Hlib in C.
  exists w'. split; [exact E |]. split; [exact O |].
  eexists. rewrite C, app_assoc. reflexivity.
Qed.

(** A run of [main] in full: the exit code, the last call, and stdout, from
    the answers of the loader and of the driver. *)
Lemma main_outcome (d : D) :
  exists code w',
    main ld drv (initial_world d) = Returns code w' /\
    released_at_exit ld w' /\
    ((~ init_succeeds drv ld d /\ code = 1 /\
      stdout w' = firstn 4 report_header) \/
     (init_succeeds drv ld d /\ ~ startup_succeeds drv ld d /\ code = 1 /\
      stdout w' = report_header) \/
     (startup_succeeds drv ld d /\ code = 0 /\
      exists blocks,
        stdout w' =
          report_header ++ [line_found (enumerated_count drv d)]
            ++ List.concat blocks ++ ["Done." +++ nl] /\
        Forall2 B (gpu_indices (enumerated_count drv d)) blocks)).
Proof.
  set (w0 := banner_printed (initial_world d)).
  destruct (load_nvapi_run ld w0) as (w1 & E1 & O1 & S1 & L1 & Q1 & C1).
  unfold main. unfold bind at 1 2 3 4. unfold printf at 1 2 3 4. unfold modify.
  unfold bind at 1.
  change (put_stdout (rule_eq +++ nl +++ nl) _) with w0.
  rewrite E1. clear E1.
  unfold startup_succeeds, init_succeeds, enumerated_count, released_at_exit.
  change (calls w0) with (@nil Event) in C1.
  change (driver_state w0) with d in S1.
  change (stdout w0) with (firstn 4 report_header) in O1.
  set (lib := dlopen ld NVAPI_LIBRARY) in *.
  set (qi := dlsym ld lib "nvapi_QueryInterface") in *.
  pose proof (init_nvapi_run drv any_call (fun _ _ => I) w1) as HI.
  rewrite S1 in HI.
  destruct (query_interface drv QUERY_NVAPI_INITIALIZE d) as [ifn d1].
  destruct (call_void drv ifn d1) as [ist d2]. cbn [fst].
  destruct (lib =? NULL) eqn:Hlib.
  { (* the library does not open *)
    apply Z.eqb_eq in Hlib.
    exists 1, w1. split; [reflexivity |]. split.
    - left. split; [exact Hlib |]. rewrite C1, Hlib. reflexivity.
    - left. split; [intros (H & _); contradiction |].
      split; [reflexivity | exact O1]. }
  apply Z.eqb_neq in Hlib. specialize (Q1 Hlib).
  destruct (qi =? NULL) eqn:Hqi.
  { (* the entry symbol is missing *)
    apply Z.eqb_eq in Hqi.
    exists 1, w1. split; [reflexivity |]. split.
    - right. split; [exact Hlib |].
      exists [EvDlopen lib; EvDlsym lib qi]. rewrite C1. reflexivity.
    - left. split; [intros (_ & H & _); contradiction |].
      split; [reflexivity | exact O1]. }
  apply Z.eqb_neq in Hqi. pose proof Hqi as Hqi'. rewrite <- Q1 in Hqi.
  cbn [orb negb Z.eqb].
  destruct (HI Hqi) as (w2 & E2 & G2 & S2 & O2). clear HI.
  unfold bind at 1. rewrite E2. clear E2.
  assert (L2 : nvapi_lib w2 = lib) by (destruct G2 as (L & _); congruence).
  assert (Q2 : nvapi_QueryInterface w2 <> NULL)
    by (destruct G2 as (_ & Q & _); congruence).
  assert (Fail2 :
            exists w',
              (lib0 <- read nvapi_lib;; do_dlclose lib0;;; ret 1) w2
                = Returns 1 w' /\
              stdout w' = stdout w2 /\
              exists before, calls w' = before ++ [EvDlclose lib]).
  { exists (record_call (EvDlclose (nvapi_lib w2)) w2).
    split; [reflexivity |]. split; [reflexivity |].
    exists (calls w2). simpl. rewrite L2. reflexivity. }
  destruct (ifn =? NULL) eqn:Hifn; cbn [negb andb] in *.
  { (* the initialize entry does not resolve *)
    destruct Fail2 as (w' & E & O & R).
    exists 1, w'. split; [exact E |]. split; [right; split; assumption |].
    left. split.
    - intros (_ & _ & H & _). apply Z.eqb_eq in Hifn. contradiction.
    - split; [reflexivity |]. rewrite O, O2. exact O1. }
  destruct (ist =? 0) eqn:Hist; cbn [negb Z.eqb] in *.
  2:{ (* initialisation is refused *)
    destruct Fail2 as (w' & E & O & R).
    exists 1, w'. split; [exact E |]. split; [right; split; assumption |].
    left. split.
    - intros (_ & _ & _ & H). apply Z.eqb_neq in Hist. contradiction.
    - split; [reflexivity |]. rewrite O, O2. exact O1. }
  clear Fail2.
  apply Z.eqb_neq in Hifn. apply Z.eqb_eq in Hist.
  assert (Hinit : lib <> NULL /\ qi <> NULL /\ ifn <> NULL /\ ist = 0)
    by (repeat split; assumption).
  assert (O2' : stdout w2 = report_header)
    by (rewrite O2, O1; reflexivity).
  clear O2 O1.
  pose proof (enum_physical_gpus_run drv any_call (fun _ _ => I) w2
                handles_uninit 0 Q2) as HE.
  rewrite S2 in HE.
  destruct (query_interface drv QUERY_NVAPI_ENUM_PHYSICAL_GPUS d2) as [efn d3].
  destruct (call_enum drv efn handles_uninit 0 d3) as [eres d4].
  destruct HE as (w3 & E3 & G3 & O3).
  unfold bind at 1. rewrite E3. clear E3.
  assert (L3 : nvapi_lib w3 = lib) by (destruct G3 as (L & _); congruence).
  assert (Q3 : nvapi_QueryInterface w3 <> NULL)
    by (destruct G3 as (_ & Q & _); congruence).
  assert (Fail3 :
            exists w',
              (unload_nvapi drv;;; ret 1) w3 = Returns 1 w' /\
              stdout w' = report_header /\
              exists before, calls w' = before ++ [EvDlclose lib]).
  { destruct (unload_nvapi_closes w3) as (w4 & E4 & O4 & R4);
      [rewrite L3; exact Hlib |].
    exists w4. split; [unfold bind; rewrite E4; reflexivity |].
    split; [rewrite O4, O3; exact O2' |].
    rewrite L3 in R4. exact R4. }
  destruct (efn =? NULL) eqn:Hefn.
  { (* the enumeration entry does not resolve *)
    cbn [negb Z.eqb].
    destruct Fail3 as (w' & E & O & R).
    exists 1, w'. split; [exact E |]. split; [right; split; assumption |].
    right. left. split; [exact Hinit |]. split.
    - intros (_ & _ & _ & _ & H & _). apply Z.eqb_eq in Hefn. contradiction.
    - split; [reflexivity | exact O]. }
  destruct eres as [[est hs] n]. cbn [fst snd].
  destruct (est =? 0) eqn:Hest; cbn [negb Z.eqb].
  2:{ (* enumeration is refused *)
    destruct Fail3 as (w' & E & O & R).
    exists 1, w'. split; [exact E |]. split; [right; split; assumption |].
    right. left. split; [exact Hinit |]. split.
    - intros (_ & _ & _ & _ & _ & H). apply Z.eqb_neq in Hest. contradiction.
    - split; [reflexivity | exact O]. }
  clear Fail3.
  (* past enumeration: the devices, then cleanup *)
  unfold bind at 1. unfold printf at 1. unfold modify at 1.
  fold (line_found n).
  set (w3' := put_stdout (line_found n) w3).
  destruct (loop_blocks hs (gpu_indices n) w3' Q3)
    as (w4 & blocks & E4 & O4 & B4).
  destruct (returns_main_loop drv hs (gpu_indices n) w3' Q3)
    as ([] & w4' & E4' & G4).
  rewrite E4 in E4'. injection E4' as <-.
  unfold bind at 1. rewrite E4. clear E4.
  assert (L4 : nvapi_lib w4 = lib) by (destruct G4 as (L & _); exact (eq_trans L L3)).
  destruct (unload_nvapi_closes w4) as (w5 & E5 & O5 & R5);
    [rewrite L4; exact Hlib |].
  unfold bind at 1. rewrite E5. clear E5.
  exists 0, (put_stdout ("Done." +++ nl) w5).
  split; [reflexivity |]. split.
  - right. split; [exact Hlib |]. rewrite L4 in R5. exact R5.
  - right. right.
    apply Z.eqb_neq in Hefn. apply Z.eqb_eq in Hest.
    split; [repeat split; assumption |].
    split; [reflexivity |].
    exists blocks. split; [| exact B4].
    cbn [stdout put_stdout]. rewrite O5, O4.
    subst w3'. cbn [stdout put_stdout]. rewrite O3, O2'.
    rewrite <- !app_assoc. reflexivity.
Qed.

Lemma startup_succeeds_init (d : D) :
  startup_succeeds drv ld d -> init_succeeds drv ld d.
Proof.
  unfold startup_succeeds, init_succeeds.
  destruct (query_interface drv QUERY_NVAPI_INITIALIZE d) as [ifn d1].
  destruct (call_void drv ifn d1) as [ist d2].
  destruct (query_interface drv QUERY_NVAPI_ENUM_PHYSICAL_GPUS d2) as [efn d3].
  destruct (call_enum drv efn handles_uninit 0 d3) as [eres d4].
  cbn [fst]. tauto.
Qed.

(** A run that gets past enumeration exits with 0 after the count and the
    blocks of the device loop. *)
Lemma main_succeeds (d : D) :
  startup_succeeds drv ld d ->
  exists w' blocks,
    main ld drv (initial_world d) = Returns 0 w' /\
    stdout w' =
      report_header ++ [line_found (enumerated_count drv d)]
        ++ List.concat blocks ++ ["Done." +++ nl] /\
    Forall2 B (gpu_indices (enumerated_count drv d)) blocks.
Proof.
  intros Hs.
  destruct (main_outcome d)
    as (code & w' & E & R &
        [(Hn & _) | [(_ & Hn & _) | (_ & -> & blocks & O & HB)]]).
  - elim Hn. apply startup_succeeds_init. exact Hs.
  - contradiction.
  - exists w', blocks. split; [exact E | split; assumption].
Qed.

End OutcomeOf.

Section Outcome.

Context {D : Type}.
Variable ld : Loader.
Variable drv : Driver D.

(** C6 (amended).  From a fresh process [main] always returns, with exit
    code 0 or 1.  The code is 0 exactly when the run gets past load,
    initialisation and enumeration, whatever count the driver reported: the
    report then holds the count and one completed block for each device
    index below it, which is no block at all when the count is 0.  The code
    is 1 when the library or its entry symbol is missing, when
    initialisation fails or when enumeration fails, and the report then
    stops after the banner or after the initialisation line.  On every path
    on which the library was opened, the last call to leave the program
    closes it. *)
Theorem main_exit_code (d : D) :
  exists code w',
    main ld drv (initial_world d) = Returns code w' /\
    (code = 0 \/ code = 1) /\
    (code = 0 <-> startup_succeeds drv ld d) /\
    released_at_exit ld w' /\
    ((code = 1 /\
      (stdout w' = firstn 4 report_header \/ stdout w' = report_header)) \/
     (code = 0 /\
      exists blocks,
        stdout w' =
          report_header ++ [line_found (enumerated_count drv d)]
            ++ List.concat blocks ++ ["Done." +++ nl] /\
        Forall2 device_block (gpu_indices (enumerated_count drv d)) blocks /\
        List.length blocks = Z.to_nat (enumerated_count drv d))).
Proof.
  pose proof (startup_succeeds_init ld drv d) as Hsub.
  destruct (main_outcome ld drv device_block (main_loop_blocks_run drv) d)
    as (code & w' & E & R &
        [(Hn & -> & O) | [(Hi & Hn & -> & O) | (Hs & -> & blocks & O & B)]]);
    eexists _, w'; (split; [exact E |]).
  - split; [right; reflexivity |]. split; [| split; [exact R |]].
    + split; [discriminate | intros H; elim Hn; apply Hsub; exact H].
    + left. split; [reflexivity | left; exact O].
  - split; [right; reflexivity |]. split; [| split; [exact R |]].
    + split; [discriminate | intros H; contradiction].
    + left. split; [reflexivity | right; exact O].
  - split; [left; reflexivity |]. split; [| split; [exact R |]].
    + split; [intros _; exact Hs | reflexivity].
    + right. split; [reflexivity |]. exists blocks.
      split; [exact O | split; [exact B |]].
      rewrite <- (Forall2_length B). unfold gpu_indices.
      rewrite length_map, length_seq. reflexivity.
Qed.

(** X14.  What [main] prints on stdout, from the answers of the loader and
    of the driver.  When the library, its entry symbol or initialisation
    fails, the run exits with 1 after the four banner lines.  When
    initialisation succeeded and enumeration failed, it exits with 1 after
    the banner and the line saying that initialisation succeeded.  When
    enumeration succeeded too, it exits with 0 after the banner, the
    initialisation line, the count the driver wrote, one block of eight
    lines for each index below that count, in order, and "Done.". *)
Theorem main_report (d : D) :
  exists code w',
    main ld drv (initial_world d) = Returns code w' /\
    ((~ init_succeeds drv ld d /\ code = 1 /\
      stdout w' = firstn 4 report_header) \/
     (init_succeeds drv ld d /\ ~ startup_succeeds drv ld d /\ code = 1 /\
      stdout w' = report_header) \/
     (startup_succeeds drv ld d /\ code = 0 /\
      exists blocks,
        stdout w' =
          report_header ++ [line_found (enumerated_count drv d)]
            ++ List.concat blocks ++ ["Done." +++ nl] /\
        Forall2 device_block (gpu_indices (enumerated_count drv d)) blocks)).
Proof.
  destruct (main_outcome ld drv device_block (main_loop_blocks_run drv) d)
    as (code & w' & E & _ & H).
  exists code, w'. split; assumption.
Qed.

End Outcome.

(** C6, as stated, fails: an exit code of 0 does not need a completed
    device report.  When the driver enumerates no device the run gets past
    load, initialisation and enumeration, prints the count 0 and "Done."
    and no device block, and exits with 0. *)
Lemma main_exits_zero_without_device_report :
  exists w',
    main sim_loader (sim_driver sim_no_gpus) (initial_world 0%nat)
      = Returns 0 w' /\
    startup_succeeds (sim_driver sim_no_gpus) sim_loader 0%nat /\
    enumerated_count (sim_driver sim_no_gpus) 0%nat = 0 /\
    stdout w' = report_header ++ [line_found 0; "Done." +++ nl].
Proof.
  exists (world_of (main sim_loader (sim_driver sim_no_gpus)
                      (initial_world 0%nat))).
  split; [vm_compute; reflexivity |].
  split; [vm_compute; repeat split; discriminate |].
  split; [reflexivity |].
  vm_compute; reflexivity.
Qed.

(** ** Unresolved interfaces in the report *)

Section Unresolved.

Context {D : Type}.
Variable ld : Loader.
Variable drv : Driver D.

Lemma report_voltage_text (r voltage_uv : Z) (w : World D) :
  report_voltage r voltage_uv w
    = Returns tt (put_stdout (voltage_text r voltage_uv) w).
Proof. unfold report_voltage, voltage_text. destruct (r =? 0); reflexivity. Qed.

Lemma report_thermals_text (r hotspot vram : Z) (w : World D) :
  exists w',
    report_thermals r hotspot vram w = Returns tt w' /\
    stdout w' = stdout w ++ thermal_text r hotspot vram /\
    nvapi_QueryInterface w' = nvapi_QueryInterface w.
Proof.
  unfold report_thermals, thermal_text, bind, printf, modify.
  destruct (r =? 0); [destruct (hotspot >=? 0), (vram >=? 0) |];
    eexists; (split; [reflexivity |]); cbn; rewrite <- ?app_assoc;
    split; reflexivity.
Qed.

Lemma voltage_text_line (r voltage_uv : Z) :
  voltage_line (voltage_text r voltage_uv).
Proof.
  unfold voltage_text. destruct (r =? 0); [right; eexists | left]; reflexivity.
Qed.

Lemma thermal_text_lines (handle mask : Z) (w w' : World D) (r hs vr : Z) :
  get_thermals drv handle mask 0 0 w = Returns (r, hs, vr) w' ->
  temperature_lines (thermal_text r hs vr).
Proof.
  intros E.
  destruct (get_thermals_result drv handle mask 0 0 w w' r hs vr E)
    as [(-> & _) | (-> & Hh & Hv)]; unfold thermal_text; cbn [Z.eqb].
  - left. reflexivity.
  - right. eexists _, _. split; [reflexivity |]. split.
    + destruct Hh as [-> | Hh]; [left; reflexivity |].
      right. exists hs. split; [exact Hh |].
      destruct (Z.geb_spec hs 0); [reflexivity | lia].
    + destruct Hv as [-> | Hv]; [left; reflexivity |].
      right. exists vr. split; [exact Hv |].
      destruct (Z.geb_spec vr 0); [reflexivity | lia].
Qed.

(** The body of the device loop, step by step: the three readers are
    called in turn, each once the query interface is bound, and the block
    is made of what they returned. *)
Lemma main_gpu_steps (handles : list Z) (i : Z) (w : World D) :
  nvapi_QueryInterface w <> NULL ->
  exists m r uv r' hs vr wa wa' wb wb' wc wc' w',
    nvapi_QueryInterface wa <> NULL /\
    calculate_thermals_mask drv (handle_at handles i) wa = Returns m wa' /\
    nvapi_QueryInterface wb <> NULL /\
    get_voltage drv (handle_at handles i) 0 wb = Returns (r, uv) wb' /\
    nvapi_QueryInterface wc <> NULL /\
    get_thermals drv (handle_at handles i) m 0 0 wc = Returns (r', hs, vr) wc' /\
    main_gpu drv handles i w = Returns tt w' /\
    stdout w' =
      stdout w ++ gpu_heading i m ++ [voltage_text r uv]
        ++ thermal_text r' hs vr ++ [nl] /\
    nvapi_QueryInterface w' = nvapi_QueryInterface w.
Proof.
  intros Hqi.
  unfold main_gpu. unfold bind at 1 2 3. unfold printf at 1 2 3. unfold modify.
  set (handle := handle_at handles i).
  set (w1 := put_stdout (rule_dash +++ nl) _).
  destruct (returns_calculate_thermals_mask drv handle w1 Hqi)
    as (m & w2 & E2 & _).
  destruct (returning_calculate_thermals_mask drv handle w1 m w2 E2)
    as (O2 & _ & Q2 & _).
  unfold bind at 1. rewrite E2.
  unfold bind at 1. unfold printf at 1. unfold modify.
  set (w3 := put_stdout (line_mask m) w2).
  assert (Q3 : nvapi_QueryInterface w3 <> NULL)
    by (change (nvapi_QueryInterface w2 <> NULL); rewrite Q2; exact Hqi).
  destruct (returns_get_voltage drv handle 0 w3 Q3) as ([r uv] & w4 & E4 & _).
  destruct (returning_get_voltage drv handle 0 w3 (r, uv) w4 E4)
    as (O4 & _ & Q4 & _).
  unfold bind at 1. rewrite E4.
  unfold bind at 1. rewrite report_voltage_text.
  set (w5 := put_stdout (voltage_text r uv) w4).
  assert (Q5 : nvapi_QueryInterface w5 <> NULL)
    by (change (nvapi_QueryInterface w4 <> NULL); rewrite Q4; exact Q3).
  destruct (returns_get_thermals drv handle m 0 0 w5 Q5)
    as ([[r' hs] vr] & w6 & E6 & _).
  destruct (returning_get_thermals drv handle m 0 0 w5 (r', hs, vr) w6 E6)
    as (O6 & _ & Q6 & _).
  unfold bind at 1. rewrite E6.
  destruct (report_thermals_text r' hs vr w6) as (w7 & E7 & O7 & Q7).
  unfold bind at 1. rewrite E7.
  exists m, r, uv, r', hs, vr, w1, w2, w3, w4, w5, w6, (put_stdout nl w7).
  split; [exact Hqi |]. split; [exact E2 |].
  split; [exact Q3 |]. split; [exact E4 |].
  split; [exact Q5 |]. split; [exact E6 |].
  split; [reflexivity |].
  subst w5 w3 w1.
  cbn [stdout nvapi_QueryInterface put_stdout] in *.
  split.
  - rewrite O7, O6, O4, O2. unfold gpu_heading. rewrite <- !app_assoc.
    reflexivity.
  - rewrite Q7, Q6, Q4, Q2. reflexivity.
Qed.

(** *** What each reader returns when its query does not resolve *)

Lemma get_voltage_never (handle voltage_uv : Z) (w : World D) :
  never_resolves drv QUERY_NVAPI_VOLTAGE ->
  nvapi_QueryInterface w <> NULL ->
  get_voltage drv handle voltage_uv w
    = Returns (-1, voltage_uv) (resolved drv QUERY_NVAPI_VOLTAGE w).
Proof.
  intros Hn Hqi. unfold get_voltage, bind.
  rewrite get_nvapi_function_run by exact Hqi.
  rewrite (Hn (driver_state w)). reflexivity.
Qed.

Lemma get_thermals_never (handle mask hotspot vram : Z) (w : World D) :
  never_resolves drv QUERY_NVAPI_THERMALS ->
  nvapi_QueryInterface w <> NULL ->
  get_thermals drv handle mask hotspot vram w
    = Returns (-1, hotspot, vram) (resolved drv QUERY_NVAPI_THERMALS w).
Proof.
  intros Hn Hqi. unfold get_thermals, bind.
  rewrite get_nvapi_function_run by exact Hqi.
  rewrite (Hn (driver_state w)). reflexivity.
Qed.

Lemma calculate_thermals_mask_never (handle : Z) (w : World D) :
  never_resolves drv QUERY_NVAPI_THERMALS ->
  nvapi_QueryInterface w <> NULL ->
  calculate_thermals_mask drv handle w
    = Returns 1 (resolved drv QUERY_NVAPI_THERMALS w).
Proof.
  intros Hn Hqi.
  apply calculate_thermals_mask_unresolved; [exact Hqi | apply Hn].
Qed.

(** *** The block of a device, query by query *)

Lemma main_gpu_without_voltage (handles : list Z) (i : Z) (w : World D) :
  never_resolves drv QUERY_NVAPI_VOLTAGE ->
  nvapi_QueryInterface w <> NULL ->
  exists w' block,
    main_gpu drv handles i w = Returns tt w' /\
    stdout w' = stdout w ++ block /\
    block_without_voltage i block /\
    nvapi_QueryInterface w' = nvapi_QueryInterface w.
Proof.
  intros Hn Hqi.
  destruct (main_gpu_steps handles i w Hqi)
    as (m & r & uv & r' & hs & vr & wa & wa' & wb & wb' & wc & wc' & w'
        & _ & _ & Qb & Eb & _ & Ec & E & O & Q).
  rewrite (get_voltage_never _ 0 wb Hn Qb) in Eb. injection Eb as <- <- _.
  exists w', (gpu_heading i m ++ [line_voltage_na] ++ thermal_text r' hs vr
                ++ [nl]).
  split; [exact E |]. split; [exact O |]. split; [| exact Q].
  exists m, (thermal_text r' hs vr). split; [reflexivity |].
  exact (thermal_text_lines _ _ _ _ _ _ _ Ec).
Qed.

Lemma main_gpu_without_thermals (handles : list Z) (i : Z) (w : World D) :
  never_resolves drv QUERY_NVAPI_THERMALS ->
  nvapi_QueryInterface w <> NULL ->
  exists w' block,
    main_gpu drv handles i w = Returns tt w' /\
    stdout w' = stdout w ++ block /\
    block_without_thermals i block /\
    nvapi_QueryInterface w' = nvapi_QueryInterface w.
Proof.
  intros Hn Hqi.
  destruct (main_gpu_steps handles i w Hqi)
    as (m & r & uv & r' & hs & vr & wa & wa' & wb & wb' & wc & wc' & w'
        & Qa & Ea & _ & _ & Qc & Ec & E & O & Q).
  rewrite (calculate_thermals_mask_never _ wa Hn Qa) in Ea.
  injection Ea as <- _.
  rewrite (get_thermals_never _ 1 0 0 wc Hn Qc) in Ec.
  injection Ec as <- <- <- _.
  exists w', (gpu_heading i 1
                ++ [voltage_text r uv; line_hotspot_err; line_memory_err; nl]).
  split; [exact E |]. split; [exact O |]. split; [| exact Q].
  exists (voltage_text r uv). split; [reflexivity | apply voltage_text_line].
Qed.

(** With the voltage query unknown and the thermal queries of the device
    accepted, the block says so for the voltage and shows both
    temperatures. *)
Lemma main_gpu_voltage_skipped (handles : list Z) (i raw9 raw15 : Z)
    (w : World D) :
  never_resolves drv QUERY_NVAPI_VOLTAGE ->
  nvapi_QueryInterface w <> NULL ->
  preserves_header drv ->
  always_resolves drv QUERY_NVAPI_THERMALS ->
  accepts_thermals drv (handle_at handles i) raw9 raw15 ->
  exists w',
    main_gpu drv handles i w = Returns tt w' /\
    stdout w' =
      stdout w ++ gpu_heading i (-1)
        ++ [line_voltage_na;
            decoded_line line_hotspot line_hotspot_na raw9;
            decoded_line line_memory line_memory_na raw15; nl].
Proof.
  intros Hn Hqi Hdrv Hrt Hacc.
  destruct (main_gpu_steps handles i w Hqi)
    as (m & r & uv & r' & hs & vr & wa & wa' & wb & wb' & wc & wc' & w'
        & Qa & Ea & Qb & Eb & Qc & Ec & E & O & _).
  destruct (calculate_thermals_mask_accepted drv _ raw9 raw15 wa Qa Hdrv Hrt Hacc)
    as (wa2 & Ea2 & _).
  rewrite Ea in Ea2. injection Ea2 as -> _.
  rewrite (get_voltage_never _ 0 wb Hn Qb) in Eb. injection Eb as <- <- _.
  destruct (get_thermals_run drv (handle_at handles i) (-1) 0 0 wc Qc (Hrt _))
    as (wc2 & Ec2 & _).
  unfold thermals_answer in Ec2.
  destruct (Hacc (resolves_to drv QUERY_NVAPI_THERMALS wc)
              (thermals_request (-1))
              (driver_state (resolved drv QUERY_NVAPI_THERMALS wc)))
    as (Tst & T9 & T15); [eexists; reflexivity | reflexivity |].
  destruct (fst (call_thermals drv _ (handle_at handles i)
                   (thermals_request (-1)) _)) as [tst t'].
  cbn [fst snd] in Tst, T9, T15. subst tst. cbn [Z.eqb] in Ec2.
  cbv zeta in Ec2. rewrite T9, T15 in Ec2.
  rewrite Ec in Ec2. injection Ec2 as -> -> -> _.
  exists w'. split; [exact E |]. rewrite O.
  unfold voltage_text, thermal_text, decoded_line. cbn [Z.eqb]. cbv zeta.
  rewrite !Z.gtb_ltb, !kept_sign.
  destruct ((0 <? Z.quot raw9 256) && (Z.quot raw9 256 <? 255)),
    ((0 <? Z.quot raw15 256) && (Z.quot raw15 256 <? 255)); reflexivity.
Qed.

(** With the thermal query unknown and the voltage query of the device
    accepted, the block shows the voltage and says "Error reading" for
    both temperatures. *)
Lemma main_gpu_thermals_skipped (handles : list Z) (i uv : Z) (w : World D) :
  never_resolves drv QUERY_NVAPI_THERMALS ->
  nvapi_QueryInterface w <> NULL ->
  always_resolves drv QUERY_NVAPI_VOLTAGE ->
  accepts_voltage drv (handle_at handles i) uv ->
  exists w',
    main_gpu drv handles i w = Returns tt w' /\
    stdout w' =
      stdout w ++ gpu_heading i 1
        ++ [line_voltage uv; line_hotspot_err; line_memory_err; nl].
Proof.
  intros Hn Hqi Hrv Hvolt.
  destruct (main_gpu_steps handles i w Hqi)
    as (m & r & uv' & r' & hs & vr & wa & wa' & wb & wb' & wc & wc' & w'
        & Qa & Ea & Qb & Eb & Qc & Ec & E & O & _).
  rewrite (calculate_thermals_mask_never _ wa Hn Qa) in Ea.
  injection Ea as <- _.
  rewrite (get_thermals_never _ 1 0 0 wc Hn Qc) in Ec.
  injection Ec as <- <- <- _.
  destruct (get_voltage_run drv (handle_at handles i) 0 wb Qb (Hrv _))
    as (wb2 & Eb2 & _).
  unfold voltage_answer in Eb2.
  destruct (Hvolt (resolves_to drv QUERY_NVAPI_VOLTAGE wb)
              (driver_state (resolved drv QUERY_NVAPI_VOLTAGE wb)))
    as (Vst & Vuv); [eexists; reflexivity |].
  destruct (fst (call_voltage drv _ (handle_at handles i) voltage_request _))
    as [vst v'].
  cbn [fst snd] in Vst, Vuv. subst vst uv. cbn [Z.eqb] in Eb2.
  rewrite Eb in Eb2. injection Eb2 as -> -> _.
  exists w'. split; [exact E |]. rewrite O. reflexivity.
Qed.

(** *** The loop over the devices *)

Lemma main_loop_of_blocks (B : Z -> list string -> Prop) (handles : list Z) :
  (forall i (w : World D),
      nvapi_QueryInterface w <> NULL ->
      exists w' block,
        main_gpu drv handles i w = Returns tt w' /\
        stdout w' = stdout w ++ block /\
        B i block /\
        nvapi_QueryInterface w' = nvapi_QueryInterface w) ->
  forall indices (w : World D),
    nvapi_QueryInterface w <> NULL ->
    exists w' blocks,
      main_loop drv handles indices w = Returns tt w' /\
      stdout w' = stdout w ++ List.concat blocks /\
      Forall2 B indices blocks.
Proof.
  intros Hbody. induction indices as [| i rest IH]; intros w Hqi.
  - exists w, []. cbn. rewrite app_nil_r. repeat split. constructor.
  - cbn [main_loop]. unfold bind.
    destruct (Hbody i w Hqi) as (w1 & block & E & O & HB & Q).
    rewrite E.
    destruct (IH w1) as (w' & blocks & E' & O' & B'); [rewrite Q; exact Hqi |].
    exists w', (block :: blocks). split; [exact E' |]. split.
    + rewrite O', O. cbn [List.concat]. rewrite app_assoc. reflexivity.
    + constructor; assumption.
Qed.

Lemma main_loop_without_voltage (handles indices : list Z) (w : World D) :
  never_resolves drv QUERY_NVAPI_VOLTAGE ->
  nvapi_QueryInterface w <> NULL ->
  exists w' blocks,
    main_loop drv handles indices w = Returns tt w' /\
    stdout w' = stdout w ++ List.concat blocks /\
    Forall2 block_without_voltage indices blocks.
Proof.
  intros Hn. apply main_loop_of_blocks.
  intros i w0. apply main_gpu_without_voltage. exact Hn.
Qed.

Lemma main_loop_without_thermals (handles indices : list Z) (w : World D) :
  never_resolves drv QUERY_NVAPI_THERMALS ->
  nvapi_QueryInterface w <> NULL ->
  exists w' blocks,
    main_loop drv handles indices w = Returns tt w' /\
    stdout w' = stdout w ++ List.concat blocks /\
    Forall2 block_without_thermals indices blocks.
Proof.
  intros Hn. apply main_loop_of_blocks.
  intros i w0. apply main_gpu_without_thermals. exact Hn.
Qed.


End Unresolved.

(** ** Cleanup *)

Section Cleanup.

Context {D : Type}.
Variable ld : Loader.
Variable drv : Driver D.

(** C8.  [unload_nvapi] tests both globals before it uses them and never
    clears them.  In a process that loaded the library, a call to it
    returns after closing the library, as the last thing it does, and
    leaves [nvapi_lib] and [nvapi_QueryInterface] holding the handle and the
    address they held before: both still pass the tests of lines 144 and
    150, so a second call would call through the address of a symbol of the
    library that was closed and close the handle again. *)
Theorem unload_nvapi_leaves_stale_pointers (d : D) :
  let lib := dlopen ld NVAPI_LIBRARY in
  let qi := dlsym ld lib "nvapi_QueryInterface" in
  lib <> NULL -> qi <> NULL ->
  exists w1 w2 before,
    load_nvapi ld (initial_world d) = Returns 0 w1 /\
    unload_nvapi drv w1 = Returns tt w2 /\
    calls w2 = before ++ [EvDlclose lib] /\
    nvapi_lib w2 = lib /\
    nvapi_QueryInterface w2 = qi /\
    negb (nvapi_QueryInterface w2 =? NULL) = true /\
    negb (nvapi_lib w2 =? NULL) = true.
Proof.
  intros lib qi Hlib Hqi.
  destruct (load_nvapi_run ld (initial_world d))
    as (w1 & E1 & _ & _ & L1 & Q1 & _).
  fold lib qi in E1, L1, Q1. specialize (Q1 Hlib).
  apply Z.eqb_neq in Hlib, Hqi. rewrite Hlib, Hqi in E1. cbn [orb] in E1.
  destruct (unload_nvapi_run drv w1) as (w2 & E2 & Q2 & L2 & _ & C2).
  rewrite L1, Hlib in C2.
  exists w1, w2. eexists.
  split; [exact E1 |]. split; [exact E2 |].
  split; [rewrite C2, app_assoc; reflexivity |].
  rewrite L2, L1, Q2, Q1, Hlib, Hqi. repeat split.
Qed.

End Cleanup.

(** ** The unresolved queries on the simulated driver *)

Lemma sim_no_voltage_never :
  never_resolves (sim_driver sim_no_voltage) QUERY_NVAPI_VOLTAGE.
Proof. intros n. reflexivity. Qed.

Lemma sim_no_voltage_resolves :
  always_resolves (sim_driver sim_no_voltage) QUERY_NVAPI_THERMALS.
Proof. intros n. vm_compute. discriminate. Qed.

Lemma sim_no_voltage_accepts_thermals (handle : Z) :
  accepts_thermals (sim_driver sim_no_voltage) handle 6400 7680.
Proof.
  intros fn t n Hfn Hver.
  rewrite (sim_thermal_entry sim_no_voltage fn eq_refl Hfn).
  simpl. rewrite Hver. repeat split.
Qed.

Lemma sim_no_thermals_never :
  never_resolves (sim_driver sim_no_thermals) QUERY_NVAPI_THERMALS.
Proof. intros n. reflexivity. Qed.

Lemma sim_no_thermals_resolves :
  always_resolves (sim_driver sim_no_thermals) QUERY_NVAPI_VOLTAGE.
Proof. intros n. vm_compute. discriminate. Qed.

Lemma sim_no_thermals_accepts_voltage (handle : Z) :
  accepts_voltage (sim_driver sim_no_thermals) handle 850000.
Proof. intros fn n [n0 ->]. split; reflexivity. Qed.


(** The report of a run on the driver without the voltage query, as
    printed after the count. *)
Example report_without_voltage :
  exists w',
    main sim_loader (sim_driver sim_no_voltage) (initial_world 0%nat)
      = Returns 0 w' /\
    skipn 6 (stdout w') =
      [rule_dash +++ nl;
       "GPU 0:" +++ nl;
       rule_dash +++ nl;
       "Thermals mask: 0xffffffff" +++ nl +++ nl;
       "Core Voltage: Not available" +++ nl;
       "Hotspot Temperature: 25 °C" +++ nl;
       "Memory Temperature: 30 °C" +++ nl;
       nl;
       "Done." +++ nl].
Proof.
  exists (world_of (main sim_loader (sim_driver sim_no_voltage)
                      (initial_world 0%nat))).
  split; vm_compute; reflexivity.
Qed.

(** The report of a run on the driver without the thermal query. *)
Example report_without_thermals :
  exists w',
    main sim_loader (sim_driver sim_no_thermals) (initial_world 0%nat)
      = Returns 0 w' /\
    skipn 6 (stdout w') =
      [rule_dash +++ nl;
       "GPU 0:" +++ nl;
       rule_dash +++ nl;
       "Thermals mask: 0x00000001" +++ nl +++ nl;
       "Core Voltage: 0.850 V (850000 µV)" +++ nl;
       "Hotspot Temperature: Error reading" +++ nl;
       "Memory Temperature: Error reading" +++ nl;
       nl;
       "Done." +++ nl].
Proof.
  exists (world_of (main sim_loader (sim_driver sim_no_thermals)
                      (initial_world 0%nat))).
  split; vm_compute; reflexivity.
Qed.

Lemma unload_nvapi_leaves_stale_pointers_witness :
  exists w1 w2 before,
    load_nvapi sim_loader (initial_world 0%nat) = Returns 0 w1 /\
    unload_nvapi (sim_driver sim_two_gpus) w1 = Returns tt w2 /\
    calls w2 = before ++ [EvDlclose 0x55d0c0de] /\
    nvapi_lib w2 = 0x55d0c0de /\
    nvapi_QueryInterface w2 = 0x7f00deadbeef.
Proof.
  destruct (unload_nvapi_leaves_stale_pointers sim_loader
              (sim_driver sim_two_gpus) 0%nat)
    as (w1 & w2 & before & E1 & E2 & C & L & Q & _).
  - vm_compute; discriminate.
  - vm_compute; discriminate.
  - exists w1, w2, before. repeat split; assumption.
Defined.
